(** * AgentVest: the volatility- and correlation-adjusted risk manager

    A shallow embedding of [src/agents/risk_manager.py] (with the
    [Price] model of [src/data/models.py] and [prices_to_df] of
    [src/tools/api.py]) and the properties of its position limits.

    Numbers.  Python floats are idealised as exact rationals [Q]: sums,
    products, quotients and comparisons are those of the rationals, so binary64
    rounding and signed zeros are outside the model.  Two things a float can
    be and a rational cannot are kept where the code meets them: NaN, which is
    an [option] that is [None], and the infinities of a quotient by a zero
    close, which are values of [Float].  [np.sqrt] is the one irrational
    operation the code uses; the development is parametric in it (a
    [Variable] of the main section), so every theorem holds whatever the
    square root is.  The deviations of [rolling(...).std()] are a parameter as
    well: pandas computes them by an online update over the series, which
    agrees with the two-pass [Series.std] up to rounding only, and the agent
    compares the one with the other.

    Order.  Python visits the members of a set in an order the program does
    not fix.  The order of each set the agent iterates is a parameter, given
    as a rank of the symbols, so every theorem holds whatever the order is. *)

From Stdlib Require Import QArith Qabs Qround Lqa ZArith NArith List String Ascii Lia.
From Stdlib Require Import Sorted Permutation.
From stdpp Require Import gmap strings list sorting.

Set Default Proof Using "Type".

Local Open Scope Q_scope.

(** ** Python numeric built-ins on rationals *)

Definition Qltb (a b : Q) : bool := negb (Qle_bool b a).

(** [min(a, b)]: the first argument unless the second is strictly smaller. *)
Definition py_min (a b : Q) : Q := if Qltb b a then b else a.

(** [max(a, b)]: the first argument unless the second is strictly larger. *)
Definition py_max (a b : Q) : Q := if Qltb a b then b else a.

(** ** Risk parameters ([CRYPTO_RISK_FACTORS]) *)

Module CRYPTO_RISK_FACTORS.
Definition volatility_multiplier : Q := 2.0.
Definition max_position_size : Q := 0.15.
Definition min_position_size : Q := 0.02.
Definition liquidity_buffer : Q := 0.20.
Definition correlation_threshold : Q := 0.7.
Definition extreme_volatility_threshold : Q := 0.10.
Definition safe_volatility_threshold : Q := 0.03.
End CRYPTO_RISK_FACTORS.

(** ** Position limit calculators *)

(** The tier chain of [calculate_volatility_adjusted_limit]: the value of
    [vol_multiplier] before the bounds are applied. *)
Definition vol_tier (annualized_volatility : Q) : Q :=
  if Qltb annualized_volatility 0.25 then 1.0
  else if Qltb annualized_volatility 0.50 then
    0.85 - (annualized_volatility - 0.25) * 0.4
  else if Qltb annualized_volatility 0.75 then
    0.65 - (annualized_volatility - 0.50) * 0.6
  else if Qltb annualized_volatility 1.00 then 0.30
  else 0.13.

(** [vol_multiplier = max(0.13, min(1.0, vol_multiplier))]. *)
Definition vol_multiplier (annualized_volatility : Q) : Q :=
  py_max 0.13 (py_min 1.0 (vol_tier annualized_volatility)).

Definition calculate_volatility_adjusted_limit (annualized_volatility : Q) : Q :=
  let base_limit := CRYPTO_RISK_FACTORS.max_position_size in
  base_limit * vol_multiplier annualized_volatility.

Definition calculate_correlation_multiplier (avg_correlation : Q) : Q :=
  if Qle_bool 0.80 avg_correlation then 0.70
  else if Qle_bool 0.60 avg_correlation then 0.85
  else if Qle_bool 0.40 avg_correlation then 1.00
  else if Qle_bool 0.20 avg_correlation then 1.05
  else 1.10.

(** ** Price data ([Price], [prices_to_df]) *)

(** [time] is the string ["%Y-%m-%d %H:%M:%S"] written by [get_prices]; for
    this fixed-width format the order of the strings is the order of the
    timestamps [pd.to_datetime] parses from them. *)
Record Price := mkPrice {
  open : Q;
  close : Q;
  high : Q;
  low : Q;
  volume : Z;
  time : string
}.

(** A data frame is the list of its rows; a series is the list of its
    (index, value) pairs. *)
Definition DataFrame := list Price.
Definition Series := list (string * Q).

(** A float that is not NaN: a number or an infinity. *)
Inductive Float := Num (q : Q) | PosInfinity | NegInfinity.

Definition is_finite (x : Float) : bool :=
  match x with Num _ => true | _ => false end.

(** The numbers among a list of floats. *)
Definition finite_part (l : list Float) : list Q :=
  omap (fun x => match x with Num q => Some q | _ => None end) l.

(** A series of returns. *)
Definition ReturnSeries := list (string * Float).

Fixpoint insert_row (p : Price) (df : DataFrame) : DataFrame :=
  match df with
  | [] => [p]
  | r :: df' =>
      if String.leb (time p) (time r) then p :: r :: df'
      else r :: insert_row p df'
  end.

(** [df.sort_index()]. *)
Definition sort_index (df : DataFrame) : DataFrame := fold_right insert_row [] df.

(** [prices_to_df(prices)].  A frame built from no rows has no column, so
    [df["time"]] raises [KeyError]: that is [None]. *)
Definition prices_to_df (prices : list Price) : option DataFrame :=
  match prices with
  | [] => None
  | _ :: _ => Some (sort_index prices)
  end.

(** [df.empty]. *)
Definition df_empty (df : DataFrame) : bool :=
  match df with [] => true | _ :: _ => false end.

(** [prices_df["close"]]. *)
Definition close_column (df : DataFrame) : Series :=
  map (fun p => (time p, close p)) df.

(** ** Series operations (pandas) *)

Definition values {A} (s : list (string * A)) : list A := map snd s.

(** [s.dropna()]: the entries that are not NaN; an infinity is kept. *)
Definition dropna {A} (s : list (string * option A)) : list (string * A) :=
  omap (fun '(d, v) => match v with Some x => Some (d, x) | None => None end) s.

(** [c / prev - 1] on floats: a quotient by zero is an infinity of the sign
    of [c], and 0 / 0 is NaN. *)
Definition pct (c prev : Q) : option Float :=
  if Qeq_bool prev 0 then
    if Qltb 0 c then Some PosInfinity
    else if Qltb c 0 then Some NegInfinity
    else None
  else Some (Num (c / prev - 1)).

Fixpoint pct_change_from (prev : Q) (s : Series) : list (string * option Float) :=
  match s with
  | [] => []
  | (d, c) :: s' => (d, pct c prev) :: pct_change_from c s'
  end.

(** [s.pct_change()]: the first entry has no predecessor and is NaN. *)
Definition pct_change (s : Series) : list (string * option Float) :=
  match s with
  | [] => []
  | (d, c) :: s' => (d, None) :: pct_change_from c s'
  end.

(** [s.tail(n)]: the last [n] entries; none for [n = 0]; for a negative [n]
    all entries but the first [-n]. *)
Definition tail {A} (n : Z) (s : list A) : list A :=
  if (n <? 0)%Z then skipn (Z.to_nat (- n)) s
  else skipn (length s - Z.to_nat n) s.

Definition Qsum (l : list Q) : Q := fold_right Qplus 0 l.

Definition Qlen {A} (l : list A) : Q := inject_Z (Z.of_nat (length l)).

Definition mean (l : list Q) : Q := Qsum l / Qlen l.

Definition sum_sq_dev (l : list Q) : Q :=
  Qsum (map (fun x => (x - mean l) * (x - mean l)) l).

(** [(s <= v).mean()] for a series of truth values. *)
Definition mean_bool (l : list bool) : Q := Qlen (filter (fun b => b = true) l) / Qlen l.

(** [r <= v] where [v] may be NaN (every comparison with NaN is false). *)
Definition le_nan (r : Q) (v : option Q) : bool :=
  match v with Some x => Qle_bool r x | None => false end.

(** [float(v) if not np.isnan(v) else d]. *)
Definition nan_default (v : option Q) (d : Q) : Q :=
  match v with Some x => x | None => d end.

Record VolatilityMetrics := mkVolatilityMetrics {
  daily_volatility : Q;
  annualized_volatility : Q;
  volatility_percentile : Q;
  data_points : nat
}.

(** ** Iteration over a set *)

Fixpoint insert_ranked (rank : string -> nat) (x : string) (l : list string)
  : list string :=
  match l with
  | [] => [x]
  | y :: l' =>
      if (rank x <=? rank y)%nat then x :: y :: l'
      else y :: insert_ranked rank x l'
  end.

(** [for x in s] for a set [s]: its members by increasing rank.  Every order
    of the members is the one of some rank: of their [place] in that order. *)
Definition iter_set (rank : string -> nat) (s : gset string) : list string :=
  fold_right (insert_ranked rank) [] (elements s).

(** The place of the first occurrence of [x] in [l]. *)
Fixpoint place (x : string) (l : list string) : nat :=
  match l with
  | [] => 0%nat
  | y :: l' => if String.eqb x y then 0%nat else S (place x l')
  end.

Section RiskManager.

(** [np.sqrt]. *)
Variable sqrt : Q -> Q.

(** The deviation [rolling(window=w).std()] reports at the end of [history]
    for the window of its last [w] values, all of them numbers.  The values
    before the window are part of the argument because the online update has
    gone through them. *)
Variable rolling_value : nat -> list Float -> Q.

(** The ranks by which [all_tickers] and [active_positions] are iterated. *)
Variable all_tickers_rank : string -> nat.
Variable active_positions_rank : string -> nat.

(** The sample standard deviation (ddof = 1) of at least two values. *)
Definition sample_std (l : list Q) : Q := sqrt (sum_sq_dev l / (Qlen l - 1)).

(** [s.std()]: NaN below two values, and NaN when a value is an infinity
    (the mean is then an infinity or NaN, and so is every squared
    difference to it). *)
Definition std (l : list Float) : option Q :=
  if (length l <? 2)%nat then None
  else if forallb is_finite l then Some (sample_std (finite_part l))
  else None.

(** [s.rolling(window=w).std()]: entry [i] is the deviation of the [w] values
    ending at [i]; it is NaN while fewer than [w] values are available, and
    NaN when one of the [w] values is an infinity (the windowed functions
    read an infinity as a missing value) or when [w] is below two. *)
Definition rolling_std (w : nat) (s : ReturnSeries) : list (string * option Q) :=
  imap (fun i '(d, _) =>
          (d, if (i + 1 <? w)%nat then None
              else if (2 <=? w)%nat
                      && forallb is_finite (firstn w (skipn (i + 1 - w) (values s)))
                   then Some (rolling_value w (firstn (i + 1) (values s)))
                   else None)) s.

Definition calculate_volatility_metrics (prices_df : DataFrame) (lookback_days : Z)
  : VolatilityMetrics :=
  if (length prices_df <? 2)%nat then
    {| daily_volatility := CRYPTO_RISK_FACTORS.safe_volatility_threshold;
       annualized_volatility := CRYPTO_RISK_FACTORS.safe_volatility_threshold * sqrt 365;
       volatility_percentile := 100;
       data_points := length prices_df |}
  else
    let daily_returns := dropna (pct_change (close_column prices_df)) in
    if (length daily_returns <? 2)%nat then
      {| daily_volatility := CRYPTO_RISK_FACTORS.safe_volatility_threshold;
         annualized_volatility := CRYPTO_RISK_FACTORS.safe_volatility_threshold * sqrt 365;
         volatility_percentile := 100;
         data_points := length daily_returns |}
    else
      let recent_returns :=
        tail (Z.min lookback_days (Z.of_nat (length daily_returns))) daily_returns in
      let daily_vol := std (values recent_returns) in
      let annualized_vol := (fun d => d * sqrt 365) <$> daily_vol in
      let current_vol_percentile :=
        if (30 <=? length daily_returns)%nat then
          let rolling_vol := dropna (rolling_std 30 daily_returns) in
          if (0 <? length rolling_vol)%nat then
            Some (mean_bool (map (fun r => le_nan r daily_vol) (values rolling_vol)) * 100)
          else Some 50
        else Some 50 in
      {| daily_volatility :=
           nan_default daily_vol CRYPTO_RISK_FACTORS.safe_volatility_threshold;
         annualized_volatility :=
           nan_default annualized_vol
             (CRYPTO_RISK_FACTORS.safe_volatility_threshold * sqrt 365);
         volatility_percentile := nan_default current_vol_percentile 50.0;
         data_points := length recent_returns |}.

(** ** Correlation analysis (pandas [DataFrame.dropna] and [DataFrame.corr]) *)

Definition has_date (d : string) (s : ReturnSeries) : bool :=
  existsb (String.eqb d) (map fst s).

Definition value_at (d : string) (s : ReturnSeries) : Float :=
  match find (fun e => String.eqb d (fst e)) s with
  | Some e => snd e
  | None => Num 0
  end.

(** [pd.DataFrame(returns_by_ticker).dropna(how="any")]: one column per
    ticker, restricted to the dates every series has a value for.  (The rows
    of a symbol are taken to have distinct timestamps, as the klines of one
    request have.) *)
Definition aligned_returns (returns_by_ticker : list (string * ReturnSeries))
  : list (string * list Float) :=
  let dates :=
    match returns_by_ticker with
    | [] => []
    | (_, s) :: _ =>
        List.filter (fun d => forallb (fun c => has_date d (snd c)) returns_by_ticker)
                    (map fst s)
    end in
  map (fun c => (fst c, map (fun d => value_at d (snd c)) dates)) returns_by_ticker.

(** [returns_df.shape]. *)
Definition shape (df : list (string * list Float)) : nat * nat :=
  (match df with [] => 0%nat | c :: _ => length (snd c) end, length df).

Definition Qsum2 (f : Q -> Q -> Q) (x y : list Q) : Q :=
  Qsum (map (fun p => f (fst p) (snd p)) (combine x y)).

(** The rows of two columns where both values are numbers. *)
Definition finite_pairs (x y : list Float) : list (Q * Q) :=
  omap (fun p => match p with
                 | (Num a, Num b) => Some (a, b)
                 | _ => None
                 end) (combine x y).

(** Pearson's coefficient of two columns over the rows where both are
    numbers; NaN when there is no such row or a column has no variance. *)
Definition pearson (x y : list Float) : option Q :=
  match finite_pairs x y with
  | [] => None
  | pairs =>
      let x := map fst pairs in
      let y := map snd pairs in
      let mx := mean x in
      let my := mean y in
      let divisor := sqrt (sum_sq_dev x * sum_sq_dev y) in
      if Qeq_bool divisor 0 then None
      else Some (Qsum2 (fun a b => (a - mx) * (b - my)) x y / divisor)
  end.

(** A correlation matrix: for each column, its row of coefficients. *)
Definition CorrelationMatrix := list (string * list (string * option Q)).

(** [returns_df.corr()]. *)
Definition corr (df : list (string * list Float)) : CorrelationMatrix :=
  map (fun r => (fst r, map (fun c => (fst c, pearson (snd r) (snd c))) df)) df.

Definition columns (m : CorrelationMatrix) : list string := map fst m.

Definition in_columns (t : string) (m : CorrelationMatrix) : bool :=
  existsb (String.eqb t) (columns m).

(** [m.loc[ticker, comparable]]. *)
Definition loc (m : CorrelationMatrix) (ticker : string) (comparable : list string)
  : list (string * option Q) :=
  match find (fun r => String.eqb ticker (fst r)) m with
  | Some r =>
      omap (fun c => find (fun e => String.eqb c (fst e)) (snd r)) comparable
  | None => []
  end.

(** [s.max()] of a series that is not empty. *)
Definition series_max (l : list Q) : Q :=
  match l with
  | [] => 0
  | x :: l' => fold_left py_max l' x
  end.

Fixpoint insert_desc (e : string * Q) (s : Series) : Series :=
  match s with
  | [] => [e]
  | e' :: s' =>
      if Qle_bool (snd e') (snd e) then e :: e' :: s'
      else e' :: insert_desc e s'
  end.

(** [s.sort_values(ascending=False)]. *)
Definition sort_values_desc (s : Series) : Series := fold_right insert_desc [] s.

(** ** Portfolio state and risk assessments *)

(** The portfolio is a dictionary read with [.get(key, default)]: a key may
    be missing. *)
Record Position := mkPosition {
  long : option Q;
  short : option Q
}.

Record Portfolio := mkPortfolio {
  cash : option Q;
  positions : option (gmap string Position)
}.

(** [position.get("long", 0)] and [position.get("short", 0)]; the position
    itself is [{}] when the ticker is not held. *)
Definition get_long (position : option Position) : Q :=
  match position with Some p => default 0 (long p) | None => 0 end.
Definition get_short (position : option Position) : Q :=
  match position with Some p => default 0 (short p) | None => 0 end.

(** [portfolio.get("cash", 0)] and [portfolio.get("positions", {})]. *)
Definition get_cash (portfolio : Portfolio) : Q := default 0 (cash portfolio).
Definition get_positions (portfolio : Portfolio) : gmap string Position :=
  default ∅ (positions portfolio).

Record CorrelationMetrics := mkCorrelationMetrics {
  avg_correlation_with_active : option Q;
  max_correlation_with_active : option Q;
  top_correlated_tickers : list (string * Q)
}.

(** The ["reasoning"] of an assessment computed from a valid price.
    [risk_adjustment] is a sentence formatted from the combined and the base
    percentage: it is kept as that pair. *)
Record LimitReasoning := mkLimitReasoning {
  portfolio_value : Q;
  current_position_value : Q;
  base_position_limit_pct : Q;
  correlation_multiplier : Q;
  combined_position_limit_pct : Q;
  position_limit : Q;
  remaining_limit : Q;
  available_cash : Q;
  risk_adjustment : Q * Q
}.

Inductive Reasoning :=
| ReasoningError (error : string)
| ReasoningLimit (r : LimitReasoning).

(** One value of the [risk_analysis] dictionary.  The two metrics keys are
    optional: [None] is a dictionary without that key. *)
Record RiskAssessment := mkRiskAssessment {
  remaining_position_limit : Q;
  current_price : Q;
  volatility_metrics : option VolatilityMetrics;
  correlation_metrics : option CorrelationMetrics;
  reasoning : Reasoning
}.

(** ** The agent *)

(** The price provider: [get_prices(symbol=ticker, start_date, end_date,
    api_key)] for the date range of the invocation, as the list of rows it
    hands back; no rows is [[]].  (A request that fails raises inside
    [get_prices]; the agent is modelled on the calls that return.) *)
Variable get_prices : string -> list Price.

(** The dictionaries filled by the first loop. *)
Record FetchState := mkFetchState {
  current_prices : gmap string Q;
  volatility_data : gmap string VolatilityMetrics;
  returns_by_ticker : list (string * ReturnSeries)
}.

(** The body of [for ticker in all_tickers]. *)
Definition fetch_ticker (st : FetchState) (ticker : string) : FetchState :=
  let prices := get_prices ticker in
  match prices with
  | [] =>
      {| current_prices := current_prices st;
         volatility_data :=
           <[ticker := {| daily_volatility := 0.05;
                          annualized_volatility := 0.05 * sqrt 252;
                          volatility_percentile := 100;
                          data_points := 0 |}]> (volatility_data st);
         returns_by_ticker := returns_by_ticker st |}
  | _ :: _ =>
      match prices_to_df prices with
      | None => st (* not reached: [prices] has a row *)
      | Some prices_df =>
          if negb (df_empty prices_df) && (1 <? length prices_df)%nat then
            let current_price := List.last (values (close_column prices_df)) 0 in
            let volatility_metrics := calculate_volatility_metrics prices_df 60 in
            let daily_returns := dropna (pct_change (close_column prices_df)) in
            {| current_prices := <[ticker := current_price]> (current_prices st);
               volatility_data := <[ticker := volatility_metrics]> (volatility_data st);
               returns_by_ticker :=
                 if (0 <? length daily_returns)%nat
                 then returns_by_ticker st ++ [(ticker, daily_returns)]
                 else returns_by_ticker st |}
          else
            {| current_prices := <[ticker := 0]> (current_prices st);
               volatility_data :=
                 <[ticker := {| daily_volatility := 0.05;
                                annualized_volatility := 0.05 * sqrt 252;
                                volatility_percentile := 100;
                                data_points :=
                                  if negb (df_empty prices_df) then length prices_df
                                  else 0%nat |}]> (volatility_data st);
               returns_by_ticker := returns_by_ticker st |}
      end
  end.

(** [correlation_matrix], [None] when it is not computed. *)
Definition build_correlation_matrix (returns_by_ticker : list (string * ReturnSeries))
  : option CorrelationMatrix :=
  if (2 <=? length returns_by_ticker)%nat then
    let returns_df := aligned_returns returns_by_ticker in
    if (2 <=? snd (shape returns_df))%nat && (5 <=? fst (shape returns_df))%nat
    then Some (corr returns_df)
    else None
  else None.

(** The tickers with a non-zero net position. *)
Definition active_positions (portfolio : Portfolio) : gset string :=
  list_to_set
    (map fst
       (List.filter
          (fun tp => Qltb 0 (Qabs (get_long (Some (snd tp)) - get_short (Some (snd tp)))))
          (map_to_list (get_positions portfolio)))).

(** Net liquidation value: the loop over [portfolio["positions"].items()]. *)
Definition total_portfolio_value (portfolio : Portfolio) (current_prices : gmap string Q) : Q :=
  fold_left
    (fun total tp =>
       match current_prices !! fst tp with
       | Some price =>
           total + get_long (Some (snd tp)) * price - get_short (Some (snd tp)) * price
       | None => total
       end)
    (map_to_list (get_positions portfolio))
    (get_cash portfolio).

(** The record stored for a ticker without a valid price. *)
Definition missing_price_assessment : RiskAssessment :=
  {| remaining_position_limit := 0.0;
     current_price := 0.0;
     volatility_metrics := None;
     correlation_metrics := None;
     reasoning := ReasoningError "Missing price data for risk calculation" |}.

(** The correlation adjustment of one ticker: the metrics and the multiplier
    ([corr_metrics], [corr_multiplier]). *)
Definition correlation_adjustment (correlation_matrix : option CorrelationMatrix)
    (active : gset string) (ticker : string) : CorrelationMetrics * Q :=
  let neutral :=
    ({| avg_correlation_with_active := None;
        max_correlation_with_active := None;
        top_correlated_tickers := [] |}, 1.0) in
  match correlation_matrix with
  | Some m =>
      if in_columns ticker m then
        let comparable :=
          List.filter (fun t => in_columns t m && negb (String.eqb t ticker))
                      (iter_set active_positions_rank active) in
        let comparable :=
          match comparable with
          | [] => List.filter (fun t => negb (String.eqb t ticker)) (columns m)
          | _ :: _ => comparable
          end in
        match comparable with
        | [] => neutral
        | _ :: _ =>
            let series := dropna (loc m ticker comparable) in
            if (0 <? length series)%nat then
              let avg_corr := mean (values series) in
              let max_corr := series_max (values series) in
              let top_corr := firstn 3 (sort_values_desc series) in
              ({| avg_correlation_with_active := Some avg_corr;
                  max_correlation_with_active := Some max_corr;
                  top_correlated_tickers := top_corr |},
               calculate_correlation_multiplier avg_corr)
            else neutral
        end
      else neutral
  | None => neutral
  end.

(** The body of [for ticker in tickers]: the value stored in
    [risk_analysis[ticker]]. *)
Definition assess_ticker (portfolio : Portfolio) (st : FetchState)
    (correlation_matrix : option CorrelationMatrix) (active : gset string)
    (total_portfolio_value : Q) (ticker : string) : RiskAssessment :=
  match current_prices st !! ticker with
  | None => missing_price_assessment
  | Some current_price =>
      if Qle_bool current_price 0 then missing_price_assessment
      else
        let vol_data := volatility_data st !! ticker in
        let position := get_positions portfolio !! ticker in
        let long_value := get_long position * current_price in
        let short_value := get_short position * current_price in
        let current_position_value := Qabs (long_value - short_value) in
        let vol_adjusted_limit_pct :=
          calculate_volatility_adjusted_limit
            (match vol_data with Some v => annualized_volatility v | None => 0.25 end) in
        let '(corr_metrics, corr_multiplier) :=
          correlation_adjustment correlation_matrix active ticker in
        let combined_limit_pct := vol_adjusted_limit_pct * corr_multiplier in
        let position_limit := total_portfolio_value * combined_limit_pct in
        let remaining_position_limit := position_limit - current_position_value in
        let max_position_size := py_min remaining_position_limit (get_cash portfolio) in
        {| remaining_position_limit := max_position_size;
           current_price := current_price;
           volatility_metrics :=
             Some {| daily_volatility :=
                       match vol_data with Some v => daily_volatility v | None => 0.05 end;
                     annualized_volatility :=
                       match vol_data with Some v => annualized_volatility v | None => 0.25 end;
                     volatility_percentile :=
                       match vol_data with Some v => volatility_percentile v | None => 100 end;
                     data_points :=
                       match vol_data with Some v => data_points v | None => 0%nat end |};
           correlation_metrics := Some corr_metrics;
           reasoning :=
             ReasoningLimit
               {| portfolio_value := total_portfolio_value;
                  current_position_value := current_position_value;
                  base_position_limit_pct := vol_adjusted_limit_pct;
                  correlation_multiplier := corr_multiplier;
                  combined_position_limit_pct := combined_limit_pct;
                  position_limit := position_limit;
                  remaining_limit := remaining_position_limit;
                  available_cash := get_cash portfolio;
                  risk_adjustment := (combined_limit_pct, vol_adjusted_limit_pct) |} |}
  end.

(** [all_tickers = set(tickers) | set(portfolio.get("positions", {}).keys())]. *)
Definition all_tickers (tickers : list string) (portfolio : Portfolio) : gset string :=
  list_to_set tickers ∪ dom (get_positions portfolio).

(** The first loop, from empty dictionaries. *)
Definition fetch_all (tickers : list string) (portfolio : Portfolio) : FetchState :=
  fold_left fetch_ticker (iter_set all_tickers_rank (all_tickers tickers portfolio))
            {| current_prices := ∅; volatility_data := ∅; returns_by_ticker := [] |}.

(** [risk_management_agent]: the [risk_analysis] dictionary the agent stores
    in [state["data"]["analyst_signals"]] and serialises into its message. *)
Definition risk_management_agent (tickers : list string) (portfolio : Portfolio)
  : gmap string RiskAssessment :=
  let st := fetch_all tickers portfolio in
  let correlation_matrix := build_correlation_matrix (returns_by_ticker st) in
  let active := active_positions portfolio in
  let total := total_portfolio_value portfolio (current_prices st) in
  fold_left
    (fun risk_analysis ticker =>
       <[ticker := assess_ticker portfolio st correlation_matrix active total ticker]>
         risk_analysis)
    tickers ∅.

(** The entry of [current_prices] the rows fetched for a symbol lead to: none
    without rows (no frame is built), 0 for a single row, the last close
    otherwise. *)
Definition recorded_price (prices : list Price) : option Q :=
  match prices_to_df prices with
  | None => None
  | Some prices_df =>
      if negb (df_empty prices_df) && (1 <? length prices_df)%nat
      then Some (List.last (values (close_column prices_df)) 0)
      else Some 0
  end.

(** The entry of [volatility_data] the rows fetched for a symbol lead to. *)
Definition recorded_volatility (prices : list Price) : VolatilityMetrics :=
  match prices_to_df prices with
  | None =>
      {| daily_volatility := 0.05; annualized_volatility := 0.05 * sqrt 252;
         volatility_percentile := 100; data_points := 0 |}
  | Some prices_df =>
      if negb (df_empty prices_df) && (1 <? length prices_df)%nat
      then calculate_volatility_metrics prices_df 60
      else {| daily_volatility := 0.05; annualized_volatility := 0.05 * sqrt 252;
              volatility_percentile := 100;
              data_points := if negb (df_empty prices_df) then length prices_df
                             else 0%nat |}
  end.

(** ** The outcome of a call *)

(** A call returns its dictionary or is left by an exception. *)
Inductive outcome :=
| Returned (risk_analysis : gmap string RiskAssessment)
| Raised (condition : string).

(** A call of [risk_management_agent].  Its body has no [raise] and no check
    of the portfolio, and the provider hands back its rows: every call
    returns. *)
Definition call_agent (tickers : list string) (portfolio : Portfolio) : outcome :=
  Returned (risk_management_agent tickers portfolio).

(** ** The specification's words *)

(** A valid PortfolioState: cash and both quantities of every position are
    not negative. *)
Definition valid_portfolio (portfolio : Portfolio) : bool :=
  Qle_bool 0 (get_cash portfolio)
  && forallb (fun tp => Qle_bool 0 (get_long (Some (snd tp)))
                        && Qle_bool 0 (get_short (Some (snd tp))))
             (map_to_list (get_positions portfolio)).

(** The positions of the portfolio whose ticker has a known current price,
    each with that price. *)
Definition priced_positions (portfolio : Portfolio) : list (Position * Q) :=
  omap (fun tp => match recorded_price (get_prices (fst tp)) with
                  | Some price => Some (snd tp, price)
                  | None => None
                  end)
       (map_to_list (get_positions portfolio)).

(** Net liquidation value: cash plus the long values minus the short values
    of the priced positions. *)
Definition net_liquidation_value (portfolio : Portfolio) : Q :=
  get_cash portfolio
  + Qsum (map (fun pp => get_long (Some (fst pp)) * snd pp) (priced_positions portfolio))
  - Qsum (map (fun pp => get_short (Some (fst pp)) * snd pp) (priced_positions portfolio)).

(** The rolling deviations of a return history with the undefined values
    dropped: one deviation for each full window of [w] returns that holds no
    infinity, the windows taken from the oldest on. *)
Definition window_stds (w : nat) (returns : list Float) : list Q :=
  omap (fun i => if forallb is_finite (firstn w (skipn i returns))
                 then Some (rolling_value w (firstn (i + w) returns))
                 else None)
       (seq 0 (length returns + 1 - w)).

(** The fraction of the values of [l] that are at most [v]. *)
Definition fraction_le (l : list Q) (v : Q) : Q :=
  Qlen (List.filter (fun r => Qle_bool r v) l) / Qlen l.

End RiskManager.

(** ** Running the model *)

(** A square root to run the model with: [sqrt_fixed q] is the root of [q]
    truncated to ten decimal places. *)
Definition sqrt_fixed (q : Q) : Q :=
  Z.sqrt (Qnum q * 10 ^ 20 / Zpos (Qden q)) # 10 ^ 10.


(** The deviations of the rolling windows in exact arithmetic: the sample
    deviation of the last [w] values of the history. *)
Definition rolling_exact (sqrt : Q -> Q) (w : nat) (history : list Float) : Q :=
  sample_std sqrt (finite_part (skipn (length history - w) history)).

Definition rolling_fixed : nat -> list Float -> Q := rolling_exact sqrt_fixed.

(** The rank that leaves a set in the order of [elements]. *)
Definition rank_none (x : string) : nat := 0%nat.

(** A row whose four prices are [c]. *)
Definition row (t : string) (c : Q) : Price :=
  {| open := c; close := c; high := c; low := c; volume := 0; time := t |}.

(** A provider with two rows for BTCUSDT (last close 500), a single row for
    ETHUSDT and no rows for any other symbol. *)
Definition example_prices (ticker : string) : list Price :=
  if String.eqb ticker "BTCUSDT" then
    [row "2024-01-02 00:00:00" 500; row "2024-01-01 00:00:00" 400]
  else if String.eqb ticker "ETHUSDT" then [row "2024-01-01 00:00:00" 2000]
  else [].

(** Cash 10000 and two long units of BTCUSDT. *)
Definition example_portfolio : Portfolio :=
  {| cash := Some 10000;
     positions := Some {["BTCUSDT" := {| long := Some 2; short := None |}]} |}.

(** Cash 10000 and a hundred long units of BTCUSDT: far over any limit. *)
Definition over_budget_portfolio : Portfolio :=
  {| cash := Some 10000;
     positions := Some {["BTCUSDT" := {| long := Some 100; short := None |}]} |}.

(** Negative cash and a negative quantity: not a valid PortfolioState. *)
Definition invalid_portfolio : Portfolio :=
  {| cash := Some (-100);
     positions := Some {["BTCUSDT" := {| long := Some (-1); short := None |}]} |}.

(** The example portfolio with fifty more long units of a symbol that has no
    price rows. *)
Definition example_portfolio_unpriced : Portfolio :=
  {| cash := Some 10000;
     positions :=
       Some (<["XRPUSDT" := {| long := Some 50; short := None |}]>
               {["BTCUSDT" := {| long := Some 2; short := None |}]}) |}.

(** Three daily rows: two returns. *)
Definition short_history : list Price :=
  [row "2024-01-01 00:00:00" 100; row "2024-01-02 00:00:00" 110;
   row "2024-01-03 00:00:00" 99].

(** Thirty-three daily rows: thirty-two returns, three full windows. *)
Definition long_history : list Price :=
  [row "2024-01-01 00:00:00" 1; row "2024-01-02 00:00:00" 2;
   row "2024-01-03 00:00:00" 1; row "2024-01-04 00:00:00" 4;
   row "2024-01-05 00:00:00" 1; row "2024-01-06 00:00:00" 2;
   row "2024-01-07 00:00:00" 1; row "2024-01-08 00:00:00" 2;
   row "2024-01-09 00:00:00" 1; row "2024-01-10 00:00:00" 2;
   row "2024-01-11 00:00:00" 1; row "2024-01-12 00:00:00" 3;
   row "2024-01-13 00:00:00" 1; row "2024-01-14 00:00:00" 3;
   row "2024-01-15 00:00:00" 1; row "2024-01-16 00:00:00" 3;
   row "2024-01-17 00:00:00" 1; row "2024-01-18 00:00:00" 3;
   row "2024-01-19 00:00:00" 1; row "2024-01-20 00:00:00" 2;
   row "2024-01-21 00:00:00" 1; row "2024-01-22 00:00:00" 2;
   row "2024-01-23 00:00:00" 1; row "2024-01-24 00:00:00" 3;
   row "2024-01-25 00:00:00" 1; row "2024-01-26 00:00:00" 2;
   row "2024-01-27 00:00:00" 1; row "2024-01-28 00:00:00" 3;
   row "2024-01-29 00:00:00" 1; row "2024-01-30 00:00:00" 3;
   row "2024-01-31 00:00:00" 1; row "2024-02-01 00:00:00" 4;
   row "2024-02-02 00:00:00" 1].

(** A history whose first close is zero: the first return is an infinity. *)
Definition zero_close_history : list Price :=
  [row "2024-01-01 00:00:00" 0; row "2024-01-02 00:00:00" 5;
   row "2024-01-03 00:00:00" 6].

(** The first thirty-one rows of the long history: thirty returns, a single
    full window. *)
Definition single_window_history : list Price := firstn 31 long_history.

(** A rolling deviation that comes out a little above the exact one. *)
Definition rolling_above (w : nat) (history : list Float) : Q :=
  rolling_fixed w history + 1 / 1000000000000.

(** ** Orders used in the statements *)

(** Descending order of the values of a series. *)
Definition desc (e e' : string * Q) : Prop := snd e' <= snd e.

(** Chronological order of the rows. *)
Definition chronological (r r' : Price) : Prop := String.leb (time r) (time r') = true.

(** * The Binance client ([src/tools/api.py]) *)

(** ** Requests with retries ([_make_api_request]) *)

(** What the code reads of a [requests.Response]: the status code and the
    decoded JSON body. *)
Record Response (A : Type) := mkResponse {
  status_code : Z;
  json : A
}.
Arguments mkResponse {A} _ _.
Arguments status_code {A} _.
Arguments json {A} _.

(** What a call leaves behind: the number of requests sent and the delays
    slept, in seconds and in order. *)
Record Traffic := mkTraffic {
  requests_sent : nat;
  slept : list Z
}.

(** The seconds slept in all. *)
Definition total_delay (t : Traffic) : Z := fold_right Z.add 0%Z (slept t).

(** The delay before the retry that follows attempt [i]. *)
Definition backoff (i : nat) : Z := (60 + 30 * Z.of_nat i)%Z.

Section Client.

Context {A : Type}.

(** The server: its response to the request sent at each attempt
    ([requests.get] or [requests.post] with the same arguments every time). *)
Variable server : nat -> Response A.

(** The iterations of [for attempt in range(max_retries + 1)] from [attempt]
    on, [remaining] of them; [None] is the end of the loop reached without a
    [return]. *)
Fixpoint request_loop (remaining attempt max_retries : nat) (slept : list Z)
  : option (Response A) * Traffic :=
  match remaining with
  | O => (None, {| requests_sent := attempt; slept := slept |})
  | S remaining' =>
      let response := server attempt in
      if (status_code response =? 429)%Z && (attempt <? max_retries)%nat then
        let delay := (60 + 30 * Z.of_nat attempt)%Z in
        request_loop remaining' (S attempt) max_retries (slept ++ [delay])
      else (Some response, {| requests_sent := S attempt; slept := slept |})
  end.

Definition _make_api_request (max_retries : nat) : option (Response A) * Traffic :=
  request_loop (max_retries + 1) 0 max_retries [].

End Client.

(** ** Price history ([get_prices]) *)

(** The entries of a Binance kline the code reads, where it can read them:
    [kline[0]] a number and [kline[1]] to [kline[5]] strings that [float]
    reads as finite numbers. *)
Record Kline := mkKline {
  kline_open_time : Z;
  kline_open : Q;
  kline_high : Q;
  kline_low : Q;
  kline_close : Q;
  kline_volume : Q
}.

(** [int(x)] of a float: truncation towards zero. *)
Definition int_of_float (x : Q) : Z := Z.quot (Qnum x) (Zpos (Qden x)).

(** The body of a response, as [response.json()] and the loop over its
    result treat it: not JSON at all ([json()] raises); a list, each entry a
    kline the code can read or one it fails on ([float], the division or
    [fromtimestamp] raises); or another JSON value, on which the loop raises
    unless the value is falsy ([not klines_data]). *)
Inductive Body :=
| NotJson
| Klines (klines : list (option Kline))
| OtherJson (truthy : bool).

(** The parameters of the klines request. *)
Record KlinesRequest := mkKlinesRequest {
  request_symbol : string;
  request_interval : string;
  startTime : Z;
  endTime : Z;
  limit : Z
}.

(** The result of a fetch: the value returned, the exception raised for a
    response whose status is not 200, or another exception (a date that
    [strptime] rejects, a body that [json()] or the conversion of a kline
    fails on, an attribute read on a response that is [None]). *)
Inductive Fetched (A : Type) :=
| Returns (a : A)
| RaisesError (symbol : string) (status : Z)
| RaisesOther.
Arguments Returns {A} _.
Arguments RaisesError {A} _ _.
Arguments RaisesOther {A}.

Section GetPrices.

(** [str.upper]. *)
Variable upper : string -> string.

(** [int(datetime.datetime.strptime(d, "%Y-%m-%d").timestamp() * 1000)];
    [None] when it raises: [d] is not a date in that format. *)
Variable timestamp_ms : string -> option Z.

(** [datetime.datetime.fromtimestamp(ms / 1000).strftime("%Y-%m-%d %H:%M:%S")]. *)
Variable strftime : Z -> string.

(** [_cache.get_prices(cache_key)]: the cached rows, [None] when the key is
    not cached. *)
Variable cache_get_prices : string -> option (list Price).

(** The server's responses to a klines request, attempt by attempt. *)
Variable server : KlinesRequest -> nat -> Response Body.

Definition price_of_kline (kline : Kline) : Price :=
  {| open := kline_open kline;
     high := kline_high kline;
     low := kline_low kline;
     close := kline_close kline;
     volume := int_of_float (kline_volume kline);
     time := strftime (kline_open_time kline) |}.

(** [f"{symbol}_{start_date}_{end_date}_{interval}"]. *)
Definition prices_cache_key (symbol start_date end_date interval : string) : string :=
  (symbol ++ "_" ++ start_date ++ "_" ++ end_date ++ "_" ++ interval)%string.

(** What a call of [get_prices] does: its result, the traffic it causes and
    the write to the cache ([_cache.set_prices(cache_key, ...)]), if any. *)
Record PricesCall := mkPricesCall {
  fetched : Fetched (list Price);
  traffic : Traffic;
  cache_write : option (string * list Price)
}.

(** [params]: the parameters of the request for a symbol, an interval and
    the two timestamps. *)
Definition klines_params (symbol interval : string) (start_timestamp end_timestamp : Z)
  : KlinesRequest :=
  {| request_symbol := upper symbol;
     request_interval := interval;
     startTime := start_timestamp;
     endTime := end_timestamp;
     limit := 1000 |}.

(** The loop over [klines_data]: the rows, unless an entry makes it raise. *)
Fixpoint prices_of_klines (klines_data : list (option Kline)) : option (list Price) :=
  match klines_data with
  | [] => Some []
  | None :: _ => None
  | Some kline :: klines_data' =>
      match prices_of_klines klines_data' with
      | Some prices => Some (price_of_kline kline :: prices)
      | None => None
      end
  end.

Definition get_prices (symbol start_date end_date interval : string) : PricesCall :=
  let cache_key := prices_cache_key symbol start_date end_date interval in
  let no_traffic := {| requests_sent := 0; slept := [] |} in
  let raises traffic :=
    {| fetched := RaisesOther; traffic := traffic; cache_write := None |} in
  let returns_nothing traffic :=
    {| fetched := Returns []; traffic := traffic; cache_write := None |} in
  match cache_get_prices cache_key with
  | Some (p :: ps) =>
      {| fetched := Returns (p :: ps); traffic := no_traffic; cache_write := None |}
  | _ =>
      match timestamp_ms start_date, timestamp_ms end_date with
      | Some start_timestamp, Some end_timestamp =>
          let params := klines_params symbol interval start_timestamp end_timestamp in
          match _make_api_request (server params) 3 with
          | (Some response, traffic) =>
              if negb (status_code response =? 200)%Z then
                {| fetched := RaisesError symbol (status_code response);
                   traffic := traffic; cache_write := None |}
              else
                match json response with
                | NotJson => raises traffic
                | OtherJson truthy =>
                    if truthy then raises traffic else returns_nothing traffic
                | Klines [] => returns_nothing traffic
                | Klines klines_data =>
                    match prices_of_klines klines_data with
                    | Some prices =>
                        {| fetched := Returns prices; traffic := traffic;
                           cache_write := Some (cache_key, prices) |}
                    | None => raises traffic
                    end
                end
          | (None, traffic) => raises traffic
          end
      | _, _ => raises no_traffic
      end
  end.

End GetPrices.

(** ** Further inputs to run the model on *)

(** Cash 10000 and no position. *)
Definition cash_only_portfolio : Portfolio :=
  {| cash := Some 10000; positions := None |}.

(** A kline with a volume of 12.75 units. *)
Definition example_kline : Kline :=
  {| kline_open_time := 1704067200000; kline_open := 400; kline_high := 510;
     kline_low := 390; kline_close := 500; kline_volume := 12.75 |}.

(** A clock that prints every timestamp as the first day of 2024. *)
Definition example_strftime (ms : Z) : string := "2024-01-01 00:00:00".

(** * The fundamentals analyst ([src/agents/fundamentals.py]) *)

Module Fundamentals.

Inductive Signal := bullish | bearish | neutral.

Definition Signal_eqb (a b : Signal) : bool :=
  match a, b with
  | bullish, bullish | bearish, bearish | neutral, neutral => true
  | _, _ => false
  end.

(** [signals.count(s)]. *)
Definition count (s : Signal) (signals : list Signal) : nat :=
  length (List.filter (Signal_eqb s) signals).

(** The fields of [FinancialMetrics] the agent reads. *)
Record FinancialMetrics := mkFinancialMetrics {
  market_cap : option Q;
  return_on_equity : option Q
}.

(** A quotient of two closes minus one, as numpy computes it: a division by
    zero gives an infinity, or NaN for 0 / 0. *)
Inductive Change := Finite (q : Q) | PosInf | NegInf | NaN.

Definition change (last_close base_close : Q) : Change :=
  if Qeq_bool base_close 0 then
    if Qltb 0 last_close then PosInf
    else if Qltb last_close 0 then NegInf
    else NaN
  else Finite (last_close / base_close - 1).

(** [x > y]. *)
Definition Change_gt (x y : Change) : bool :=
  match x, y with
  | Finite a, Finite b => Qltb b a
  | PosInf, (Finite _ | NegInf) => true
  | Finite _, NegInf => true
  | _, _ => false
  end.

(** [v < c] where [v] may be NaN. *)
Definition lt_nan (v : option Q) (c : Q) : bool :=
  match v with Some x => Qltb x c | None => false end.

(** [round(x, 2)]: to two decimals, a tie to the even neighbour. *)
Definition py_round2 (x : Q) : Q :=
  let y := x * 100 in
  let f := Qfloor y in
  let r := y - inject_Z f in
  let n := if Qltb r (1 # 2) then f
           else if Qltb (1 # 2) r then (f + 1)%Z
           else if Z.even f then f else (f + 1)%Z in
  inject_Z n / 100.

(** [s.iloc[-k]]. *)
Definition iloc_back (k : nat) (l : list Q) : Q := nth (length l - k) l 0.

(** The signal of a score out of three. *)
Definition signal_of_score (score : nat) : Signal :=
  if (2 <=? score)%nat then bullish
  else if (score =? 0)%nat then bearish
  else neutral.

(** The four entries of ["reasoning"]: each signal with the numbers its
    ["details"] sentence is formatted from. *)
Record Reasoning := mkReasoning {
  trading_activity_signal : Signal * (Q * Q * option Q);
  momentum_signal : Signal * option (Q * Q * Q);
  volatility_signal : Signal * option Q;
  performance_signal : Signal * (Change * Change)
}.

Record Analysis := mkAnalysis {
  signal : Signal;
  confidence : Q;
  reasoning : Reasoning
}.

(** The overall signal and the confidence of a list of signals. *)
Definition overall (signals : list Signal) : Signal * Q :=
  let bullish_signals := count bullish signals in
  let bearish_signals := count bearish signals in
  let overall_signal :=
    if (bearish_signals <? bullish_signals)%nat then bullish
    else if (bullish_signals <? bearish_signals)%nat then bearish
    else neutral in
  let total_signals := length signals in
  let confidence :=
    py_round2 (inject_Z (Z.of_nat (Nat.max bullish_signals bearish_signals))
               / inject_Z (Z.of_nat total_signals)) * 100 in
  (overall_signal, confidence).

Section Agent.

Variable sqrt : Q -> Q.

(** [get_financial_metrics(symbol=ticker, end_date, period="24h", limit=1)]
    and [get_prices(symbol=ticker, start_date, end_date, interval="1d")], as
    the lists they hand back. *)
Variable get_financial_metrics : string -> list FinancialMetrics.
Variable get_prices : string -> list Price.

(** The analysis of one ticker from its most recent metrics and its price
    frame (which has a row at least). *)
Definition analyse (metrics : FinancialMetrics) (prices_df : DataFrame) : Analysis :=
  (* 1. trading activity *)
  let market_cap := market_cap metrics in
  let price_change_24h :=
    match return_on_equity metrics with
    | Some x => if Qeq_bool x 0 then 0.0 else x
    | None => 0.0
    end in
  let volume := map (fun p => inject_Z (volume p)) prices_df in
  let avg_volume :=
    if (30 <=? length prices_df)%nat then mean (tail 30 volume) else mean volume in
  let recent_volume := mean (tail 3 volume) in
  let volume_ratio := if Qltb 0 avg_volume then recent_volume / avg_volume else 1.0 in
  let activity_score :=
    ((if Qltb 1.2 volume_ratio then 1 else 0)
     + (if Qltb 0.02 (Qabs price_change_24h) then 1 else 0)
     + (match market_cap with
        | Some c => if negb (Qeq_bool c 0) && Qltb 1000000000 c then 1 else 0
        | None => 0
        end))%nat in
  let signal_0 := signal_of_score activity_score in
  (* 2. momentum *)
  let closes := values (close_column prices_df) in
  let momentum :=
    if (50 <=? length prices_df)%nat then
      let ma_20 := mean (tail 20 closes) in
      let ma_50 := mean (tail 50 closes) in
      let current_price := iloc_back 1 closes in
      let momentum_score :=
        ((if Qltb ma_20 current_price then 1 else 0)
         + (if Qltb ma_50 current_price then 1 else 0)
         + (if Qltb ma_50 ma_20 then 1 else 0))%nat in
      (signal_of_score momentum_score, Some (current_price, ma_20, ma_50))
    else (neutral, None) in
  (* 3. volatility *)
  let daily_returns := dropna (pct_change (close_column prices_df)) in
  let volatility_30d :=
    if (30 <=? length daily_returns)%nat then std sqrt (values (tail 30 daily_returns))
    else std sqrt (values daily_returns) in
  let volatility_score :=
    if lt_nan volatility_30d 0.05 then 2%nat
    else if lt_nan volatility_30d 0.08 then 1%nat
    else 0%nat in
  let signal_2 := if (1 <=? volatility_score)%nat then bullish else bearish in
  (* 4. performance *)
  let price_change_7d :=
    if (7 <=? length prices_df)%nat
    then change (iloc_back 1 closes) (iloc_back 7 closes) else Finite 0 in
  let price_change_30d :=
    if (30 <=? length prices_df)%nat
    then change (iloc_back 1 closes) (iloc_back 30 closes) else Finite 0 in
  let performance_score :=
    ((if Change_gt price_change_7d (Finite 0) then 1 else 0)
     + (if Change_gt price_change_30d (Finite 0) then 1 else 0)
     + (if Change_gt price_change_7d price_change_30d then 1 else 0))%nat in
  let signal_3 := signal_of_score performance_score in
  (* overall *)
  let signals := [signal_0; fst momentum; signal_2; signal_3] in
  {| signal := fst (overall signals);
     confidence := snd (overall signals);
     reasoning :=
       {| trading_activity_signal := (signal_0, (price_change_24h, volume_ratio, market_cap));
          momentum_signal := momentum;
          volatility_signal := (signal_2, volatility_30d);
          performance_signal := (signal_3, (price_change_7d, price_change_30d)) |} |}.

(** The body of [for ticker in tickers]: a ticker without metrics or without
    prices is passed over. *)
Definition analyse_ticker (fundamental_analysis : gmap string Analysis) (ticker : string)
  : gmap string Analysis :=
  match get_financial_metrics ticker with
  | [] => fundamental_analysis
  | metrics :: _ =>
      match get_prices ticker with
      | [] => fundamental_analysis
      | p :: ps =>
          match prices_to_df (p :: ps) with
          | None => fundamental_analysis (* not reached: there is a row *)
          | Some prices_df =>
              <[ticker := analyse metrics prices_df]> fundamental_analysis
          end
      end
  end.

(** [fundamentals_analyst_agent]: the [fundamental_analysis] dictionary. *)
Definition fundamentals_analyst_agent (tickers : list string) : gmap string Analysis :=
  fold_left analyse_ticker tickers ∅.

End Agent.

End Fundamentals.

(** Metrics for BTCUSDT and ETHUSDT (a 3% daily change, a market value of
    two billion), none for any other symbol. *)
Definition example_metrics (ticker : string) : list Fundamentals.FinancialMetrics :=
  if String.eqb ticker "BTCUSDT" || String.eqb ticker "ETHUSDT" then
    [{| Fundamentals.market_cap := Some 2000000000;
        Fundamentals.return_on_equity := Some 0.03 |}]
  else [].
(** * Properties *)

(** ** Comparisons, [min] and [max] *)

Lemma Qltb_lt a b : Qltb a b = true <-> a < b.
Proof.
  unfold Qltb. rewrite negb_true_iff.
  destruct (Qle_bool b a) eqn:E.
  - apply Qle_bool_iff in E. split; [discriminate | intros H; lra].
  - split; [intros _ | reflexivity].
    destruct (Qlt_le_dec a b) as [H | H]; [exact H |].
    apply Qle_bool_iff in H. congruence.
Qed.

Lemma Qltb_ge a b : Qltb a b = false <-> b <= a.
Proof.
  unfold Qltb. rewrite negb_false_iff. apply Qle_bool_iff.
Qed.

Lemma py_min_le_r a b : py_min a b <= b.
Proof.
  unfold py_min. destruct (Qltb b a) eqn:E.
  - lra.
  - apply Qltb_ge in E. exact E.
Qed.

Lemma py_min_le_l a b : py_min a b <= a.
Proof.
  unfold py_min. destruct (Qltb b a) eqn:E.
  - apply Qltb_lt in E. lra.
  - lra.
Qed.

Lemma py_max_ub_l a b : a <= py_max a b.
Proof.
  unfold py_max. destruct (Qltb a b) eqn:E.
  - apply Qltb_lt in E. lra.
  - lra.
Qed.

Lemma py_max_lub a b c : a <= c -> b <= c -> py_max a b <= c.
Proof. unfold py_max. destruct (Qltb a b); auto. Qed.

(** ** The allocation curves *)

Lemma vol_tier_low v : v < 0.25 -> vol_tier v = 1.0.
Proof.
  intros H. unfold vol_tier.
  apply Qltb_lt in H. now rewrite H.
Qed.

(** Every tier value already lies within the bounds. *)
Lemma vol_tier_bounds v : 0.13 <= vol_tier v <= 1.0.
Proof.
  unfold vol_tier.
  destruct (Qltb v 0.25) eqn:E1; [lra |].
  destruct (Qltb v 0.50) eqn:E2.
  { apply Qltb_ge in E1. apply Qltb_lt in E2. lra. }
  destruct (Qltb v 0.75) eqn:E3.
  { apply Qltb_ge in E2. apply Qltb_lt in E3. lra. }
  destruct (Qltb v 1.00); lra.
Qed.

Lemma vol_multiplier_bounds v : 0.13 <= vol_multiplier v <= 1.0.
Proof.
  unfold vol_multiplier. split.
  - apply py_max_ub_l.
  - apply py_max_lub; [lra | apply py_min_le_l].
Qed.

(** C1. Scenario B: at an annualized volatility of 0.60 the tier formula
    gives the multiplier 0.59 and the base percentage 0.15 * 0.59 = 0.0885;
    an average correlation of 0.65 gives the multiplier 0.85; the combined
    percentage is their product 0.075225, not clamped again, and on a
    portfolio value of 100000 the position limit is 7522.5.  The last
    conjunct runs the loop body of the agent on such a ticker (no position is
    active, so the order of the active positions plays no part). *)
Theorem scenario_B_position_limit (active_positions_rank : string -> nat) :
  vol_tier 0.60 == 0.59 /\
  vol_multiplier 0.60 == 0.59 /\
  calculate_volatility_adjusted_limit 0.60 == 0.15 * 0.59 /\
  calculate_volatility_adjusted_limit 0.60 == 0.0885 /\
  calculate_correlation_multiplier 0.65 == 0.85 /\
  calculate_volatility_adjusted_limit 0.60 * calculate_correlation_multiplier 0.65
    == 0.075225 /\
  100000 * (calculate_volatility_adjusted_limit 0.60
            * calculate_correlation_multiplier 0.65) == 7522.5 /\
  let st :=
    {| current_prices := {["AAA" := 40]};
       volatility_data :=
         {["AAA" := {| daily_volatility := 0.0314; annualized_volatility := 0.60;
                       volatility_percentile := 50; data_points := 60 |}]};
       returns_by_ticker := [] |} in
  let m := [("AAA", [("AAA", Some 1); ("BBB", Some 0.65)]);
            ("BBB", [("AAA", Some 0.65); ("BBB", Some 1)])] in
  let portfolio := {| cash := Some 100000; positions := None |} in
  exists r,
    reasoning (assess_ticker active_positions_rank portfolio st (Some m) ∅ 100000 "AAA")
      = ReasoningLimit r /\
    base_position_limit_pct r == 0.0885 /\
    correlation_multiplier r == 0.85 /\
    combined_position_limit_pct r
      = base_position_limit_pct r * correlation_multiplier r /\
    combined_position_limit_pct r == 0.075225 /\
    position_limit r == 7522.5.
Proof.
  repeat split; try (vm_compute; reflexivity).
  eexists. split; [vm_compute; reflexivity |].
  repeat split; vm_compute; reflexivity.
Qed.

(** Scenario A: a low volatility and a neutral correlation leave the full
    15%, 15000 on a portfolio value of 100000. *)
Example scenario_A_position_limit :
  calculate_volatility_adjusted_limit 0.20 * calculate_correlation_multiplier 0.50
    == 0.15 /\
  100000 * (calculate_volatility_adjusted_limit 0.20
            * calculate_correlation_multiplier 0.50) == 15000.
Proof. split; vm_compute; reflexivity. Qed.

(** The correlation multiplier is not clamped: a very low correlation lifts
    the combined percentage above the 15% base. *)
Example combined_pct_above_base :
  0.15 < calculate_volatility_adjusted_limit 0.20 * calculate_correlation_multiplier 0.10.
Proof. vm_compute. reflexivity. Qed.

(** C8. The boundary of the first tier and the bounds: every annualized
    volatility [v] strictly below 0.25 has the multiplier 1.00; at 0.25
    exactly the second tier applies and its formula 0.85 - (v - 0.25) * 0.4
    gives 0.85; and for every input [w] the multiplier lies in [0.13, 1.00]
    before it is multiplied by the 15% base. *)
Theorem vol_multiplier_boundary (v w : Q) :
  v < 0.25 ->
  vol_multiplier v == 1.00 /\
  calculate_volatility_adjusted_limit v == 0.15 /\
  vol_tier 0.25 = 0.85 - (0.25 - 0.25) * 0.4 /\
  vol_multiplier 0.25 == 0.85 /\
  (0.13 <= vol_multiplier w <= 1.00) /\
  calculate_volatility_adjusted_limit w == 0.15 * vol_multiplier w /\
  (0.15 * 0.13 <= calculate_volatility_adjusted_limit w <= 0.15 * 1.00).
Proof.
  intros Hv.
  assert (Hm : vol_multiplier v == 1.00).
  { unfold vol_multiplier. rewrite (vol_tier_low v Hv). vm_compute. reflexivity. }
  pose proof (vol_multiplier_bounds w) as Hw.
  assert (Hc : forall x, calculate_volatility_adjusted_limit x == 0.15 * vol_multiplier x).
  { intros x. unfold calculate_volatility_adjusted_limit,
      CRYPTO_RISK_FACTORS.max_position_size. reflexivity. }
  split; [exact Hm |].
  split; [rewrite Hc, Hm; reflexivity |].
  split; [reflexivity |].
  split; [vm_compute; reflexivity |].
  split; [lra |].
  split; [apply Hc |].
  rewrite Hc. lra.
Qed.

Lemma vol_multiplier_boundary_witness :
  vol_multiplier 0.20 == 1.00 /\
  calculate_volatility_adjusted_limit 0.20 == 0.15 /\
  vol_tier 0.25 = 0.85 - (0.25 - 0.25) * 0.4 /\
  vol_multiplier 0.25 == 0.85 /\
  (0.13 <= vol_multiplier 2 <= 1.00) /\
  calculate_volatility_adjusted_limit 2 == 0.15 * vol_multiplier 2 /\
  (0.15 * 0.13 <= calculate_volatility_adjusted_limit 2 <= 0.15 * 1.00).
Proof.
  apply (vol_multiplier_boundary 0.20 2). reflexivity.
Defined.

(** ** Iteration over a set *)

Lemma insert_ranked_perm rank x l : Permutation (x :: l) (insert_ranked rank x l).
Proof.
  induction l as [| y l IH]; cbn [insert_ranked]; [reflexivity |].
  destruct (rank x <=? rank y)%nat; [reflexivity |].
  rewrite perm_swap. now apply perm_skip.
Qed.

(** Whatever the rank, the iteration visits the members of the set, each
    once. *)
Lemma iter_set_perm rank (s : gset string) : Permutation (elements s) (iter_set rank s).
Proof.
  unfold iter_set. induction (elements s) as [| x l IH]; cbn [fold_right]; [reflexivity |].
  rewrite <- insert_ranked_perm. now apply perm_skip.
Qed.

Lemma elem_of_iter_set rank (s : gset string) x : x ∈ iter_set rank s <-> x ∈ s.
Proof. now rewrite <- (iter_set_perm rank s), elem_of_elements. Qed.

Lemma NoDup_iter_set rank (s : gset string) : NoDup (iter_set rank s).
Proof. rewrite <- (iter_set_perm rank s). apply NoDup_elements. Qed.

Lemma insert_ranked_sorted rank x l :
  Sorted (fun a b => (rank a <= rank b)%nat) l ->
  Sorted (fun a b => (rank a <= rank b)%nat) (insert_ranked rank x l).
Proof.
  induction l as [| y l IH]; intros Hs; cbn [insert_ranked].
  - repeat constructor.
  - destruct (rank x <=? rank y)%nat eqn:E.
    + apply Nat.leb_le in E. constructor; [exact Hs |]. now constructor.
    + apply Nat.leb_gt in E. apply Sorted_inv in Hs as [Hs Hhd].
      constructor; [now apply IH |].
      destruct l as [| z l]; cbn [insert_ranked].
      * constructor. lia.
      * destruct (rank x <=? rank z)%nat; constructor; [lia |].
        now inversion Hhd.
Qed.

Lemma iter_set_sorted rank (s : gset string) :
  Sorted (fun a b => (rank a <= rank b)%nat) (iter_set rank s).
Proof.
  unfold iter_set. induction (elements s) as [| x l IH]; cbn [fold_right].
  - constructor.
  - now apply insert_ranked_sorted.
Qed.

Lemma place_app x pre l :
  x ∉ pre -> place x (pre ++ l) = (length pre + place x l)%nat.
Proof.
  induction pre as [| y pre IH]; intros Hx; [reflexivity |].
  apply not_elem_of_cons in Hx as [Hne Hx].
  cbn [app place length]. apply String.eqb_neq in Hne. rewrite Hne.
  now rewrite IH.
Qed.

Lemma place_here x l : place x (x :: l) = 0%nat.
Proof. cbn [place]. now rewrite String.eqb_refl. Qed.

Lemma place_inj x y l : x ∈ l -> y ∈ l -> place x l = place y l -> x = y.
Proof.
  induction l as [| z l IH]; intros Hx Hy; [now apply elem_of_nil in Hx |].
  cbn [place].
  destruct (String.eqb x z) eqn:Ex; destruct (String.eqb y z) eqn:Ey;
    try discriminate.
  - intros _. apply String.eqb_eq in Ex, Ey. congruence.
  - intros [= H]. apply String.eqb_neq in Ex, Ey.
    apply elem_of_cons in Hx as [Hx | Hx]; [contradiction |].
    apply elem_of_cons in Hy as [Hy | Hy]; [contradiction |].
    now apply IH.
Qed.

Lemma place_sorted pre suf :
  NoDup (pre ++ suf) ->
  Sorted (fun a b => (place a (pre ++ suf) <= place b (pre ++ suf))%nat) suf.
Proof.
  revert pre. induction suf as [| x suf IH]; intros pre Hnd; [constructor |].
  constructor.
  - specialize (IH (pre ++ [x])). rewrite <- app_assoc in IH. now apply IH.
  - destruct suf as [| y suf]; constructor.
    apply NoDup_app in Hnd as (_ & Hdisj & _).
    rewrite !place_app.
    + rewrite place_here. lia.
    + intros Hy. apply (Hdisj y Hy). right. left.
    + intros Hx. apply (Hdisj x Hx). left.
Qed.

(** Every order of the members of a set is its iteration order for some
    rank: the place of each member in that order. *)
Lemma iter_set_any_order (s : gset string) (l : list string) :
  Permutation l (elements s) -> iter_set (fun x => place x l) s = l.
Proof.
  intros Hperm.
  assert (Hnd : NoDup l) by (rewrite Hperm; apply NoDup_elements).
  assert (Htrans : Transitive (fun a b : string => (place a l <= place b l)%nat))
    by (intros a b c; lia).
  apply (Sorted_unique_strong (fun a b => (place a l <= place b l)%nat)).
  - intros x1 x2 H1 H2 H12 H21.
    apply (place_inj x1 x2 l); [| exact H2 | lia].
    now rewrite Hperm, (iter_set_perm (fun x => place x l) s).
  - apply iter_set_sorted.
  - apply (place_sorted [] l). exact Hnd.
  - now rewrite <- (iter_set_perm (fun x => place x l) s).
Qed.

(** ** The price frame *)

Lemma length_insert_row p df : length (insert_row p df) = S (length df).
Proof.
  induction df as [| r df IH]; simpl; [reflexivity |].
  destruct (String.leb (time p) (time r)); simpl; [reflexivity | now rewrite IH].
Qed.

Lemma length_sort_index prices : length (sort_index prices) = length prices.
Proof.
  unfold sort_index.
  induction prices as [| p prices IH]; simpl; [reflexivity |].
  now rewrite length_insert_row, IH.
Qed.

(** A frame is built from any rows but none. *)
Lemma prices_to_df_rows prices prices_df :
  prices_to_df prices = Some prices_df <->
  prices <> [] /\ prices_df = sort_index prices.
Proof.
  destruct prices as [| p ps]; cbn [prices_to_df]; split.
  - discriminate.
  - intros [H _]. contradiction.
  - intros [= <-]. split; [discriminate | reflexivity].
  - intros [_ ->]. reflexivity.
Qed.

Lemma fold_insert_lookup {A} (f : string -> A) (l : list string) (m : gmap string A) t :
  fold_left (fun acc k => <[k := f k]> acc) l m !! t =
  if decide (t ∈ l) then Some (f t) else m !! t.
Proof.
  revert m. induction l as [| x l IH]; intros m; cbn [fold_left].
  - rewrite decide_False; [reflexivity | apply not_elem_of_nil].
  - rewrite IH. destruct (decide (x = t)) as [-> | Hne].
    + rewrite (decide_True (P := t ∈ t :: l)) by apply list_elem_of_here.
      destruct (decide (t ∈ l)); [reflexivity | apply lookup_insert_eq].
    + rewrite lookup_insert_ne by exact Hne.
      destruct (decide (t ∈ l)) as [Hin | Hin].
      * rewrite decide_True; [reflexivity | now apply list_elem_of_further].
      * rewrite decide_False; [reflexivity |].
        intros H. apply elem_of_cons in H as [H | H]; [exact (Hne (eq_sym H)) | exact (Hin H)].
Qed.

(** ** What the first loop records *)

Section Properties.

Variable sqrt : Q -> Q.
Variable rolling_value : nat -> list Float -> Q.
Variable all_tickers_rank : string -> nat.
Variable active_positions_rank : string -> nat.
Variable get_prices : string -> list Price.

Local Abbreviation fetch_ticker := (fetch_ticker sqrt rolling_value get_prices).
Local Abbreviation fetch_all :=
  (fetch_all sqrt rolling_value all_tickers_rank get_prices).
Local Abbreviation risk_management_agent :=
  (risk_management_agent sqrt rolling_value all_tickers_rank active_positions_rank
     get_prices).
Local Abbreviation calculate_volatility_metrics :=
  (calculate_volatility_metrics sqrt rolling_value).
Local Abbreviation recorded_volatility := (recorded_volatility sqrt rolling_value).
Local Abbreviation std := (std sqrt).
Local Abbreviation rolling_std := (rolling_std rolling_value).
Local Abbreviation window_stds := (window_stds rolling_value).
Local Abbreviation build_correlation_matrix := (build_correlation_matrix sqrt).
Local Abbreviation assess_ticker := (assess_ticker active_positions_rank).
Local Abbreviation correlation_adjustment :=
  (correlation_adjustment active_positions_rank).
Local Abbreviation call_agent :=
  (call_agent sqrt rolling_value all_tickers_rank active_positions_rank get_prices).

Lemma fetch_ticker_current_prices st x t :
  current_prices (fetch_ticker st x) !! t =
  if decide (x = t) then
    match recorded_price (get_prices t) with
    | Some p => Some p
    | None => current_prices st !! t
    end
  else current_prices st !! t.
Proof.
  unfold fetch_ticker, recorded_price.
  destruct (decide (x = t)) as [-> | Hne].
  - destruct (get_prices t) as [| p ps]; [reflexivity |].
    cbn [prices_to_df].
    destruct (negb _ && _); simpl; apply lookup_insert_eq.
  - destruct (get_prices x) as [| p ps]; [reflexivity |].
    cbn [prices_to_df].
    destruct (negb _ && _); simpl; now apply lookup_insert_ne.
Qed.

Lemma fetch_ticker_volatility_data st x t :
  volatility_data (fetch_ticker st x) !! t =
  if decide (x = t) then Some (recorded_volatility (get_prices t))
  else volatility_data st !! t.
Proof.
  unfold fetch_ticker, recorded_volatility.
  destruct (decide (x = t)) as [-> | Hne].
  - destruct (get_prices t) as [| p ps]; [apply lookup_insert_eq |].
    cbn [prices_to_df].
    destruct (negb _ && _); simpl; apply lookup_insert_eq.
  - destruct (get_prices x) as [| p ps]; [now apply lookup_insert_ne |].
    cbn [prices_to_df].
    destruct (negb _ && _); simpl; now apply lookup_insert_ne.
Qed.

Lemma fold_fetch_current_prices l st t :
  current_prices (fold_left fetch_ticker l st) !! t =
  if decide (t ∈ l) then
    match recorded_price (get_prices t) with
    | Some p => Some p
    | None => current_prices st !! t
    end
  else current_prices st !! t.
Proof.
  revert st. induction l as [| x l IH]; intros st; cbn [fold_left].
  - rewrite decide_False; [reflexivity | apply not_elem_of_nil].
  - rewrite IH, fetch_ticker_current_prices.
    destruct (decide (x = t)) as [-> | Hne].
    + rewrite (decide_True (P := t ∈ t :: l)) by apply list_elem_of_here.
      destruct (decide (t ∈ l)); [| reflexivity].
      now destruct (recorded_price (get_prices t)).
    + destruct (decide (t ∈ l)) as [Hin | Hin].
      * rewrite decide_True; [reflexivity | now apply list_elem_of_further].
      * rewrite decide_False; [reflexivity |].
        intros H. apply elem_of_cons in H as [H | H]; [exact (Hne (eq_sym H)) | exact (Hin H)].
Qed.

Lemma fold_fetch_volatility_data l st t :
  volatility_data (fold_left fetch_ticker l st) !! t =
  if decide (t ∈ l) then Some (recorded_volatility (get_prices t))
  else volatility_data st !! t.
Proof.
  revert st. induction l as [| x l IH]; intros st; cbn [fold_left].
  - rewrite decide_False; [reflexivity | apply not_elem_of_nil].
  - rewrite IH, fetch_ticker_volatility_data.
    destruct (decide (x = t)) as [-> | Hne].
    + rewrite (decide_True (P := t ∈ t :: l)) by apply list_elem_of_here.
      now destruct (decide (t ∈ l)).
    + destruct (decide (t ∈ l)) as [Hin | Hin].
      * rewrite decide_True; [reflexivity | now apply list_elem_of_further].
      * rewrite decide_False; [reflexivity |].
        intros H. apply elem_of_cons in H as [H | H]; [exact (Hne (eq_sym H)) | exact (Hin H)].
Qed.

Lemma fetch_all_current_prices tickers portfolio t :
  t ∈ all_tickers tickers portfolio ->
  current_prices (fetch_all tickers portfolio) !! t = recorded_price (get_prices t).
Proof.
  intros Hin. unfold fetch_all. rewrite fold_fetch_current_prices.
  destruct (decide (t ∈ iter_set _ _)) as [_ | Hn].
  - simpl. rewrite lookup_empty. now destruct (recorded_price (get_prices t)).
  - exfalso. apply Hn. now apply elem_of_iter_set.
Qed.

Lemma fetch_all_volatility_data tickers portfolio t :
  t ∈ all_tickers tickers portfolio ->
  volatility_data (fetch_all tickers portfolio) !! t
  = Some (recorded_volatility (get_prices t)).
Proof.
  intros Hin. unfold fetch_all. rewrite fold_fetch_volatility_data.
  destruct (decide (t ∈ iter_set _ _)) as [_ | Hn]; [reflexivity |].
  exfalso. apply Hn. now apply elem_of_iter_set.
Qed.

Lemma requested_in_all_tickers tickers portfolio t :
  In t tickers -> t ∈ all_tickers tickers portfolio.
Proof.
  intros Hin. unfold all_tickers. apply elem_of_union_l, elem_of_list_to_set.
  now apply list_elem_of_In.
Qed.

Lemma held_in_all_tickers tickers portfolio t :
  t ∈ dom (get_positions portfolio) -> t ∈ all_tickers tickers portfolio.
Proof. intros Hin. unfold all_tickers. now apply elem_of_union_r. Qed.

(** ** What the second loop stores *)

Lemma agent_unfold tickers portfolio :
  risk_management_agent tickers portfolio =
  fold_left
    (fun risk_analysis ticker =>
       <[ticker := assess_ticker portfolio (fetch_all tickers portfolio)
                     (build_correlation_matrix
                        (returns_by_ticker (fetch_all tickers portfolio)))
                     (active_positions portfolio)
                     (total_portfolio_value portfolio
                        (current_prices (fetch_all tickers portfolio)))
                     ticker]> risk_analysis)
    tickers ∅.
Proof. reflexivity. Qed.

(** The assessment of a requested ticker is the one the loop body computes
    from the state of the first loop. *)
Lemma agent_lookup tickers portfolio t :
  In t tickers ->
  risk_management_agent tickers portfolio !! t =
  Some (assess_ticker portfolio (fetch_all tickers portfolio)
          (build_correlation_matrix (returns_by_ticker (fetch_all tickers portfolio)))
          (active_positions portfolio)
          (total_portfolio_value portfolio (current_prices (fetch_all tickers portfolio)))
          t).
Proof.
  intros Hin. rewrite agent_unfold.
  rewrite (fold_insert_lookup
             (assess_ticker portfolio (fetch_all tickers portfolio)
                (build_correlation_matrix (returns_by_ticker (fetch_all tickers portfolio)))
                (active_positions portfolio)
                (total_portfolio_value portfolio
                   (current_prices (fetch_all tickers portfolio))))).
  rewrite decide_True; [reflexivity | now apply list_elem_of_In].
Qed.

(** Only requested tickers are assessed. *)
Lemma agent_lookup_requested tickers portfolio t a :
  risk_management_agent tickers portfolio !! t = Some a -> In t tickers.
Proof.
  rewrite agent_unfold.
  rewrite (fold_insert_lookup
             (assess_ticker portfolio (fetch_all tickers portfolio)
                (build_correlation_matrix (returns_by_ticker (fetch_all tickers portfolio)))
                (active_positions portfolio)
                (total_portfolio_value portfolio
                   (current_prices (fetch_all tickers portfolio))))).
  destruct (decide (t ∈ tickers)) as [Hin | Hin].
  - intros _. now apply list_elem_of_In.
  - rewrite lookup_empty. discriminate.
Qed.

Lemma assess_ticker_missing portfolio st m active total t :
  current_prices st !! t = None \/
  (exists p, current_prices st !! t = Some p /\ p <= 0) ->
  assess_ticker portfolio st m active total t = missing_price_assessment.
Proof.
  unfold assess_ticker. intros [-> | (p & -> & Hp)]; [reflexivity |].
  apply Qle_bool_iff in Hp. now rewrite Hp.
Qed.

Lemma assess_ticker_priced portfolio st m active total t p :
  current_prices st !! t = Some p -> 0 < p ->
  exists vm cm r,
    assess_ticker portfolio st m active total t =
      {| remaining_position_limit := py_min (remaining_limit r) (get_cash portfolio);
         current_price := p;
         volatility_metrics := Some vm;
         correlation_metrics := Some cm;
         reasoning := ReasoningLimit r |} /\
    portfolio_value r = total /\
    current_position_value r =
      Qabs (get_long (get_positions portfolio !! t) * p
            - get_short (get_positions portfolio !! t) * p) /\
    combined_position_limit_pct r = base_position_limit_pct r * correlation_multiplier r /\
    position_limit r = total * combined_position_limit_pct r /\
    remaining_limit r = position_limit r - current_position_value r /\
    available_cash r = get_cash portfolio.
Proof.
  intros Hp Hpos. unfold assess_ticker. rewrite Hp.
  destruct (Qle_bool p 0) eqn:E.
  { apply Qle_bool_iff in E. lra. }
  destruct (correlation_adjustment m active t) as [cm mult].
  eexists _, _, (mkLimitReasoning _ _ _ _ _ _ _ _ _).
  split; [reflexivity |].
  cbn. repeat split; reflexivity.
Qed.

Lemma recorded_price_single prices :
  length prices = 1%nat -> recorded_price prices = Some 0.
Proof.
  intros Hlen. unfold recorded_price.
  destruct prices as [| p ps]; [discriminate |].
  cbn [prices_to_df]. now rewrite length_sort_index, Hlen, andb_false_r.
Qed.

Lemma assess_ticker_volatility portfolio st m active total t p v :
  current_prices st !! t = Some p -> 0 < p ->
  volatility_data st !! t = Some v ->
  volatility_metrics (assess_ticker portfolio st m active total t) = Some v.
Proof.
  intros Hp Hpos Hv. unfold assess_ticker. rewrite Hp, Hv.
  destruct (Qle_bool p 0) eqn:E.
  { apply Qle_bool_iff in E. lra. }
  destruct (correlation_adjustment m active t) as [cm mult].
  now destruct v.
Qed.

(** A recorded price is valid or it is not. *)
Lemma price_cases (o : option Q) :
  (exists p, o = Some p /\ 0 < p) \/ (o = None \/ exists p, o = Some p /\ p <= 0).
Proof.
  destruct o as [p |]; [| right; now left].
  destruct (Qlt_le_dec 0 p); [left | right; right]; now exists p.
Qed.

(** The loop over the positions adds the long value and subtracts the short
    value of every priced position. *)
Lemma fold_positions_value (cp : gmap string Q) (l : list (string * Position)) acc :
  fold_left
    (fun total tp =>
       match cp !! fst tp with
       | Some price =>
           total + get_long (Some (snd tp)) * price - get_short (Some (snd tp)) * price
       | None => total
       end) l acc
  == acc
     + Qsum (map (fun pp => get_long (Some (fst pp)) * snd pp)
               (omap (fun tp => match cp !! fst tp with
                                | Some price => Some (snd tp, price)
                                | None => None
                                end) l))
     - Qsum (map (fun pp => get_short (Some (fst pp)) * snd pp)
               (omap (fun tp => match cp !! fst tp with
                                | Some price => Some (snd tp, price)
                                | None => None
                                end) l)).
Proof.
  revert acc. induction l as [| tp l IH]; intros acc; cbn [fold_left omap list_omap].
  - cbn. lra.
  - rewrite IH. destruct (cp !! fst tp) as [price |]; cbn [map Qsum fold_right fst snd].
    + unfold Qsum. lra.
    + lra.
Qed.

Lemma omap_ext_in {A B} (f g : A -> option B) (l : list A) :
  (forall x, In x l -> f x = g x) -> omap f l = omap g l.
Proof.
  induction l as [| x l IH]; intros H; cbn [omap list_omap]; [reflexivity |].
  rewrite (H x (or_introl eq_refl)), IH; [reflexivity |].
  intros y Hy. apply H. now right.
Qed.

Lemma total_portfolio_value_spec tickers portfolio :
  total_portfolio_value portfolio (current_prices (fetch_all tickers portfolio))
  == net_liquidation_value get_prices portfolio.
Proof.
  unfold total_portfolio_value, net_liquidation_value, priced_positions.
  rewrite fold_positions_value.
  rewrite (omap_ext_in
             (fun tp => match current_prices (fetch_all tickers portfolio) !! fst tp with
                        | Some price => Some (snd tp, price)
                        | None => None
                        end)
             (fun tp => match recorded_price (get_prices (fst tp)) with
                        | Some price => Some (snd tp, price)
                        | None => None
                        end)).
  - reflexivity.
  - intros [k pos] Hin. cbn [fst snd].
    rewrite fetch_all_current_prices; [reflexivity |].
    apply held_in_all_tickers, elem_of_dom. exists pos.
    apply elem_of_map_to_list. now apply list_elem_of_In.
Qed.

(** ** The limits of the agent *)

(** C2. For every requested symbol with a valid (recorded and positive)
    price, the limit reported is [min(remaining_limit, available_cash)] with
    [remaining_limit = position_limit - current_position_value]; so it never
    exceeds the cash of the portfolio, and it is negative whenever the current
    position already exceeds the position limit. *)
Theorem final_limit_min_cash tickers portfolio t p :
  In t tickers ->
  recorded_price (get_prices t) = Some p ->
  0 < p ->
  exists a r,
    risk_management_agent tickers portfolio !! t = Some a /\
    current_price a = p /\
    reasoning a = ReasoningLimit r /\
    available_cash r = get_cash portfolio /\
    current_position_value r =
      Qabs (get_long (get_positions portfolio !! t) * p
            - get_short (get_positions portfolio !! t) * p) /\
    remaining_limit r = position_limit r - current_position_value r /\
    remaining_position_limit a = py_min (remaining_limit r) (available_cash r) /\
    remaining_position_limit a <= get_cash portfolio /\
    (position_limit r < current_position_value r -> remaining_position_limit a < 0).
Proof.
  intros Hin Hrec Hpos.
  pose proof (fetch_all_current_prices tickers portfolio t
                (requested_in_all_tickers tickers portfolio t Hin)) as Hcp.
  rewrite Hrec in Hcp.
  destruct (assess_ticker_priced portfolio (fetch_all tickers portfolio)
              (build_correlation_matrix (returns_by_ticker (fetch_all tickers portfolio)))
              (active_positions portfolio)
              (total_portfolio_value portfolio
                 (current_prices (fetch_all tickers portfolio)))
              t p Hcp Hpos)
    as (vm & cm & r & Ha & _ & Hcur & _ & _ & Hrem & Hcash).
  eexists _, r. rewrite (agent_lookup tickers portfolio t Hin), Ha.
  cbv beta iota delta [remaining_position_limit current_price reasoning].
  split; [reflexivity |]. split; [reflexivity |]. split; [reflexivity |].
  split; [exact Hcash |]. split; [exact Hcur |]. split; [exact Hrem |].
  split; [now rewrite Hcash |].
  split; [apply py_min_le_r |].
  intros Hover.
  pose proof (py_min_le_l (remaining_limit r) (get_cash portfolio)) as Hle.
  assert (Hneg : remaining_limit r < 0) by (rewrite Hrem; lra).
  lra.
Qed.

(** C6. A requested symbol with no price rows, or whose recorded price is
    not positive, gets an assessment with limit 0, price 0 and an error in
    its reasoning; and every requested symbol still gets its assessment, a
    computed one whenever its own price is valid. *)
Theorem missing_data_does_not_abort tickers portfolio t :
  In t tickers ->
  get_prices t = [] \/ (exists p, recorded_price (get_prices t) = Some p /\ p <= 0) ->
  (exists a msg,
     risk_management_agent tickers portfolio !! t = Some a /\
     remaining_position_limit a == 0 /\
     current_price a == 0 /\
     reasoning a = ReasoningError msg) /\
  (forall u, In u tickers ->
     exists b, risk_management_agent tickers portfolio !! u = Some b /\
       forall q, recorded_price (get_prices u) = Some q -> 0 < q ->
         current_price b = q /\ exists r, reasoning b = ReasoningLimit r).
Proof.
  intros Hin Hbad. split.
  - exists missing_price_assessment, "Missing price data for risk calculation"%string.
    rewrite (agent_lookup tickers portfolio t Hin).
    split; [| repeat split; reflexivity].
    f_equal. apply assess_ticker_missing.
    rewrite (fetch_all_current_prices tickers portfolio t
               (requested_in_all_tickers tickers portfolio t Hin)).
    destruct Hbad as [Hnil | Hbad]; [left; now rewrite Hnil | right; exact Hbad].
  - intros u Hu. eexists. split; [apply (agent_lookup tickers portfolio u Hu) |].
    intros q Hq Hpos.
    pose proof (fetch_all_current_prices tickers portfolio u
                  (requested_in_all_tickers tickers portfolio u Hu)) as Hcp.
    rewrite Hq in Hcp.
    destruct (assess_ticker_priced portfolio (fetch_all tickers portfolio)
                (build_correlation_matrix
                   (returns_by_ticker (fetch_all tickers portfolio)))
                (active_positions portfolio)
                (total_portfolio_value portfolio
                   (current_prices (fetch_all tickers portfolio)))
                u q Hcp Hpos)
      as (vm & cm & r & Ha & _).
    rewrite Ha. split; [reflexivity | now exists r].
Qed.

(** C10. A symbol whose fetched series has exactly one row is recorded with
    the price 0, next to fallback volatility metrics; when it is a requested
    symbol its assessment is therefore the one of a symbol without data:
    limit 0, price 0 and an error in its reasoning. *)
Theorem single_row_is_missing_data tickers portfolio t :
  length (get_prices t) = 1%nat ->
  (t ∈ all_tickers tickers portfolio ->
     current_prices (fetch_all tickers portfolio) !! t = Some 0 /\
     exists m,
       volatility_data (fetch_all tickers portfolio) !! t = Some m /\
       daily_volatility m = 0.05 /\
       volatility_percentile m = 100 /\
       data_points m = 1%nat) /\
  (In t tickers ->
     exists a msg,
       risk_management_agent tickers portfolio !! t = Some a /\
       a = missing_price_assessment /\
       remaining_position_limit a == 0 /\
       current_price a == 0 /\
       reasoning a = ReasoningError msg).
Proof.
  intros Hlen.
  assert (Hcp : t ∈ all_tickers tickers portfolio ->
                current_prices (fetch_all tickers portfolio) !! t = Some 0).
  { intros Hall. rewrite (fetch_all_current_prices tickers portfolio t Hall).
    now apply recorded_price_single. }
  split.
  - intros Hall. split; [now apply Hcp |].
    eexists. split; [apply (fetch_all_volatility_data tickers portfolio t Hall) |].
    unfold recorded_volatility.
    destruct (get_prices t) as [| p [| p' ps]]; try discriminate.
    repeat split; reflexivity.
  - intros Hin.
    exists missing_price_assessment, "Missing price data for risk calculation"%string.
    rewrite (agent_lookup tickers portfolio t Hin).
    split; [| repeat split; reflexivity].
    f_equal. apply assess_ticker_missing. right. exists 0.
    split; [apply Hcp; now apply requested_in_all_tickers | lra].
Qed.

(** C5, as the code has it.  Every assessment in the output belongs to a
    requested symbol and is of one of two shapes: for a symbol with a valid
    price both [volatility_metrics] (the metrics recorded by the first loop)
    and [correlation_metrics] are present; for a symbol without a valid price
    the record is the error record, which has neither field. *)
Theorem metrics_populated_for_valid_price tickers portfolio t a :
  risk_management_agent tickers portfolio !! t = Some a ->
  In t tickers /\
  ((exists p cm,
      recorded_price (get_prices t) = Some p /\ 0 < p /\
      current_price a = p /\
      volatility_metrics a = Some (recorded_volatility (get_prices t)) /\
      correlation_metrics a = Some cm)
   \/
   ((recorded_price (get_prices t) = None \/
     exists p, recorded_price (get_prices t) = Some p /\ p <= 0) /\
    a = missing_price_assessment /\
    volatility_metrics a = None /\
    correlation_metrics a = None)).
Proof.
  intros Ha.
  pose proof (agent_lookup_requested tickers portfolio t a Ha) as Hin.
  split; [exact Hin |].
  pose proof (requested_in_all_tickers tickers portfolio t Hin) as Hall.
  rewrite (agent_lookup tickers portfolio t Hin) in Ha.
  injection Ha as <-.
  pose proof (fetch_all_current_prices tickers portfolio t Hall) as Hcp.
  destruct (price_cases (recorded_price (get_prices t))) as [(p & Hp & Hpos) | Hbad].
  - left. rewrite Hp in Hcp.
    destruct (assess_ticker_priced portfolio (fetch_all tickers portfolio)
                (build_correlation_matrix
                   (returns_by_ticker (fetch_all tickers portfolio)))
                (active_positions portfolio)
                (total_portfolio_value portfolio
                   (current_prices (fetch_all tickers portfolio)))
                t p Hcp Hpos)
      as (vm & cm & r & Hrec & _).
    exists p, cm. split; [exact Hp |]. split; [exact Hpos |].
    split; [now rewrite Hrec |].
    split; [| now rewrite Hrec].
    apply (assess_ticker_volatility _ _ _ _ _ _ p); try assumption.
    now apply fetch_all_volatility_data.
  - right. split; [exact Hbad |].
    rewrite assess_ticker_missing; [repeat split; reflexivity |].
    now rewrite Hcp.
Qed.

(** C9, as the code has it.  The agent does not check the portfolio: a call
    with an invalid PortfolioState returns like any other, with an assessment
    for every requested symbol, computed by the ordinary limit computation
    (for a symbol with a valid price the limit is the minimum of the remaining
    limit and the cash, so with negative cash it is negative). *)
Theorem invalid_portfolio_is_processed tickers portfolio :
  valid_portfolio portfolio = false ->
  exists risk_analysis,
    call_agent tickers portfolio = Returned risk_analysis /\
    forall t, In t tickers ->
      exists a, risk_analysis !! t = Some a /\
        forall p, recorded_price (get_prices t) = Some p -> 0 < p ->
          exists r, reasoning a = ReasoningLimit r /\
            remaining_position_limit a = py_min (remaining_limit r) (get_cash portfolio) /\
            (get_cash portfolio < 0 -> remaining_position_limit a < 0).
Proof.
  intros _. eexists. split; [reflexivity |].
  intros t Hin. eexists. split; [apply (agent_lookup tickers portfolio t Hin) |].
  intros p Hp Hpos.
  pose proof (fetch_all_current_prices tickers portfolio t
                (requested_in_all_tickers tickers portfolio t Hin)) as Hcp.
  rewrite Hp in Hcp.
  destruct (assess_ticker_priced portfolio (fetch_all tickers portfolio)
              (build_correlation_matrix (returns_by_ticker (fetch_all tickers portfolio)))
              (active_positions portfolio)
              (total_portfolio_value portfolio
                 (current_prices (fetch_all tickers portfolio)))
              t p Hcp Hpos)
    as (vm & cm & r & Ha & _).
  rewrite Ha. exists r.
  cbv beta iota delta [remaining_position_limit reasoning].
  split; [reflexivity |]. split; [reflexivity |].
  intros Hneg.
  pose proof (py_min_le_r (remaining_limit r) (get_cash portfolio)). lra.
Qed.

(** ** Volatility metrics *)

Lemma length_dropna_le {A} (s : list (string * option A)) :
  (length (dropna s) <= length s)%nat.
Proof.
  unfold dropna. induction s as [| [d [x |]] s IH]; cbn; lia.
Qed.

Lemma length_pct_change_from prev s : length (pct_change_from prev s) = length s.
Proof.
  revert prev. induction s as [| [d c] s IH]; intros prev; cbn; [reflexivity |].
  now rewrite IH.
Qed.

Lemma length_pct_change s : length (pct_change s) = length s.
Proof.
  destruct s as [| [d c] s]; cbn; [reflexivity |].
  now rewrite length_pct_change_from.
Qed.

Lemma length_returns_le prices_df :
  (length (dropna (pct_change (close_column prices_df))) <= length prices_df)%nat.
Proof.
  etransitivity; [apply length_dropna_le |].
  rewrite length_pct_change. unfold close_column. now rewrite length_map.
Qed.

Lemma length_values {A} (s : list (string * A)) : length (values s) = length s.
Proof. unfold values. apply length_map. Qed.

Lemma values_tail {A} n (s : list (string * A)) : values (tail n s) = tail n (values s).
Proof.
  unfold tail. rewrite length_values. unfold values.
  destruct (n <? 0)%Z; symmetry; apply skipn_map.
Qed.

(** The number of entries [tail] keeps. *)
Lemma length_tail {A} n (s : list A) :
  Z.of_nat (length (tail n s)) =
  if (n <? 0)%Z then Z.max 0 (Z.of_nat (length s) + n)
  else Z.min n (Z.of_nat (length s)).
Proof.
  unfold tail. destruct (n <? 0)%Z eqn:E; rewrite length_skipn.
  - apply Z.ltb_lt in E. lia.
  - apply Z.ltb_ge in E. lia.
Qed.

(** Returns taken over closes that are not zero are numbers. *)
Lemma pct_change_from_finite prev s :
  ~ prev == 0 ->
  Forall (fun e => ~ snd e == 0) s ->
  forallb is_finite (values (dropna (pct_change_from prev s))) = true.
Proof.
  revert prev. induction s as [| [d c] s IH]; intros prev Hprev Hall; [reflexivity |].
  apply Forall_cons in Hall as [Hc Hall]. cbn [snd] in Hc.
  cbn [pct_change_from]. unfold pct.
  destruct (Qeq_bool prev 0) eqn:E; [apply Qeq_bool_iff in E; contradiction |].
  unfold dropna, values in *. cbn [omap list_omap map snd forallb is_finite andb].
  now apply IH.
Qed.

Lemma returns_finite prices_df :
  Forall (fun p => ~ close p == 0) prices_df ->
  forallb is_finite (values (dropna (pct_change (close_column prices_df)))) = true.
Proof.
  intros Hall. destruct prices_df as [| p df]; [reflexivity |].
  apply Forall_cons in Hall as [Hp Hall].
  cbn [close_column map pct_change].
  change (dropna ((time p, None) :: ?l)) with (dropna l).
  apply pct_change_from_finite; [exact Hp |].
  apply Forall_map. cbn [snd].
  eapply Forall_impl; [exact Hall |]. intros r Hr. exact Hr.
Qed.

Lemma forallb_skipn {A} (f : A -> bool) n (l : list A) :
  forallb f l = true -> forallb f (skipn n l) = true.
Proof.
  revert l. induction n as [| n IH]; intros l H; [exact H |].
  destruct l as [| x l]; [reflexivity |].
  cbn [forallb] in H. apply andb_prop in H as [_ H]. now apply IH.
Qed.

Lemma forallb_firstn {A} (f : A -> bool) n (l : list A) :
  forallb f l = true -> forallb f (firstn n l) = true.
Proof.
  revert l. induction n as [| n IH]; intros l H; [reflexivity |].
  destruct l as [| x l]; [reflexivity |].
  cbn [forallb] in H. apply andb_prop in H as [Hx H].
  cbn [firstn forallb]. now rewrite Hx, IH.
Qed.

Lemma std_defined l :
  (2 <= length l)%nat -> forallb is_finite l = true ->
  std l = Some (sample_std sqrt (finite_part l)).
Proof.
  intros H Hfin. unfold std. rewrite Hfin.
  destruct (length l <? 2)%nat eqn:E; [| reflexivity].
  apply Nat.ltb_lt in E. lia.
Qed.

Lemma omap_none_in {A B} (f : A -> option B) (l : list A) :
  (forall x, In x l -> f x = None) -> omap f l = [].
Proof.
  induction l as [| x l IH]; intros H; cbn [omap list_omap]; [reflexivity |].
  rewrite (H x (or_introl eq_refl)). apply IH. intros y Hy. apply H. now right.
Qed.

(** Where [F] agrees with [G] on the [m] indices from [k] on, shifted to 0. *)
Lemma omap_seq_shift {B} (F G : nat -> option B) m k :
  (forall j, (j < m)%nat -> F (k + j)%nat = G j) ->
  omap F (seq k m) = omap G (seq 0 m).
Proof.
  revert k F G. induction m as [| m IH]; intros k F G H; [reflexivity |].
  cbn [seq omap list_omap].
  replace (F k) with (G 0%nat).
  2:{ symmetry. rewrite <- (H 0%nat) by lia. f_equal. lia. }
  rewrite (IH (S k) F (fun j => G (S j))).
  2:{ intros j Hj. rewrite <- (H (S j)) by lia. f_equal. lia. }
  rewrite (IH 1%nat G (fun j => G (S j))) by reflexivity.
  reflexivity.
Qed.

Lemma values_dropna_imap {A B} (F : nat -> option B) (s : list (string * A)) k :
  values (dropna (imap (fun i e => (fst e, F (k + i)%nat)) s))
  = omap F (seq k (length s)).
Proof.
  revert k. induction s as [| e s IH]; intros k; [reflexivity |].
  rewrite imap_cons. cbn [length seq].
  rewrite (imap_ext _ (fun i e => (fst e, F (S k + i)%nat))).
  2:{ intros i x _. cbn. do 2 f_equal. lia. }
  specialize (IH (S k)). unfold dropna, values in *.
  cbn [omap list_omap]. rewrite Nat.add_0_r.
  destruct (F k) as [x |]; cbn [map snd]; now rewrite IH.
Qed.

(** The rolling deviations the code keeps are the deviations of the full
    windows without an infinity. *)
Lemma values_rolling_std w (s : ReturnSeries) :
  (2 <= w)%nat -> (w <= length s)%nat ->
  values (dropna (rolling_std w s)) = window_stds w (values s).
Proof.
  intros Hw Hlen. unfold rolling_std.
  pose (F := fun i =>
               if (i + 1 <? w)%nat then None
               else if (2 <=? w)%nat
                       && forallb is_finite (firstn w (skipn (i + 1 - w) (values s)))
                    then Some (rolling_value w (firstn (i + 1) (values s)))
                    else None).
  transitivity (values (dropna (imap (fun i e => (fst e, F (0 + i)%nat)) s))).
  { do 2 f_equal. apply imap_ext. intros i [d x] _. reflexivity. }
  rewrite (values_dropna_imap F s 0). subst F. unfold window_stds.
  rewrite length_values.
  replace (length s) with ((w - 1) + (length s + 1 - w))%nat at 1 by lia.
  rewrite seq_app, omap_app.
  rewrite omap_none_in.
  2:{ intros x Hx. apply in_seq in Hx.
      destruct (x + 1 <? w)%nat eqn:E; [reflexivity |].
      apply Nat.ltb_ge in E. lia. }
  cbn [app]. apply omap_seq_shift.
  intros j Hj. cbn [Nat.add].
  destruct (w - 1 + j + 1 <? w)%nat eqn:E.
  { apply Nat.ltb_lt in E. lia. }
  replace (2 <=? w)%nat with true by (symmetry; apply Nat.leb_le; lia).
  replace (w - 1 + j + 1 - w)%nat with j by lia.
  replace (w - 1 + j + 1)%nat with (j + w)%nat by lia.
  reflexivity.
Qed.

(** Over a history without an infinity there is a deviation for every full
    window. *)
Lemma length_window_stds w (returns : list Float) :
  forallb is_finite returns = true ->
  length (window_stds w returns) = (length returns + 1 - w)%nat.
Proof.
  intros Hfin. unfold window_stds.
  transitivity (length (seq 0 (length returns + 1 - w))); [| apply length_seq].
  generalize (seq 0 (length returns + 1 - w)). intros l.
  induction l as [| i l IH]; [reflexivity |].
  cbn [omap list_omap].
  rewrite (forallb_firstn _ _ _ (forallb_skipn _ i _ Hfin)).
  cbn [length]. now rewrite IH.
Qed.

Lemma length_filter_true (f : Q -> bool) (l : list Q) :
  length (filter (fun b : bool => b = true) (map f l)) = length (List.filter f l).
Proof.
  induction l as [| x l IH]; [reflexivity |].
  cbn [map List.filter]. rewrite filter_cons.
  destruct (f x).
  - rewrite decide_True by reflexivity. cbn [length]. now rewrite IH.
  - rewrite decide_False by discriminate. exact IH.
Qed.

Lemma mean_bool_fraction (l : list Q) (v : Q) :
  mean_bool (map (fun r => le_nan r (Some v)) l) = fraction_le l v.
Proof.
  unfold mean_bool, fraction_le, Qlen.
  now rewrite length_filter_true, length_map.
Qed.

(** No value is at most NaN. *)
Lemma mean_bool_nan (l : list Q) : mean_bool (map (fun r => le_nan r None) l) == 0.
Proof.
  unfold mean_bool.
  assert (Hnone : filter (fun b : bool => b = true) (map (fun r => le_nan r None) l) = []).
  { induction l as [| x l IH]; [reflexivity |].
    cbn [map le_nan]. rewrite filter_cons, decide_False by discriminate. exact IH. }
  rewrite Hnone. unfold Qlen. cbn [length]. reflexivity.
Qed.

(** C3, as the code has it.  [calculate_volatility_metrics] returns the
    fallback (daily 0.03, annualized 0.03 * sqrt 365, percentile 100) with the
    length of the price series when it has fewer than 2 rows, and with the
    length of the return series when that has fewer than 2 returns (a return
    that is an infinity counts, one that is NaN does not).  The agent does
    not substitute this record for a symbol without rows (or with a single
    row): it records a fallback of its own, with the daily volatility 0.05,
    the percentile 100 and the number of rows. *)
Theorem volatility_fallbacks prices_df lookback_days tickers portfolio t :
  ((length prices_df < 2)%nat ->
     calculate_volatility_metrics prices_df lookback_days =
       {| daily_volatility := 0.03;
          annualized_volatility := 0.03 * sqrt 365;
          volatility_percentile := 100;
          data_points := length prices_df |}) /\
  ((2 <= length prices_df)%nat ->
   (length (dropna (pct_change (close_column prices_df))) < 2)%nat ->
     calculate_volatility_metrics prices_df lookback_days =
       {| daily_volatility := 0.03;
          annualized_volatility := 0.03 * sqrt 365;
          volatility_percentile := 100;
          data_points := length (dropna (pct_change (close_column prices_df))) |}) /\
  (t ∈ all_tickers tickers portfolio ->
   (length (get_prices t) < 2)%nat ->
     exists m,
       volatility_data (fetch_all tickers portfolio) !! t = Some m /\
       daily_volatility m = 0.05 /\
       volatility_percentile m = 100 /\
       data_points m = length (get_prices t)).
Proof.
  split; [| split].
  - intros H. unfold calculate_volatility_metrics.
    apply Nat.ltb_lt in H. now rewrite H.
  - intros H1 H2. unfold calculate_volatility_metrics.
    apply Nat.ltb_ge in H1. apply Nat.ltb_lt in H2. now rewrite H1, H2.
  - intros Hall Hlen. eexists.
    split; [apply (fetch_all_volatility_data tickers portfolio t Hall) |].
    unfold recorded_volatility.
    destruct (get_prices t) as [| p [| p' ps]]; cbn in Hlen; try lia;
      repeat split; reflexivity.
Qed.

(** C4.  With at least two returns, the percentile is 50 when the history
    has fewer than 30 returns.  With 30 returns or more it is 100 times the
    fraction of the 30-sample rolling deviations of the whole return history
    (one for each full window, the undefined ones dropped) that are at most
    the daily volatility, the deviation of the most recent returns.  Two
    degenerate cases come with a close of zero or a lookback below two: when
    no rolling deviation is defined the percentile is 50, and when the daily
    volatility itself is NaN no deviation is at most it and the percentile is
    0.  Over closes that are not zero, with a lookback of two or more, neither
    arises: there is a deviation for every full window and the percentile is
    100 times the fraction of them at most the daily volatility reported. *)
Theorem volatility_percentile_rank prices_df lookback_days :
  (2 <= length (dropna (pct_change (close_column prices_df))))%nat ->
  let returns := values (dropna (pct_change (close_column prices_df))) in
  let recent := tail (Z.min lookback_days (Z.of_nat (length returns))) returns in
  let rolling := window_stds 30 returns in
  let m := calculate_volatility_metrics prices_df lookback_days in
  ((length returns < 30)%nat -> volatility_percentile m == 50) /\
  ((30 <= length returns)%nat ->
     match rolling, std recent with
     | [], _ => volatility_percentile m == 50
     | _ :: _, Some daily_vol =>
         daily_volatility m = daily_vol /\
         volatility_percentile m == 100 * fraction_le rolling daily_vol
     | _ :: _, None => volatility_percentile m == 0
     end) /\
  ((30 <= length returns)%nat ->
   (2 <= lookback_days)%Z ->
   Forall (fun p => ~ close p == 0) prices_df ->
     length rolling = (length returns - 29)%nat /\
     volatility_percentile m == 100 * fraction_le rolling (daily_volatility m)).
Proof.
  intros Hret returns recent rolling m.
  pose proof (length_returns_le prices_df) as Hdf.
  assert (Hm : m =
    let daily_vol := std recent in
    {| daily_volatility := nan_default daily_vol CRYPTO_RISK_FACTORS.safe_volatility_threshold;
       annualized_volatility :=
         nan_default ((fun d => d * sqrt 365) <$> daily_vol)
           (CRYPTO_RISK_FACTORS.safe_volatility_threshold * sqrt 365);
       volatility_percentile :=
         nan_default
           (if (30 <=? length returns)%nat then
              match rolling with
              | [] => Some 50
              | _ :: _ =>
                  Some (mean_bool (map (fun r => le_nan r daily_vol) rolling) * 100)
              end
            else Some 50) 50.0;
       data_points := length recent |}).
  { subst m. unfold calculate_volatility_metrics.
    destruct (length prices_df <? 2)%nat eqn:E1.
    { apply Nat.ltb_lt in E1. lia. }
    destruct (length (dropna (pct_change (close_column prices_df))) <? 2)%nat eqn:E2.
    { apply Nat.ltb_lt in E2. lia. }
    subst recent rolling returns. cbv zeta.
    set (daily_returns := dropna (pct_change (close_column prices_df))) in *.
    rewrite !values_tail, !length_values.
    replace (length (tail (Z.min lookback_days (Z.of_nat (length daily_returns)))
                       daily_returns))
      with (length (tail (Z.min lookback_days (Z.of_nat (length daily_returns)))
                      (values daily_returns)))
      by (now rewrite <- values_tail, length_values).
    destruct (30 <=? length daily_returns)%nat eqn:E3; [| reflexivity].
    apply Nat.leb_le in E3.
    rewrite <- (values_rolling_std 30 daily_returns) by lia.
    rewrite <- (length_values (dropna (rolling_std 30 daily_returns))).
    destruct (values (dropna (rolling_std 30 daily_returns))); reflexivity. }
  rewrite Hm. cbv zeta.
  cbv beta iota delta [volatility_percentile daily_volatility].
  split; [| split].
  - intros Hlt. destruct (30 <=? length returns)%nat eqn:E3; [| reflexivity].
    apply Nat.leb_le in E3. lia.
  - intros Hge. apply Nat.leb_le in Hge. rewrite Hge.
    destruct rolling as [| r rs]; [reflexivity |].
    destruct (std recent) as [daily_vol |]; cbn [nan_default].
    + split; [reflexivity |]. rewrite mean_bool_fraction. lra.
    + rewrite mean_bool_nan. lra.
  - intros Hge Hlook Hclose.
    pose proof (returns_finite prices_df Hclose) as Hfin. fold returns in Hfin.
    assert (Hlen : length rolling = (length returns - 29)%nat).
    { subst rolling. rewrite length_window_stds by exact Hfin. lia. }
    split; [exact Hlen |].
    apply Nat.leb_le in Hge. rewrite Hge.
    destruct rolling as [| r rs]; [apply Nat.leb_le in Hge; cbn in Hlen; lia |].
    rewrite (std_defined recent).
    + cbn [nan_default]. rewrite mean_bool_fraction. lra.
    + subst recent. apply Nat2Z.inj_le. rewrite length_tail.
      subst returns. rewrite length_values.
      destruct (_ <? 0)%Z eqn:E; [apply Z.ltb_lt in E |]; lia.
    + subst recent. unfold tail.
      destruct (_ <? 0)%Z; now apply forallb_skipn.
Qed.

End Properties.

(** ** Net liquidation value *)

(** C7. The portfolio value is the net liquidation value: the cash plus the
    long values minus the short values of the positions whose symbol has a
    recorded price, the other positions adding nothing; it is the value every
    computed assessment reports and multiplies the combined percentage by.
    With cash 10000 and two long units at the price 500 it is 11000, with or
    without a further position in a symbol that has no price. *)
Theorem portfolio_value_is_net_liquidation
    (sqrt : Q -> Q) (rolling_value : nat -> list Float -> Q)
    (all_tickers_rank active_positions_rank : string -> nat)
    (get_prices : string -> list Price)
    (tickers : list string) (portfolio : Portfolio) :
  total_portfolio_value portfolio
    (current_prices (fetch_all sqrt rolling_value all_tickers_rank get_prices tickers portfolio))
  == net_liquidation_value get_prices portfolio /\
  (forall t p,
     In t tickers -> recorded_price (get_prices t) = Some p -> 0 < p ->
     exists a r,
       risk_management_agent sqrt rolling_value all_tickers_rank
         active_positions_rank get_prices tickers portfolio !! t = Some a /\
       reasoning a = ReasoningLimit r /\
       portfolio_value r == net_liquidation_value get_prices portfolio /\
       position_limit r = portfolio_value r * combined_position_limit_pct r) /\
  net_liquidation_value example_prices example_portfolio == 10000 + 2 * 500 - 0 /\
  net_liquidation_value example_prices example_portfolio == 11000 /\
  net_liquidation_value example_prices example_portfolio_unpriced == 11000 /\
  total_portfolio_value example_portfolio
    (current_prices (fetch_all sqrt rolling_value all_tickers_rank example_prices ["BTCUSDT"] example_portfolio))
  == 11000.
Proof.
  split; [apply total_portfolio_value_spec |].
  split.
  - intros t p Hin Hp Hpos.
    pose proof (fetch_all_current_prices sqrt rolling_value all_tickers_rank get_prices tickers portfolio t
                  (requested_in_all_tickers tickers portfolio t Hin)) as Hcp.
    rewrite Hp in Hcp.
    destruct (assess_ticker_priced active_positions_rank portfolio
                (fetch_all sqrt rolling_value all_tickers_rank get_prices tickers portfolio)
                (build_correlation_matrix sqrt
                   (returns_by_ticker (fetch_all sqrt rolling_value all_tickers_rank get_prices tickers portfolio)))
                (active_positions portfolio)
                (total_portfolio_value portfolio
                   (current_prices (fetch_all sqrt rolling_value all_tickers_rank get_prices tickers portfolio)))
                t p Hcp Hpos)
      as (vm & cm & r & Ha & Hval & _ & _ & Hlim & _).
    eexists _, r.
    rewrite (agent_lookup sqrt rolling_value all_tickers_rank active_positions_rank
               get_prices tickers portfolio t Hin), Ha.
    split; [reflexivity |]. split; [reflexivity |].
    split; [rewrite Hval; apply total_portfolio_value_spec |].
    now rewrite Hlim, Hval.
  - repeat split; vm_compute; reflexivity.
Qed.

Lemma portfolio_value_is_net_liquidation_witness :
  exists a r,
    risk_management_agent sqrt_fixed rolling_fixed rank_none rank_none
      example_prices ["BTCUSDT"; "XRPUSDT"]
      example_portfolio_unpriced !! "BTCUSDT" = Some a /\
    reasoning a = ReasoningLimit r /\
    portfolio_value r == net_liquidation_value example_prices example_portfolio_unpriced /\
    position_limit r = portfolio_value r * combined_position_limit_pct r.
Proof.
  apply (proj1 (proj2 (portfolio_value_is_net_liquidation sqrt_fixed rolling_fixed rank_none
                         rank_none example_prices
                         ["BTCUSDT"; "XRPUSDT"] example_portfolio_unpriced))
           "BTCUSDT" 500).
  - left. reflexivity.
  - vm_compute. reflexivity.
  - reflexivity.
Defined.

(** ** Statements that fail on the code *)

(** C3 as stated fails: for a symbol without price rows the agent records a
    daily volatility of 0.05, not the fallback 0.03 of
    [calculate_volatility_metrics]. *)
Lemma no_rows_fallback_differs :
  ~ (forall (sqrt : Q -> Q) (rolling_value : nat -> list Float -> Q)
            (all_tickers_rank : string -> nat)
            (get_prices : string -> list Price) tickers portfolio t,
       t ∈ all_tickers tickers portfolio ->
       get_prices t = [] ->
       exists m,
         volatility_data (fetch_all sqrt rolling_value all_tickers_rank get_prices tickers portfolio) !! t = Some m /\
         daily_volatility m == 0.03 /\
         annualized_volatility m == 0.03 * sqrt 365 /\
         volatility_percentile m == 100 /\
         data_points m = 0%nat).
Proof.
  intros H.
  assert (Hall : "XRPUSDT" ∈ all_tickers ["XRPUSDT"] example_portfolio)
    by (apply requested_in_all_tickers; left; reflexivity).
  destruct (H sqrt_fixed rolling_fixed rank_none example_prices ["XRPUSDT"] example_portfolio "XRPUSDT"
              Hall eq_refl) as (m & Hm & Hdaily & _).
  rewrite (fetch_all_volatility_data sqrt_fixed rolling_fixed rank_none example_prices _ _ _ Hall) in Hm.
  injection Hm as <-. vm_compute in Hdaily. discriminate.
Qed.

(** C5 as stated fails: the assessment of a symbol without price rows has
    neither [volatility_metrics] nor [correlation_metrics]. *)
Lemma missing_data_record_lacks_metrics :
  ~ (forall (sqrt : Q -> Q) (rolling_value : nat -> list Float -> Q)
            (all_tickers_rank active_positions_rank : string -> nat)
            (get_prices : string -> list Price) tickers portfolio t a,
       risk_management_agent sqrt rolling_value all_tickers_rank
         active_positions_rank get_prices tickers portfolio !! t = Some a ->
       is_Some (volatility_metrics a) /\ is_Some (correlation_metrics a)).
Proof.
  intros H.
  destruct (H sqrt_fixed rolling_fixed rank_none rank_none example_prices
              ["BTCUSDT"; "XRPUSDT"] example_portfolio
              "XRPUSDT" missing_price_assessment) as [[vm Hvm] _].
  - vm_compute. reflexivity.
  - discriminate.
Qed.

(** C9 as stated fails: a call with negative cash and a negative quantity
    returns; nothing rejects it. *)
Lemma invalid_portfolio_not_rejected :
  ~ (forall (sqrt : Q -> Q) (rolling_value : nat -> list Float -> Q)
            (all_tickers_rank active_positions_rank : string -> nat)
            (get_prices : string -> list Price) tickers portfolio,
       valid_portfolio portfolio = false ->
       exists condition, call_agent sqrt rolling_value all_tickers_rank active_positions_rank
         get_prices tickers portfolio = Raised condition).
Proof.
  intros H.
  destruct (H sqrt_fixed rolling_fixed rank_none rank_none example_prices ["BTCUSDT"]
              invalid_portfolio) as [c Hc].
  - vm_compute. reflexivity.
  - discriminate.
Qed.

(** ** The theorems at concrete inputs *)

Lemma final_limit_min_cash_witness :
  exists a r,
    risk_management_agent sqrt_fixed rolling_fixed rank_none rank_none
      example_prices ["BTCUSDT"] over_budget_portfolio
      !! "BTCUSDT" = Some a /\
    current_price a = 500 /\
    reasoning a = ReasoningLimit r /\
    available_cash r = get_cash over_budget_portfolio /\
    current_position_value r =
      Qabs (get_long (get_positions over_budget_portfolio !! "BTCUSDT") * 500
            - get_short (get_positions over_budget_portfolio !! "BTCUSDT") * 500) /\
    remaining_limit r = position_limit r - current_position_value r /\
    remaining_position_limit a = py_min (remaining_limit r) (available_cash r) /\
    remaining_position_limit a <= get_cash over_budget_portfolio /\
    (position_limit r < current_position_value r -> remaining_position_limit a < 0).
Proof.
  apply (final_limit_min_cash sqrt_fixed rolling_fixed rank_none rank_none example_prices ["BTCUSDT"]
           over_budget_portfolio "BTCUSDT" 500).
  - left. reflexivity.
  - vm_compute. reflexivity.
  - reflexivity.
Defined.

(** The limit of the over-budget portfolio is negative, and below the cash. *)
Example over_budget_limit_negative :
  match risk_management_agent sqrt_fixed rolling_fixed rank_none rank_none
      example_prices ["BTCUSDT"]
          over_budget_portfolio !! "BTCUSDT" with
  | Some a => remaining_position_limit a < 0 /\ current_price a == 500
  | None => False
  end.
Proof. vm_compute. split; reflexivity. Qed.

Lemma missing_data_does_not_abort_witness :
  (exists a msg,
     risk_management_agent sqrt_fixed rolling_fixed rank_none rank_none
      example_prices
       ["XRPUSDT"; "BTCUSDT"; "ETHUSDT"] example_portfolio !! "XRPUSDT" = Some a /\
     remaining_position_limit a == 0 /\
     current_price a == 0 /\
     reasoning a = ReasoningError msg) /\
  (forall u, In u ["XRPUSDT"; "BTCUSDT"; "ETHUSDT"] ->
     exists b,
       risk_management_agent sqrt_fixed rolling_fixed rank_none rank_none
      example_prices
         ["XRPUSDT"; "BTCUSDT"; "ETHUSDT"] example_portfolio !! u = Some b /\
       forall q, recorded_price (example_prices u) = Some q -> 0 < q ->
         current_price b = q /\ exists r, reasoning b = ReasoningLimit r).
Proof.
  apply (missing_data_does_not_abort sqrt_fixed rolling_fixed rank_none rank_none
           example_prices
           ["XRPUSDT"; "BTCUSDT"; "ETHUSDT"] example_portfolio "XRPUSDT").
  - left. reflexivity.
  - left. reflexivity.
Defined.

Lemma single_row_is_missing_data_witness :
  (current_prices (fetch_all sqrt_fixed rolling_fixed rank_none example_prices ["ETHUSDT"] example_portfolio)
     !! "ETHUSDT" = Some 0 /\
   exists m,
     volatility_data (fetch_all sqrt_fixed rolling_fixed rank_none example_prices ["ETHUSDT"] example_portfolio)
       !! "ETHUSDT" = Some m /\
     daily_volatility m = 0.05 /\
     volatility_percentile m = 100 /\
     data_points m = 1%nat) /\
  (exists a msg,
     risk_management_agent sqrt_fixed rolling_fixed rank_none rank_none
      example_prices ["ETHUSDT"] example_portfolio
       !! "ETHUSDT" = Some a /\
     a = missing_price_assessment /\
     remaining_position_limit a == 0 /\
     current_price a == 0 /\
     reasoning a = ReasoningError msg).
Proof.
  destruct (single_row_is_missing_data sqrt_fixed rolling_fixed rank_none rank_none
              example_prices ["ETHUSDT"]
              example_portfolio "ETHUSDT" eq_refl) as [Hstate Hout].
  split.
  - apply Hstate. apply requested_in_all_tickers. left. reflexivity.
  - apply Hout. left. reflexivity.
Defined.

Lemma metrics_populated_for_valid_price_witness :
  In "XRPUSDT" ["BTCUSDT"; "XRPUSDT"] /\
  ((exists p cm,
      recorded_price (example_prices "XRPUSDT") = Some p /\ 0 < p /\
      current_price missing_price_assessment = p /\
      volatility_metrics missing_price_assessment
        = Some (recorded_volatility sqrt_fixed rolling_fixed (example_prices "XRPUSDT")) /\
      correlation_metrics missing_price_assessment = Some cm)
   \/
   ((recorded_price (example_prices "XRPUSDT") = None \/
     exists p, recorded_price (example_prices "XRPUSDT") = Some p /\ p <= 0) /\
    missing_price_assessment = missing_price_assessment /\
    volatility_metrics missing_price_assessment = None /\
    correlation_metrics missing_price_assessment = None)).
Proof.
  apply (metrics_populated_for_valid_price sqrt_fixed rolling_fixed rank_none rank_none
           example_prices
           ["BTCUSDT"; "XRPUSDT"] example_portfolio "XRPUSDT" missing_price_assessment).
  vm_compute. reflexivity.
Defined.

(** The assessment of the symbol with a valid price carries both metrics. *)
Example valid_price_record_has_metrics :
  match risk_management_agent sqrt_fixed rolling_fixed rank_none rank_none
      example_prices ["BTCUSDT"; "XRPUSDT"]
          example_portfolio !! "BTCUSDT" with
  | Some a => is_Some (volatility_metrics a) /\ is_Some (correlation_metrics a)
  | None => False
  end.
Proof. vm_compute. split; eexists; reflexivity. Qed.

Lemma invalid_portfolio_is_processed_witness :
  exists risk_analysis,
    call_agent sqrt_fixed rolling_fixed rank_none rank_none example_prices ["BTCUSDT"] invalid_portfolio
      = Returned risk_analysis /\
    forall t, In t ["BTCUSDT"] ->
      exists a, risk_analysis !! t = Some a /\
        forall p, recorded_price (example_prices t) = Some p -> 0 < p ->
          exists r, reasoning a = ReasoningLimit r /\
            remaining_position_limit a
              = py_min (remaining_limit r) (get_cash invalid_portfolio) /\
            (get_cash invalid_portfolio < 0 -> remaining_position_limit a < 0).
Proof.
  apply (invalid_portfolio_is_processed sqrt_fixed rolling_fixed rank_none rank_none
           example_prices ["BTCUSDT"]
           invalid_portfolio).
  vm_compute. reflexivity.
Defined.

(** With cash -100 the limit reported for the priced symbol is negative. *)
Example invalid_portfolio_limit :
  match risk_management_agent sqrt_fixed rolling_fixed rank_none rank_none
      example_prices ["BTCUSDT"]
          invalid_portfolio !! "BTCUSDT" with
  | Some a => remaining_position_limit a < 0 /\ exists r, reasoning a = ReasoningLimit r
  | None => False
  end.
Proof. vm_compute. split; [reflexivity | eexists; reflexivity]. Qed.

Lemma volatility_fallbacks_witness :
  calculate_volatility_metrics sqrt_fixed rolling_fixed
      (sort_index (example_prices "ETHUSDT")) 60 =
    {| daily_volatility := 0.03;
       annualized_volatility := 0.03 * sqrt_fixed 365;
       volatility_percentile := 100;
       data_points := length (sort_index (example_prices "ETHUSDT")) |} /\
  calculate_volatility_metrics sqrt_fixed rolling_fixed
      (sort_index (example_prices "BTCUSDT")) 60 =
    {| daily_volatility := 0.03;
       annualized_volatility := 0.03 * sqrt_fixed 365;
       volatility_percentile := 100;
       data_points :=
         length (dropna (pct_change
                           (close_column (sort_index (example_prices "BTCUSDT"))))) |} /\
  exists m,
    volatility_data (fetch_all sqrt_fixed rolling_fixed rank_none example_prices
                       ["XRPUSDT"] example_portfolio)
      !! "XRPUSDT" = Some m /\
    daily_volatility m = 0.05 /\
    volatility_percentile m = 100 /\
    data_points m = length (example_prices "XRPUSDT").
Proof.
  split; [| split].
  - apply (proj1 (volatility_fallbacks sqrt_fixed rolling_fixed rank_none example_prices
                    (sort_index (example_prices "ETHUSDT")) 60
                    ["XRPUSDT"] example_portfolio "XRPUSDT")).
    vm_compute. lia.
  - apply (proj1 (proj2 (volatility_fallbacks sqrt_fixed rolling_fixed rank_none
                           example_prices
                           (sort_index (example_prices "BTCUSDT")) 60
                           ["XRPUSDT"] example_portfolio "XRPUSDT"))).
    + vm_compute. lia.
    + vm_compute. lia.
  - apply (proj2 (proj2 (volatility_fallbacks sqrt_fixed rolling_fixed rank_none
                           example_prices
                           (sort_index (example_prices "ETHUSDT")) 60
                           ["XRPUSDT"] example_portfolio "XRPUSDT"))).
    + apply requested_in_all_tickers. left. reflexivity.
    + vm_compute. lia.
Defined.

(** A first close of zero: the return after it is an infinity and counts as
    a return.  With that one return the fallback reports one data point; with
    a second return there are two, the deviation of an infinity is NaN and
    is replaced by 0.03, and the percentile is 50. *)
Example zero_close_metrics :
  calculate_volatility_metrics sqrt_fixed rolling_fixed (firstn 2 zero_close_history) 60 =
    {| daily_volatility := 0.03;
       annualized_volatility := 0.03 * sqrt_fixed 365;
       volatility_percentile := 100;
       data_points := 1 |} /\
  calculate_volatility_metrics sqrt_fixed rolling_fixed zero_close_history 60 =
    {| daily_volatility := 0.03;
       annualized_volatility := 0.03 * sqrt_fixed 365;
       volatility_percentile := 50;
       data_points := 2 |}.
Proof. split; reflexivity. Qed.

Lemma closes_nonzero_check (df : DataFrame) :
  forallb (fun p => negb (Qeq_bool (close p) 0)) df = true ->
  Forall (fun p => ~ close p == 0) df.
Proof.
  intros H. apply Forall_forall. intros p Hp Hz.
  rewrite forallb_forall in H. specialize (H p (proj1 (list_elem_of_In _ _) Hp)).
  apply negb_true_iff in H. apply Qeq_bool_iff in Hz. congruence.
Qed.

Lemma volatility_percentile_rank_witness :
  (let returns := values (dropna (pct_change (close_column long_history))) in
   let rolling := window_stds rolling_fixed 30 returns in
   let m := calculate_volatility_metrics sqrt_fixed rolling_fixed long_history 60 in
   length rolling = (length returns - 29)%nat /\
   volatility_percentile m == 100 * fraction_le rolling (daily_volatility m))
  /\
  volatility_percentile
    (calculate_volatility_metrics sqrt_fixed rolling_fixed short_history 60)
  == 50.
Proof.
  split.
  - apply (proj2 (proj2 (volatility_percentile_rank sqrt_fixed rolling_fixed
                           long_history 60 ltac:(vm_compute; lia)))).
    + vm_compute. lia.
    + lia.
    + apply closes_nonzero_check. vm_compute. reflexivity.
  - apply (proj1 (volatility_percentile_rank sqrt_fixed rolling_fixed
                    short_history 60 ltac:(vm_compute; lia))).
    vm_compute. lia.
Defined.

(** In exact arithmetic the rolling deviation of a full window is the sample
    deviation of the values of that window. *)
Lemma rolling_exact_window (sqrt : Q -> Q) (w i : nat) (returns : list Float) :
  (i + w <= length returns)%nat ->
  rolling_exact sqrt w (firstn (i + w) returns)
  = sample_std sqrt (finite_part (firstn w (skipn i returns))).
Proof.
  intros Hlen. unfold rolling_exact.
  rewrite length_firstn, Nat.min_l by exact Hlen.
  replace (i + w - w)%nat with i by lia.
  now rewrite firstn_skipn_comm.
Qed.

(** On the long history one of the three rolling deviations is at most the
    daily volatility. *)
Example long_history_percentile :
  volatility_percentile
    (calculate_volatility_metrics sqrt_fixed rolling_fixed long_history 60)
  == 100 * (1 / 3).
Proof. vm_compute. reflexivity. Qed.

(** With exactly thirty returns the one rolling deviation and the daily
    volatility are deviations of the same thirty returns, and the comparison
    is a tie that rounding decides: the percentile is 100 where the rolling
    deviation comes out equal, and 0 where it comes out above. *)
Example single_window_percentile :
  volatility_percentile
    (calculate_volatility_metrics sqrt_fixed rolling_fixed single_window_history 60)
  == 100 /\
  volatility_percentile
    (calculate_volatility_metrics sqrt_fixed rolling_above single_window_history 60)
  == 0.
Proof. split; vm_compute; reflexivity. Qed.

(** * Further properties of the risk manager *)

(** ** The shape of the allocation curves *)

(** Case analysis on every threshold test in the goal. *)
Ltac threshold_cases :=
  repeat match goal with
  | |- context [Qltb ?a ?b] =>
      let E := fresh "E" in
      destruct (Qltb a b) eqn:E;
      [apply Qltb_lt in E | apply Qltb_ge in E]
  | |- context [Qle_bool ?a ?b] =>
      let E := fresh "E" in
      destruct (Qle_bool a b) eqn:E;
      [apply Qle_bool_iff in E
      | assert (b < a) by (apply Qltb_lt; unfold Qltb; now rewrite E); clear E]
  end.

Lemma vol_tier_monotone u v : u <= v -> vol_tier v <= vol_tier u.
Proof. intros H. unfold vol_tier. threshold_cases; lra. Qed.

Lemma py_min_monotone a x y : x <= y -> py_min a x <= py_min a y.
Proof. intros H. unfold py_min. threshold_cases; lra. Qed.

Lemma py_max_monotone a x y : x <= y -> py_max a x <= py_max a y.
Proof. intros H. unfold py_max. threshold_cases; lra. Qed.

(** X1. The volatility-adjusted limit never grows with the volatility. *)
Theorem volatility_limit_monotone (u v : Q) :
  u <= v ->
  calculate_volatility_adjusted_limit v <= calculate_volatility_adjusted_limit u.
Proof.
  intros H.
  assert (Hm : vol_multiplier v <= vol_multiplier u).
  { unfold vol_multiplier.
    apply py_max_monotone, py_min_monotone, vol_tier_monotone, H. }
  unfold calculate_volatility_adjusted_limit, CRYPTO_RISK_FACTORS.max_position_size.
  lra.
Qed.

Lemma volatility_limit_monotone_witness :
  calculate_volatility_adjusted_limit 0.80 <= calculate_volatility_adjusted_limit 0.30.
Proof. apply (volatility_limit_monotone 0.30 0.80). lra. Defined.

(** X2. The bounds applied after the tier chain never change its value:
    every tier value already lies in [0.13, 1.00], so the limit is the base
    percentage times the tier value itself. *)
Theorem volatility_bounds_inert (v : Q) :
  vol_multiplier v == vol_tier v /\
  calculate_volatility_adjusted_limit v == 0.15 * vol_tier v.
Proof.
  pose proof (vol_tier_bounds v) as [Hlo Hhi].
  assert (Hm : vol_multiplier v == vol_tier v).
  { unfold vol_multiplier, py_min. threshold_cases; unfold py_max; threshold_cases; lra. }
  split; [exact Hm |].
  unfold calculate_volatility_adjusted_limit, CRYPTO_RISK_FACTORS.max_position_size.
  rewrite Hm. reflexivity.
Qed.

(** X3. The correlation multiplier never grows with the average
    correlation and takes its values between 0.70 and 1.10. *)
Theorem correlation_multiplier_monotone (c d : Q) :
  c <= d ->
  calculate_correlation_multiplier d <= calculate_correlation_multiplier c /\
  0.70 <= calculate_correlation_multiplier c <= 1.10.
Proof.
  intros H. unfold calculate_correlation_multiplier.
  split; [| split]; threshold_cases; lra.
Qed.

Lemma correlation_multiplier_monotone_witness :
  calculate_correlation_multiplier 0.9 <= calculate_correlation_multiplier 0.1 /\
  0.70 <= calculate_correlation_multiplier 0.1 <= 1.10.
Proof. apply (correlation_multiplier_monotone 0.1 0.9). lra. Defined.

Lemma correlation_multiplier_bounds c :
  0.70 <= calculate_correlation_multiplier c <= 1.10.
Proof. unfold calculate_correlation_multiplier. split; threshold_cases; lra. Qed.

(** ** The assessment of a priced symbol, field by field *)

Section AgentProperties.

Variable sqrt : Q -> Q.
Variable rolling_value : nat -> list Float -> Q.
Variable all_tickers_rank : string -> nat.
Variable active_positions_rank : string -> nat.
Variable get_prices : string -> list Price.

Local Abbreviation fetch_ticker := (fetch_ticker sqrt rolling_value get_prices).
Local Abbreviation fetch_all :=
  (fetch_all sqrt rolling_value all_tickers_rank get_prices).
Local Abbreviation risk_management_agent :=
  (risk_management_agent sqrt rolling_value all_tickers_rank active_positions_rank
     get_prices).
Local Abbreviation calculate_volatility_metrics :=
  (calculate_volatility_metrics sqrt rolling_value).
Local Abbreviation recorded_volatility := (recorded_volatility sqrt rolling_value).
Local Abbreviation build_correlation_matrix := (build_correlation_matrix sqrt).
Local Abbreviation assess_ticker := (assess_ticker active_positions_rank).
Local Abbreviation correlation_adjustment :=
  (correlation_adjustment active_positions_rank).
Local Abbreviation fetch_all_current_prices :=
  (fetch_all_current_prices sqrt rolling_value all_tickers_rank get_prices).
Local Abbreviation fetch_all_volatility_data :=
  (fetch_all_volatility_data sqrt rolling_value all_tickers_rank get_prices).
Local Abbreviation agent_lookup :=
  (agent_lookup sqrt rolling_value all_tickers_rank active_positions_rank get_prices).
Local Abbreviation agent_unfold :=
  (agent_unfold sqrt rolling_value all_tickers_rank active_positions_rank get_prices).
Local Abbreviation assess_ticker_priced := (assess_ticker_priced active_positions_rank).
Local Abbreviation assess_ticker_volatility :=
  (assess_ticker_volatility active_positions_rank).

Lemma assess_ticker_fields portfolio st m active total t p :
  current_prices st !! t = Some p -> 0 < p ->
  exists r,
    reasoning (assess_ticker portfolio st m active total t) = ReasoningLimit r /\
    remaining_position_limit (assess_ticker portfolio st m active total t)
      = py_min (remaining_limit r) (get_cash portfolio) /\
    correlation_metrics (assess_ticker portfolio st m active total t)
      = Some (fst (correlation_adjustment m active t)) /\
    portfolio_value r = total /\
    current_position_value r =
      Qabs (get_long (get_positions portfolio !! t) * p
            - get_short (get_positions portfolio !! t) * p) /\
    base_position_limit_pct r =
      calculate_volatility_adjusted_limit
        (match volatility_data st !! t with
         | Some v => annualized_volatility v
         | None => 0.25
         end) /\
    correlation_multiplier r = snd (correlation_adjustment m active t) /\
    combined_position_limit_pct r = base_position_limit_pct r * correlation_multiplier r /\
    position_limit r = total * combined_position_limit_pct r /\
    remaining_limit r = position_limit r - current_position_value r.
Proof.
  intros Hp Hpos. unfold assess_ticker. rewrite Hp.
  destruct (Qle_bool p 0) eqn:E.
  { apply Qle_bool_iff in E. lra. }
  destruct (correlation_adjustment m active t) as [cm mult].
  eexists. split; [reflexivity |].
  cbn. repeat split; reflexivity.
Qed.

(** The multiplier of the correlation adjustment is neutral or taken from the
    table. *)
Lemma correlation_adjustment_multiplier m active t :
  0.70 <= snd (correlation_adjustment m active t) <= 1.10.
Proof.
  unfold correlation_adjustment.
  destruct m as [m |]; [| cbn; lra].
  destruct (in_columns t m); [| cbn; lra].
  match goal with
  | |- context [match ?c with [] => _ | _ :: _ => _ end] => destruct c; [cbn; lra |]
  end.
  match goal with
  | |- context [(0 <? ?n)%nat] => destruct (0 <? n)%nat; [| cbn; lra]
  end.
  cbn [snd]. apply correlation_multiplier_bounds.
Qed.

(** The agent's state and inputs of the limit computation for [tickers] and
    [portfolio]. *)
Lemma agent_assessment tickers portfolio t p :
  In t tickers -> recorded_price (get_prices t) = Some p -> 0 < p ->
  exists a r,
    risk_management_agent tickers portfolio !! t = Some a /\
    current_prices (fetch_all tickers portfolio) !! t = Some p /\
    a = assess_ticker portfolio (fetch_all tickers portfolio)
          (build_correlation_matrix (returns_by_ticker (fetch_all tickers portfolio)))
          (active_positions portfolio)
          (total_portfolio_value portfolio
             (current_prices (fetch_all tickers portfolio))) t /\
    reasoning a = ReasoningLimit r /\
    remaining_position_limit a = py_min (remaining_limit r) (get_cash portfolio) /\
    correlation_metrics a
      = Some (fst (correlation_adjustment
                     (build_correlation_matrix
                        (returns_by_ticker (fetch_all tickers portfolio)))
                     (active_positions portfolio) t)) /\
    portfolio_value r
      = total_portfolio_value portfolio (current_prices (fetch_all tickers portfolio)) /\
    current_position_value r =
      Qabs (get_long (get_positions portfolio !! t) * p
            - get_short (get_positions portfolio !! t) * p) /\
    base_position_limit_pct r =
      calculate_volatility_adjusted_limit
        (annualized_volatility (recorded_volatility (get_prices t))) /\
    correlation_multiplier r
      = snd (correlation_adjustment
               (build_correlation_matrix
                  (returns_by_ticker (fetch_all tickers portfolio)))
               (active_positions portfolio) t) /\
    combined_position_limit_pct r = base_position_limit_pct r * correlation_multiplier r /\
    position_limit r = portfolio_value r * combined_position_limit_pct r /\
    remaining_limit r = position_limit r - current_position_value r.
Proof.
  intros Hin Hp Hpos.
  pose proof (requested_in_all_tickers tickers portfolio t Hin) as Hall.
  pose proof (fetch_all_current_prices tickers portfolio t Hall) as Hcp.
  rewrite Hp in Hcp.
  destruct (assess_ticker_fields portfolio (fetch_all tickers portfolio)
              (build_correlation_matrix (returns_by_ticker (fetch_all tickers portfolio)))
              (active_positions portfolio)
              (total_portfolio_value portfolio
                 (current_prices (fetch_all tickers portfolio)))
              t p Hcp Hpos)
    as (r & Hr & Hlim & Hcm & Hval & Hcur & Hbase & Hmult & Hcomb & Hpl & Hrem).
  eexists _, r.
  split; [apply (agent_lookup tickers portfolio t Hin) |].
  split; [exact Hcp |]. split; [reflexivity |].
  split; [exact Hr |]. split; [exact Hlim |]. split; [exact Hcm |].
  split; [exact Hval |]. split; [exact Hcur |].
  split.
  { rewrite Hbase.
    now rewrite (fetch_all_volatility_data tickers portfolio t Hall). }
  split; [exact Hmult |]. split; [exact Hcomb |].
  split; [now rewrite Hpl, Hval |]. exact Hrem.
Qed.

(** A positive recorded price comes from a series of at least two rows, and
    the metrics recorded next to it are those of that series. *)
Lemma recorded_price_positive prices p :
  recorded_price prices = Some p -> 0 < p ->
  exists prices_df,
    prices_to_df prices = Some prices_df /\
    (2 <= length prices)%nat /\
    p = List.last (values (close_column prices_df)) 0 /\
    recorded_volatility prices = calculate_volatility_metrics prices_df 60.
Proof.
  unfold recorded_price, recorded_volatility.
  destruct prices as [| x xs]; [discriminate |].
  cbn [prices_to_df].
  destruct (negb _ && (1 <? length (sort_index (x :: xs)))%nat) eqn:E.
  - intros [= <-] _. apply andb_prop in E as [_ E].
    apply Nat.ltb_lt in E. rewrite length_sort_index in E.
    eexists. split; [reflexivity |].
    split; [lia |]. split; reflexivity.
  - intros [= <-] H. lra.
Qed.

(** X4. In every assessment computed for a valid price the base percentage
    lies between 1.95% and 15%, the correlation multiplier between 0.70 and
    1.10, and the combined percentage, their product, between 1.365% and
    16.5%: it can pass the 15% base but never 16.5%. *)
Theorem combined_percentage_bounds tickers portfolio t p :
  In t tickers -> recorded_price (get_prices t) = Some p -> 0 < p ->
  exists a r,
    risk_management_agent tickers portfolio !! t = Some a /\
    reasoning a = ReasoningLimit r /\
    0.0195 <= base_position_limit_pct r <= 0.15 /\
    0.70 <= correlation_multiplier r <= 1.10 /\
    combined_position_limit_pct r = base_position_limit_pct r * correlation_multiplier r /\
    0.01365 <= combined_position_limit_pct r <= 0.165 /\
    position_limit r = portfolio_value r * combined_position_limit_pct r.
Proof.
  intros Hin Hp Hpos.
  destruct (agent_assessment tickers portfolio t p Hin Hp Hpos)
    as (a & r & Ha & _ & _ & Hr & _ & _ & _ & _ & Hbase & Hmult & Hcomb & Hpl & _).
  exists a, r. split; [exact Ha |]. split; [exact Hr |].
  assert (Hb : 0.0195 <= base_position_limit_pct r <= 0.15).
  { rewrite Hbase.
    pose proof (vol_multiplier_bounds
                  (annualized_volatility (recorded_volatility (get_prices t)))).
    unfold calculate_volatility_adjusted_limit, CRYPTO_RISK_FACTORS.max_position_size.
    lra. }
  assert (Hm : 0.70 <= correlation_multiplier r <= 1.10).
  { rewrite Hmult. apply correlation_adjustment_multiplier. }
  split; [exact Hb |]. split; [exact Hm |]. split; [exact Hcomb |].
  split; [| exact Hpl].
  rewrite Hcomb. split; nra.
Qed.

(** X5. For a symbol with a valid price the assessment reports the metrics
    [calculate_volatility_metrics] computes from the symbol's own sorted price
    series (the frame [prices_to_df] builds from its rows) with the default
    lookback of 60, and its base percentage is the volatility-adjusted limit
    of that annualized volatility: the defaults of the second loop (0.25,
    0.05, 100, 0) are never used. *)
Theorem base_percentage_from_own_series tickers portfolio t p :
  In t tickers -> recorded_price (get_prices t) = Some p -> 0 < p ->
  exists a r prices_df,
    risk_management_agent tickers portfolio !! t = Some a /\
    reasoning a = ReasoningLimit r /\
    prices_to_df (get_prices t) = Some prices_df /\
    (2 <= length (get_prices t))%nat /\
    current_price a = List.last (values (close_column prices_df)) 0 /\
    volatility_metrics a = Some (calculate_volatility_metrics prices_df 60) /\
    base_position_limit_pct r
      = calculate_volatility_adjusted_limit
          (annualized_volatility (calculate_volatility_metrics prices_df 60)).
Proof.
  intros Hin Hp Hpos.
  destruct (agent_assessment tickers portfolio t p Hin Hp Hpos)
    as (a & r & Ha & Hcp & Hdef & Hr & _ & _ & _ & _ & Hbase & _).
  destruct (recorded_price_positive (get_prices t) p Hp Hpos)
    as (prices_df & Hframe & Hlen & Hlast & Hvol).
  exists a, r, prices_df. split; [exact Ha |]. split; [exact Hr |].
  split; [exact Hframe |]. split; [exact Hlen |].
  pose proof (requested_in_all_tickers tickers portfolio t Hin) as Hall.
  destruct (assess_ticker_priced portfolio (fetch_all tickers portfolio)
              (build_correlation_matrix (returns_by_ticker (fetch_all tickers portfolio)))
              (active_positions portfolio)
              (total_portfolio_value portfolio
                 (current_prices (fetch_all tickers portfolio)))
              t p Hcp Hpos)
    as (vm & cm & r' & Hrec & _).
  split.
  { rewrite Hdef, Hrec. exact Hlast. }
  split.
  - rewrite Hdef, <- Hvol.
    apply (assess_ticker_volatility _ _ _ _ _ _ p); try assumption.
    now apply fetch_all_volatility_data.
  - now rewrite Hbase, Hvol.
Qed.

Lemma py_min_left a b : a <= b -> py_min a b = a.
Proof.
  intros H. unfold py_min. destruct (Qltb b a) eqn:E; [| reflexivity].
  apply Qltb_lt in E. lra.
Qed.

(** X6. With no positions and cash that is not negative, the portfolio
    value is the cash, nothing is held in the symbol, and the limit of a
    symbol with a valid price is the cash times the combined percentage, at
    most 16.5% of the cash: the cap by the available cash never binds. *)
Theorem limit_without_positions tickers portfolio t p :
  get_positions portfolio = ∅ ->
  0 <= get_cash portfolio ->
  In t tickers -> recorded_price (get_prices t) = Some p -> 0 < p ->
  exists a r,
    risk_management_agent tickers portfolio !! t = Some a /\
    reasoning a = ReasoningLimit r /\
    portfolio_value r = get_cash portfolio /\
    current_position_value r == 0 /\
    remaining_position_limit a = remaining_limit r /\
    remaining_position_limit a == get_cash portfolio * combined_position_limit_pct r /\
    remaining_position_limit a <= 0.165 * get_cash portfolio.
Proof.
  intros Hno Hcash Hin Hp Hpos.
  destruct (agent_assessment tickers portfolio t p Hin Hp Hpos)
    as (a & r & Ha & _ & _ & Hr & Hlim & _ & Hval & Hcur & Hbase & Hmult & Hcomb
        & Hpl & Hrem).
  assert (Hv : portfolio_value r = get_cash portfolio).
  { rewrite Hval. unfold total_portfolio_value. rewrite Hno, map_to_list_empty.
    reflexivity. }
  assert (Hc : current_position_value r == 0).
  { rewrite Hcur, Hno, lookup_empty. cbn [get_long get_short].
    rewrite Qabs_pos; lra. }
  assert (Hb : 0.0195 <= base_position_limit_pct r <= 0.15).
  { rewrite Hbase.
    pose proof (vol_multiplier_bounds
                  (annualized_volatility (recorded_volatility (get_prices t)))).
    unfold calculate_volatility_adjusted_limit, CRYPTO_RISK_FACTORS.max_position_size.
    lra. }
  assert (Hm : 0.70 <= correlation_multiplier r <= 1.10).
  { rewrite Hmult. apply correlation_adjustment_multiplier. }
  assert (Hcb : 0 <= combined_position_limit_pct r <= 0.165).
  { rewrite Hcomb. split; nra. }
  assert (Hre : remaining_limit r == get_cash portfolio * combined_position_limit_pct r).
  { rewrite Hrem, Hpl, Hv, Hc. lra. }
  assert (Hle : remaining_limit r <= get_cash portfolio).
  { rewrite Hre. nra. }
  exists a, r. split; [exact Ha |]. split; [exact Hr |]. split; [exact Hv |].
  split; [exact Hc |].
  rewrite Hlim, (py_min_left _ _ Hle).
  split; [reflexivity |]. split; [exact Hre |].
  rewrite Hre. nra.
Qed.

(** ** When no correlation is available *)

(** A step of the first loop stores a return series only for a symbol with
    two rows or more. *)
Lemma fetch_ticker_returns st x :
  returns_by_ticker (fetch_ticker st x) = returns_by_ticker st \/
  ((1 < length (get_prices x))%nat /\
   returns_by_ticker (fetch_ticker st x)
   = returns_by_ticker st
     ++ [(x, dropna (pct_change (close_column (sort_index (get_prices x)))))]).
Proof.
  unfold fetch_ticker.
  destruct (get_prices x) as [| p ps]; [left; reflexivity |].
  cbn [prices_to_df].
  set (prices := p :: ps).
  destruct (negb (df_empty (sort_index prices))
            && (1 <? length (sort_index prices))%nat) eqn:E;
    [| left; reflexivity].
  cbn [returns_by_ticker].
  destruct (0 <? _)%nat; [right | left; reflexivity].
  split; [| reflexivity].
  apply andb_prop in E as [_ E]. apply Nat.ltb_lt in E.
  now rewrite length_sort_index in E.
Qed.

Lemma fold_fetch_returns_length l st :
  (length (returns_by_ticker (fold_left fetch_ticker l st))
   <= length (returns_by_ticker st)
      + length (List.filter (fun t => (1 <? length (get_prices t))%nat) l))%nat.
Proof.
  revert st. induction l as [| x l IH]; intros st; cbn [fold_left List.filter].
  - lia.
  - etransitivity; [apply IH |].
    destruct (fetch_ticker_returns st x) as [-> | [Hlen ->]].
    + destruct (1 <? length (get_prices x))%nat; cbn [length]; lia.
    + apply Nat.ltb_lt in Hlen. rewrite Hlen, length_app. cbn [length]. lia.
Qed.

Lemma filter_at_most_one {A} (P : A -> bool) (l : list A) :
  NoDup l ->
  (forall x y, In x l -> In y l -> P x = true -> P y = true -> x = y) ->
  (length (List.filter P l) <= 1)%nat.
Proof.
  induction l as [| x l IH]; intros Hnd Huniq; cbn [List.filter length]; [lia |].
  apply NoDup_cons in Hnd as [Hx Hnd].
  assert (IH' : (length (List.filter P l) <= 1)%nat).
  { apply IH; [exact Hnd |]. intros y z Hy Hz. apply Huniq; now right. }
  destruct (P x) eqn:Ex; [| exact IH'].
  cbn [length].
  destruct (List.filter P l) as [| y ys] eqn:Ef; [cbn; lia |].
  exfalso. apply Hx.
  assert (Hy : In y (List.filter P l)) by (rewrite Ef; now left).
  apply filter_In in Hy as [Hy HPy].
  rewrite (Huniq x y (or_introl eq_refl) (or_intror Hy) Ex HPy).
  now apply list_elem_of_In.
Qed.

(** With at most one fetched symbol of two rows or more there is no
    correlation matrix. *)
Lemma no_correlation_matrix tickers portfolio :
  (forall t u, t ∈ all_tickers tickers portfolio -> u ∈ all_tickers tickers portfolio ->
               (2 <= length (get_prices t))%nat -> (2 <= length (get_prices u))%nat ->
               t = u) ->
  build_correlation_matrix (returns_by_ticker (fetch_all tickers portfolio)) = None.
Proof.
  intros Huniq. unfold build_correlation_matrix.
  destruct (2 <=? length (returns_by_ticker (fetch_all tickers portfolio)))%nat eqn:E;
    [| reflexivity].
  apply Nat.leb_le in E. exfalso.
  pose proof (fold_fetch_returns_length
                (iter_set all_tickers_rank (all_tickers tickers portfolio))
                {| current_prices := ∅; volatility_data := ∅;
                   returns_by_ticker := [] |}) as Hlen.
  cbn [returns_by_ticker length] in Hlen.
  assert (Hone : (length (List.filter (fun t => (1 <? length (get_prices t))%nat)
                            (iter_set all_tickers_rank (all_tickers tickers portfolio)))
                  <= 1)%nat).
  { apply filter_at_most_one; [apply NoDup_iter_set |].
    intros x y Hx Hy Px Py.
    apply Huniq.
    - apply (elem_of_iter_set all_tickers_rank). now apply list_elem_of_In.
    - apply (elem_of_iter_set all_tickers_rank). now apply list_elem_of_In.
    - apply Nat.ltb_lt in Px. lia.
    - apply Nat.ltb_lt in Py. lia. }
  unfold fetch_all in E. lia.
Qed.

(** X7. When at most one of the fetched symbols (requested or held) has two
    price rows or more, no correlation is computed: every computed assessment
    has the multiplier 1.0, a combined percentage equal to its base
    percentage, and empty correlation metrics. *)
Theorem neutral_without_correlation tickers portfolio t p :
  (forall t u, t ∈ all_tickers tickers portfolio -> u ∈ all_tickers tickers portfolio ->
               (2 <= length (get_prices t))%nat -> (2 <= length (get_prices u))%nat ->
               t = u) ->
  In t tickers -> recorded_price (get_prices t) = Some p -> 0 < p ->
  exists a r,
    risk_management_agent tickers portfolio !! t = Some a /\
    reasoning a = ReasoningLimit r /\
    correlation_multiplier r = 1.0 /\
    combined_position_limit_pct r == base_position_limit_pct r /\
    correlation_metrics a =
      Some {| avg_correlation_with_active := None;
              max_correlation_with_active := None;
              top_correlated_tickers := [] |}.
Proof.
  intros Huniq Hin Hp Hpos.
  destruct (agent_assessment tickers portfolio t p Hin Hp Hpos)
    as (a & r & Ha & _ & _ & Hr & _ & Hcm & _ & _ & _ & Hmult & Hcomb & _).
  rewrite (no_correlation_matrix tickers portfolio Huniq) in Hmult, Hcm.
  cbn in Hmult, Hcm.
  exists a, r. split; [exact Ha |]. split; [exact Hr |].
  split; [exact Hmult |]. split; [| exact Hcm].
  rewrite Hcomb, Hmult. lra.
Qed.

(** ** The keys of the output *)

Lemma agent_lookup_cases tickers portfolio t :
  risk_management_agent tickers portfolio !! t =
  if decide (t ∈ tickers) then
    Some (assess_ticker portfolio (fetch_all tickers portfolio)
            (build_correlation_matrix (returns_by_ticker (fetch_all tickers portfolio)))
            (active_positions portfolio)
            (total_portfolio_value portfolio
               (current_prices (fetch_all tickers portfolio))) t)
  else None.
Proof.
  rewrite agent_unfold.
  rewrite (fold_insert_lookup
             (assess_ticker portfolio (fetch_all tickers portfolio)
                (build_correlation_matrix (returns_by_ticker (fetch_all tickers portfolio)))
                (active_positions portfolio)
                (total_portfolio_value portfolio
                   (current_prices (fetch_all tickers portfolio))))).
  now rewrite lookup_empty.
Qed.

(** X8. Whatever the order in which the sets are iterated, the output has
    an assessment exactly for the requested symbols.  A symbol that is only
    held is fetched in the first loop (its price and its volatility are
    recorded, and the price values the portfolio) but it is not assessed. *)
Theorem output_keys_are_requested tickers portfolio :
  dom (risk_management_agent tickers portfolio) = list_to_set tickers /\
  (forall t, ~ In t tickers -> risk_management_agent tickers portfolio !! t = None) /\
  (forall t, t ∈ dom (get_positions portfolio) ->
     current_prices (fetch_all tickers portfolio) !! t = recorded_price (get_prices t) /\
     volatility_data (fetch_all tickers portfolio) !! t
       = Some (recorded_volatility (get_prices t)) /\
     (~ In t tickers -> risk_management_agent tickers portfolio !! t = None)).
Proof.
  assert (Hnone : forall t, ~ In t tickers ->
                            risk_management_agent tickers portfolio !! t = None).
  { intros t Hn. rewrite agent_lookup_cases.
    rewrite decide_False; [reflexivity |].
    intros H. apply Hn. now apply list_elem_of_In. }
  split; [| split; [exact Hnone |]].
  - apply set_eq. intros t.
    rewrite elem_of_dom, elem_of_list_to_set, agent_lookup_cases.
    destruct (decide (t ∈ tickers)) as [Hin | Hin]; split; intros H.
    + exact Hin.
    + eexists. reflexivity.
    + destruct H as [x Hx]. discriminate.
    + contradiction.
  - intros t Hheld.
    pose proof (held_in_all_tickers tickers portfolio t Hheld) as Hall.
    split; [now apply fetch_all_current_prices |].
    split; [now apply fetch_all_volatility_data | apply Hnone].
Qed.

End AgentProperties.

(** ** The correlation metrics *)

Lemma py_max_ub_r a b : b <= py_max a b.
Proof. unfold py_max. threshold_cases; lra. Qed.

Lemma fold_py_max_acc l acc : acc <= fold_left py_max l acc.
Proof.
  revert acc. induction l as [| z l IH]; intros acc; cbn [fold_left]; [lra |].
  pose proof (py_max_ub_l acc z). pose proof (IH (py_max acc z)). lra.
Qed.

Lemma fold_py_max_in l acc y : In y l -> y <= fold_left py_max l acc.
Proof.
  revert acc. induction l as [| z l IH]; intros acc Hin; [contradiction |].
  cbn [fold_left]. destruct Hin as [-> | Hin].
  - pose proof (py_max_ub_r acc y). pose proof (fold_py_max_acc l (py_max acc y)). lra.
  - now apply IH.
Qed.

Lemma series_max_ub l y : In y l -> y <= series_max l.
Proof.
  destruct l as [| x l]; [contradiction |].
  intros [-> | Hin]; cbn [series_max].
  - apply fold_py_max_acc.
  - now apply fold_py_max_in.
Qed.

Lemma Qlen_cons {A} (x : A) (l : list A) : Qlen (x :: l) == Qlen l + 1.
Proof.
  unfold Qlen. cbn [length]. rewrite Nat2Z.inj_succ, <- Z.add_1_r, inject_Z_plus.
  reflexivity.
Qed.

Lemma Qlen_nonneg {A} (l : list A) : 0 <= Qlen l.
Proof.
  unfold Qlen. change 0 with (inject_Z 0). rewrite <- Zle_Qle. lia.
Qed.

Lemma Qsum_le_len l M : (forall y, In y l -> y <= M) -> Qsum l <= Qlen l * M.
Proof.
  induction l as [| x l IH]; intros H.
  - change (Qlen (@nil Q)) with 0. change (Qsum []) with 0. lra.
  - rewrite Qlen_cons. cbn [Qsum fold_right].
    assert (Hx : x <= M) by (apply H; now left).
    assert (Hl : Qsum l <= Qlen l * M) by (apply IH; intros y Hy; apply H; now right).
    unfold Qsum in Hl. lra.
Qed.

(** The mean of a series that is not empty is at most its maximum. *)
Lemma mean_le_series_max l : l <> [] -> mean l <= series_max l.
Proof.
  intros Hne. unfold mean.
  assert (Hpos : 0 < Qlen l).
  { destruct l as [| x l]; [contradiction |].
    rewrite Qlen_cons. pose proof (Qlen_nonneg l). lra. }
  apply Qle_shift_div_r; [exact Hpos |].
  rewrite Qmult_comm. apply Qsum_le_len. apply series_max_ub.
Qed.

Lemma insert_desc_perm e s : Permutation (e :: s) (insert_desc e s).
Proof.
  induction s as [| e' s IH]; cbn [insert_desc]; [reflexivity |].
  destruct (Qle_bool (snd e') (snd e)); [reflexivity |].
  rewrite perm_swap. now apply perm_skip.
Qed.

Lemma sort_values_desc_perm s : Permutation s (sort_values_desc s).
Proof.
  unfold sort_values_desc. induction s as [| e s IH]; cbn [fold_right]; [reflexivity |].
  rewrite <- insert_desc_perm. now apply perm_skip.
Qed.

Lemma insert_desc_sorted e s : Sorted desc s -> Sorted desc (insert_desc e s).
Proof.
  induction s as [| e' s IH]; intros Hs; cbn [insert_desc].
  - repeat constructor.
  - destruct (Qle_bool (snd e') (snd e)) eqn:E.
    + constructor; [exact Hs |]. constructor. unfold desc.
      now apply Qle_bool_iff.
    + apply Sorted_inv in Hs as [Hs Hhd].
      constructor; [now apply IH |].
      assert (He : desc e' e).
      { unfold desc. destruct (Qlt_le_dec (snd e') (snd e)) as [H | H]; [| exact H].
        exfalso. assert (Qle_bool (snd e') (snd e) = true)
          by (apply Qle_bool_iff; lra). congruence. }
      destruct s as [| e'' s]; cbn [insert_desc].
      * now constructor.
      * destruct (Qle_bool (snd e'') (snd e)); constructor; [exact He |].
        now inversion Hhd.
Qed.

Lemma sort_values_desc_sorted s : Sorted desc (sort_values_desc s).
Proof.
  unfold sort_values_desc. induction s as [| e s IH]; cbn [fold_right].
  - constructor.
  - now apply insert_desc_sorted.
Qed.

Lemma Sorted_firstn {A} (R : A -> A -> Prop) n (l : list A) :
  Sorted R l -> Sorted R (firstn n l).
Proof.
  revert l. induction n as [| n IH]; intros l Hs; [constructor |].
  destruct l as [| x l]; [constructor |].
  apply Sorted_inv in Hs as [Hs Hhd]. cbn [firstn].
  constructor; [now apply IH |].
  destruct l as [| y l]; [destruct n; constructor |].
  destruct n; cbn [firstn]; constructor. now inversion Hhd.
Qed.

Lemma in_firstn {A} n (l : list A) x : In x (firstn n l) -> In x l.
Proof.
  revert l. induction n as [| n IH]; intros l H; [contradiction |].
  destruct l as [| y l]; [contradiction |].
  destruct H as [-> | H]; [now left | right; now apply IH].
Qed.

Lemma in_dropna {A} d (x : A) (s : list (string * option A)) :
  In (d, x) (dropna s) -> In (d, Some x) s.
Proof.
  unfold dropna. induction s as [| [d' [y |]] s IH]; cbn [omap list_omap].
  - contradiction.
  - intros [[= <- <-] | H]; [now left | right; now apply IH].
  - intros H. right. now apply IH.
Qed.

(** The entries of [m.loc[ticker, comparable]] are labelled by [comparable]. *)
Lemma in_loc m ticker comparable e :
  In e (loc m ticker comparable) -> In (fst e) comparable.
Proof.
  unfold loc. destruct (find _ m) as [r |]; [| contradiction].
  induction comparable as [| c cs IH]; cbn [omap list_omap]; [contradiction |].
  destruct (find (fun e0 => String.eqb c (fst e0)) (snd r)) as [e0 |] eqn:Ef.
  - intros [<- | H]; [| right; now apply IH].
    left. apply find_some in Ef as [_ Ef]. now apply String.eqb_eq in Ef.
  - intros H. right. now apply IH.
Qed.

(** The correlation adjustment is neutral, or computed from a series that is
    not empty and does not mention the ticker itself. *)
Lemma correlation_adjustment_cases rank m active t :
  correlation_adjustment rank m active t =
    ({| avg_correlation_with_active := None;
        max_correlation_with_active := None;
        top_correlated_tickers := [] |}, 1.0)
  \/
  exists series,
    series <> [] /\
    (forall e, In e series -> fst e <> t) /\
    correlation_adjustment rank m active t =
      ({| avg_correlation_with_active := Some (mean (values series));
          max_correlation_with_active := Some (series_max (values series));
          top_correlated_tickers := firstn 3 (sort_values_desc series) |},
       calculate_correlation_multiplier (mean (values series))).
Proof.
  unfold correlation_adjustment.
  destruct m as [m |]; [| now left].
  destruct (in_columns t m); [| now left].
  set (by_active := List.filter (fun u => in_columns u m && negb (String.eqb u t))
                      (iter_set rank active)).
  set (others := List.filter (fun u => negb (String.eqb u t)) (columns m)).
  set (comparable := match by_active with [] => others | _ :: _ => by_active end).
  assert (Hcomp : forall u, In u comparable -> u <> t).
  { intros u Hu. subst comparable.
    assert (Hu' : In u by_active \/ In u others) by (destruct by_active; auto).
    destruct Hu' as [Hu' | Hu']; apply filter_In in Hu' as [_ Hu'].
    - apply andb_prop in Hu' as [_ Hu']. apply negb_true_iff, String.eqb_neq in Hu'.
      exact Hu'.
    - now apply negb_true_iff, String.eqb_neq in Hu'. }
  destruct comparable as [| c cs] eqn:Ec; [now left |].
  rewrite <- Ec in *.
  destruct (0 <? length (dropna (loc m t comparable)))%nat eqn:El; [| now left].
  right. exists (dropna (loc m t comparable)).
  split; [| split; [| reflexivity]].
  - apply Nat.ltb_lt in El. intros Hnil. rewrite Hnil in El. cbn in El. lia.
  - intros [d x] He. cbn [fst]. apply Hcomp.
    apply in_dropna in He. apply in_loc in He. exact He.
Qed.

(** X9. The correlation metrics of an assessment, whatever the order in
    which the active positions are iterated: at most three top correlated
    tickers, in descending order of correlation, never the ticker itself; the
    average is at most the maximum, every listed correlation is at most the
    maximum, and the multiplier is the table value of the average; or, when no
    correlation is available, all of them empty and the multiplier 1.0. *)
Theorem correlation_metrics_shape
    (active_positions_rank : string -> nat)
    (m : option CorrelationMatrix) (active : gset string) (t : string) :
  let cm := fst (correlation_adjustment active_positions_rank m active t) in
  let multiplier := snd (correlation_adjustment active_positions_rank m active t) in
  (length (top_correlated_tickers cm) <= 3)%nat /\
  Sorted desc (top_correlated_tickers cm) /\
  (forall e, In e (top_correlated_tickers cm) -> fst e <> t) /\
  match avg_correlation_with_active cm, max_correlation_with_active cm with
  | Some avg_corr, Some max_corr =>
      avg_corr <= max_corr /\
      (forall e, In e (top_correlated_tickers cm) -> snd e <= max_corr) /\
      top_correlated_tickers cm <> [] /\
      multiplier = calculate_correlation_multiplier avg_corr
  | None, None => top_correlated_tickers cm = [] /\ multiplier = 1.0
  | _, _ => False
  end.
Proof.
  intros cm multiplier. subst cm multiplier.
  destruct (correlation_adjustment_cases active_positions_rank m active t)
    as [-> | (series & Hne & Hself & ->)]; cbn [fst snd top_correlated_tickers
      avg_correlation_with_active max_correlation_with_active].
  - split; [cbn; lia |]. split; [constructor |]. split; [intros e [] |].
    split; reflexivity.
  - assert (Hin : forall e, In e (firstn 3 (sort_values_desc series)) -> In e series).
    { intros e He. apply in_firstn in He.
      now apply (Permutation_in e (Permutation_sym (sort_values_desc_perm series))). }
    split; [rewrite length_firstn; lia |].
    split; [apply Sorted_firstn, sort_values_desc_sorted |].
    split; [intros e He; apply Hself, Hin, He |].
    split; [| split; [| split; [| reflexivity]]].
    + apply mean_le_series_max. unfold values.
      destruct series; [contradiction | discriminate].
    + intros e He. apply series_max_ub. unfold values. apply in_map, Hin, He.
    + destruct series as [| e s]; [contradiction |].
      intros Hnil.
      pose proof (Permutation_length (sort_values_desc_perm (e :: s))) as Hlen.
      destruct (sort_values_desc (e :: s)); [discriminate | discriminate].
Qed.

(** ** The price frame *)

Lemma string_leb_trans (s1 s2 s3 : string) :
  String.leb s1 s2 = true -> String.leb s2 s3 = true -> String.leb s1 s3 = true.
Proof.
  revert s2 s3. induction s1 as [| c1 s1 IH]; intros [| c2 s2] [| c3 s3];
    unfold String.leb; cbn [String.compare]; try easy.
  unfold Ascii.compare.
  destruct (N.compare_spec (N_of_ascii c1) (N_of_ascii c2)) as [E12 | L12 | G12];
    destruct (N.compare_spec (N_of_ascii c2) (N_of_ascii c3)) as [E23 | L23 | G23];
    destruct (N.compare_spec (N_of_ascii c1) (N_of_ascii c3)) as [E13 | L13 | G13];
    try easy; try lia.
  apply (IH s2 s3).
Qed.

Lemma chronological_trans : Relations_1.Transitive chronological.
Proof. intros r1 r2 r3. unfold chronological. apply string_leb_trans. Qed.

Lemma insert_row_perm p df : Permutation (p :: df) (insert_row p df).
Proof.
  induction df as [| r df IH]; cbn [insert_row]; [reflexivity |].
  destruct (String.leb (time p) (time r)); [reflexivity |].
  rewrite perm_swap. now apply perm_skip.
Qed.

Lemma sort_index_perm prices : Permutation prices (sort_index prices).
Proof.
  unfold sort_index.
  induction prices as [| p prices IH]; cbn [fold_right]; [reflexivity |].
  rewrite <- insert_row_perm. now apply perm_skip.
Qed.

Lemma insert_row_sorted p df :
  Sorted chronological df -> Sorted chronological (insert_row p df).
Proof.
  induction df as [| r df IH]; intros Hs; cbn [insert_row].
  - repeat constructor.
  - destruct (String.leb (time p) (time r)) eqn:E.
    + constructor; [exact Hs |]. now constructor.
    + apply Sorted_inv in Hs as [Hs Hhd].
      constructor; [now apply IH |].
      assert (Hr : chronological r p).
      { unfold chronological.
        destruct (String.leb_total (time p) (time r)) as [H | H]; [congruence | exact H]. }
      destruct df as [| r' df]; cbn [insert_row].
      * now constructor.
      * destruct (String.leb (time p) (time r')); constructor; [exact Hr |].
        now inversion Hhd.
Qed.

Lemma sort_index_sorted prices : Sorted chronological (sort_index prices).
Proof.
  unfold sort_index.
  induction prices as [| p prices IH]; cbn [fold_right].
  - constructor.
  - now apply insert_row_sorted.
Qed.

(** Rows already in chronological order are left as they are. *)
Lemma sort_index_of_sorted df : Sorted chronological df -> sort_index df = df.
Proof.
  unfold sort_index.
  induction df as [| r df IH]; intros Hs; cbn [fold_right]; [reflexivity |].
  apply Sorted_inv in Hs as [Hs Hhd]. rewrite (IH Hs).
  destruct df as [| r' df]; [reflexivity |].
  cbn [insert_row]. inversion Hhd as [| ? ? Hrr']; subst.
  unfold chronological in Hrr'. now rewrite Hrr'.
Qed.

(** X10. [prices_to_df] builds a frame from any rows but none (on no rows it
    raises).  The frame keeps every row and has the rows in chronological
    order whatever order they are handed in; rows handed in chronological
    order stay as they are. *)
Theorem prices_to_df_sorts (prices : list Price) :
  (prices_to_df prices = None <-> prices = []) /\
  (prices <> [] -> exists prices_df, prices_to_df prices = Some prices_df) /\
  (forall prices_df, prices_to_df prices = Some prices_df ->
     Permutation prices prices_df /\
     length prices_df = length prices /\
     StronglySorted chronological prices_df /\
     (Sorted chronological prices -> prices_df = prices)).
Proof.
  split; [| split].
  - destruct prices; cbn [prices_to_df]; split; intros H; try reflexivity; discriminate.
  - intros Hne. exists (sort_index prices). apply prices_to_df_rows. now split.
  - intros prices_df Hdf. apply prices_to_df_rows in Hdf as [_ ->].
    split; [apply sort_index_perm |].
    split; [apply length_sort_index |].
    split.
    + apply Sorted_StronglySorted; [apply chronological_trans | apply sort_index_sorted].
    + apply sort_index_of_sorted.
Qed.

Lemma last_in {A} (l : list A) d : l <> [] -> In (List.last l d) l.
Proof.
  induction l as [| x l IH]; intros Hne; [contradiction |].
  destruct l as [| y l]; [now left |].
  right. apply IH. discriminate.
Qed.

Lemma StronglySorted_last {A} (R : A -> A -> Prop) (l : list A) d x :
  (forall a, R a a) ->
  StronglySorted R l -> In x l -> R x (List.last l d).
Proof.
  intros Hrefl Hs. induction Hs as [| a l Hs IH Hall]; intros Hin; [contradiction |].
  destruct l as [| b l].
  - destruct Hin as [-> | []]. apply Hrefl.
  - change (List.last (a :: b :: l) d) with (List.last (b :: l) d).
    destruct Hin as [-> | Hin]; [| now apply IH].
    rewrite Forall_forall in Hall. apply Hall, list_elem_of_In, last_in. discriminate.
Qed.

Lemma last_map {A B} (f : A -> B) (l : list A) d :
  List.last (map f l) (f d) = f (List.last l d).
Proof.
  induction l as [| x l IH]; [reflexivity |].
  destruct l as [| y l]; [reflexivity |]. exact IH.
Qed.

(** X11. The price recorded for a symbol with two rows or more is the close
    of a row fetched for it whose timestamp is not before any other fetched
    row's: the latest close, whatever the order of the rows. *)
Theorem recorded_price_is_latest_close (prices : list Price) :
  (2 <= length prices)%nat ->
  exists r,
    In r prices /\
    recorded_price prices = Some (close r) /\
    forall r', In r' prices -> String.leb (time r') (time r) = true.
Proof.
  intros Hlen.
  pose proof (sort_index_perm prices) as Hperm.
  pose proof (length_sort_index prices) as Hl.
  assert (Hsorted : StronglySorted chronological (sort_index prices)).
  { apply Sorted_StronglySorted; [apply chronological_trans | apply sort_index_sorted]. }
  destruct prices as [| p ps] eqn:Ep; [cbn in Hlen; lia |].
  unfold recorded_price. cbn [prices_to_df]. rewrite <- Ep in *.
  assert (Hne : sort_index prices <> []).
  { intros Hnil. rewrite Hnil in Hl. rewrite Ep in Hl. discriminate. }
  exists (List.last (sort_index prices) p).
  split; [| split].
  - apply (Permutation_in _ (Permutation_sym Hperm)). now apply last_in.
  - assert (Hdf : negb (df_empty (sort_index prices))
                  && (1 <? length (sort_index prices))%nat = true).
    { apply andb_true_intro. split.
      - destruct (sort_index prices); [contradiction | reflexivity].
      - apply Nat.ltb_lt. lia. }
    rewrite Hdf. f_equal. unfold values, close_column. rewrite map_map. cbn [snd].
    destruct (sort_index prices) as [| x xs] eqn:Edf; [contradiction |].
    rewrite <- Edf.
    transitivity (List.last (map close (sort_index prices)) (close p)).
    + rewrite Edf. clear. revert x. induction xs as [| y ys IH]; intros x; [reflexivity |].
      exact (IH y).
    + apply last_map.
  - intros r' Hr'.
    apply (StronglySorted_last chronological (sort_index prices) p r').
    + intros a. unfold chronological.
      destruct (String.leb_total (time a) (time a)); assumption.
    + exact Hsorted.
    + now apply (Permutation_in _ Hperm).
Qed.

(** ** Invariants of the volatility metrics *)

Lemma Qlen_le {A} (k l : list A) : (length k <= length l)%nat -> Qlen k <= Qlen l.
Proof. intros H. unfold Qlen. rewrite <- Zle_Qle. lia. Qed.

Lemma mean_bool_bounds (l : list bool) : l <> [] -> 0 <= mean_bool l <= 1.
Proof.
  intros Hne. unfold mean_bool.
  assert (Hpos : 0 < Qlen l).
  { destruct l as [| x l]; [contradiction |].
    rewrite Qlen_cons. pose proof (Qlen_nonneg l). lra. }
  pose proof (Qlen_nonneg (filter (fun b : bool => b = true) l)) as H0.
  pose proof (Qlen_le (filter (fun b : bool => b = true) l) l
                (length_filter _ l)) as H1.
  split.
  - apply Qle_shift_div_l; [exact Hpos | lra].
  - apply Qle_shift_div_r; [exact Hpos | lra].
Qed.

Section VolatilityProperties.

Variable sqrt : Q -> Q.
Variable rolling_value : nat -> list Float -> Q.

Local Abbreviation calculate_volatility_metrics :=
  (calculate_volatility_metrics sqrt rolling_value).

(** X12. Whatever the price frame and the lookback (an integer, negative
    ones included), the metrics returned satisfy: the annualized volatility is
    the daily volatility times [sqrt 365] (also in the fallbacks), the
    percentile lies between 0 and 100, and the sample count is at most the
    number of rows.  With two returns or more (a return that is an infinity
    counts) the sample count is the number of returns [tail] keeps: the
    smaller of the lookback and the number of returns for a lookback that is
    not negative, and the number of returns less the size of a negative
    lookback, or 0.  Where the square root is never negative, neither are the
    two volatilities. *)
Theorem volatility_metrics_invariants (prices_df : DataFrame) (lookback_days : Z) :
  let m := calculate_volatility_metrics prices_df lookback_days in
  let daily_returns := dropna (pct_change (close_column prices_df)) in
  annualized_volatility m = daily_volatility m * sqrt 365 /\
  0 <= volatility_percentile m <= 100 /\
  (data_points m <= length prices_df)%nat /\
  ((2 <= length daily_returns)%nat ->
     Z.of_nat (data_points m) =
       if (lookback_days <? 0)%Z
       then Z.max 0 (Z.of_nat (length daily_returns) + lookback_days)
       else Z.min lookback_days (Z.of_nat (length daily_returns))) /\
  ((forall x, 0 <= sqrt x) ->
     0 <= daily_volatility m /\ 0 <= annualized_volatility m).
Proof.
  intros m daily_returns. subst m.
  pose proof (length_returns_le prices_df) as Hdf.
  unfold calculate_volatility_metrics. fold daily_returns. fold daily_returns in Hdf.
  destruct (length prices_df <? 2)%nat eqn:E1.
  { apply Nat.ltb_lt in E1. cbn.
    split; [reflexivity |]. split; [lra |]. split; [lia |]. split; [lia |].
    intros Hsq. pose proof (Hsq 365).
    unfold CRYPTO_RISK_FACTORS.safe_volatility_threshold. split; [lra | nra]. }
  destruct (length daily_returns <? 2)%nat eqn:E2.
  { apply Nat.ltb_lt in E2. cbn.
    split; [reflexivity |]. split; [lra |]. split; [lia |]. split; [lia |].
    intros Hsq. pose proof (Hsq 365).
    unfold CRYPTO_RISK_FACTORS.safe_volatility_threshold. split; [lra | nra]. }
  apply Nat.ltb_ge in E2.
  set (n := Z.min lookback_days (Z.of_nat (length daily_returns))).
  set (recent := values (tail n daily_returns)).
  pose proof (length_tail n daily_returns) as Hn.
  cbv beta iota zeta delta [annualized_volatility daily_volatility
                            volatility_percentile data_points].
  split; [| split; [| split; [| split]]].
  - destruct (std sqrt recent); reflexivity.
  - destruct (30 <=? length daily_returns)%nat; [| cbn; lra].
    destruct (0 <? length (dropna (rolling_std rolling_value 30 daily_returns)))%nat
      eqn:E4; [| cbn; lra].
    cbn [nan_default].
    assert (Hb : 0 <= mean_bool
                        (map (fun r : Q => le_nan r (std sqrt recent))
                           (values (dropna (rolling_std rolling_value 30 daily_returns))))
                 <= 1).
    { apply mean_bool_bounds. apply Nat.ltb_lt in E4. unfold values.
      destruct (dropna (rolling_std rolling_value 30 daily_returns));
        [cbn in E4; lia | discriminate]. }
    lra.
  - destruct (n <? 0)%Z eqn:En; [apply Z.ltb_lt in En | apply Z.ltb_ge in En]; lia.
  - intros _. rewrite Hn. subst n.
    destruct (lookback_days <? 0)%Z eqn:El;
      [apply Z.ltb_lt in El | apply Z.ltb_ge in El];
      destruct (_ <? 0)%Z eqn:En;
      [apply Z.ltb_lt in En | apply Z.ltb_ge in En
      |apply Z.ltb_lt in En | apply Z.ltb_ge in En]; lia.
  - intros Hsq. pose proof (Hsq 365) as H365.
    unfold std.
    destruct (length recent <? 2)%nat; [| destruct (forallb is_finite recent)];
      cbn [nan_default fmap option_fmap option_map].
    + unfold CRYPTO_RISK_FACTORS.safe_volatility_threshold. split; [lra | nra].
    + pose proof (Hsq (sum_sq_dev (finite_part recent) / (Qlen (finite_part recent) - 1)))
        as Hs.
      unfold sample_std. split; [exact Hs | nra].
    + unfold CRYPTO_RISK_FACTORS.safe_volatility_threshold. split; [lra | nra].
Qed.

End VolatilityProperties.

(** * Properties of the Binance client *)

(** ** Retries *)

Section ClientProperties.

Context {A : Type}.
Variable server : nat -> Response A.

Lemma request_loop_spec remaining attempt max_retries log :
  (attempt + remaining = max_retries + 1)%nat ->
  (0 < remaining)%nat ->
  exists k,
    (attempt <= k <= max_retries)%nat /\
    request_loop server remaining attempt max_retries log =
      (Some (server k),
       {| requests_sent := S k;
          slept := log ++ map backoff (seq attempt (k - attempt)) |}) /\
    (forall i, (attempt <= i < k)%nat -> status_code (server i) = 429%Z) /\
    (status_code (server k) <> 429%Z \/ k = max_retries).
Proof.
  revert attempt log. induction remaining as [| remaining IH]; intros attempt log Hsum Hpos;
    [lia |].
  cbn [request_loop].
  destruct ((status_code (server attempt) =? 429)%Z && (attempt <? max_retries)%nat)
    eqn:E.
  - apply andb_prop in E as [E429 Elt].
    apply Z.eqb_eq in E429. apply Nat.ltb_lt in Elt.
    destruct (IH (S attempt) (log ++ [(60 + 30 * Z.of_nat attempt)%Z]))
      as (k & Hk & Heq & Hall & Hlast); [lia | lia |].
    exists k. split; [lia |]. split; [| split; [| exact Hlast]].
    + rewrite Heq. do 2 f_equal.
      replace (k - attempt)%nat with (S (k - S attempt)) by lia.
      cbn [seq map]. now rewrite <- app_assoc.
    + intros i Hi. destruct (Nat.eq_dec i attempt) as [-> | Hne]; [exact E429 |].
      apply Hall. lia.
  - exists attempt. split; [lia |]. split; [| split].
    + rewrite Nat.sub_diag. cbn [seq map]. now rewrite app_nil_r.
    + intros i Hi. lia.
    + apply andb_false_iff in E as [E | E].
      * left. now apply Z.eqb_neq in E.
      * right. apply Nat.ltb_ge in E. lia.
Qed.

Lemma sum_backoff k :
  fold_right Z.add 0%Z (map backoff (seq 0 k))
  = (60 * Z.of_nat k + 15 * Z.of_nat k * (Z.of_nat k - 1))%Z.
Proof.
  induction k as [| k IH]; [reflexivity |].
  rewrite seq_S, map_app, fold_right_app. cbn [map fold_right Nat.add].
  assert (Hgen : forall l z, fold_right Z.add z l = (fold_right Z.add 0 l + z)%Z).
  { induction l as [| x l IHl]; intros z; cbn [fold_right]; [lia |].
    rewrite (IHl z). lia. }
  rewrite Hgen, IH. unfold backoff. lia.
Qed.

(** The loop of [_make_api_request] started at attempt 0: the attempt it
    stops at, the response it returns and the traffic it has caused. *)
Lemma make_api_request_loop (max_retries : nat) :
  exists k,
    (k <= max_retries)%nat /\
    _make_api_request server max_retries =
      (Some (server k), {| requests_sent := S k; slept := map backoff (seq 0 k) |}) /\
    (forall i, (i < k)%nat -> status_code (server i) = 429%Z) /\
    (status_code (server k) <> 429%Z \/ k = max_retries).
Proof.
  unfold _make_api_request.
  destruct (request_loop_spec (max_retries + 1) 0 max_retries [])
    as (k & Hk & Heq & Hall & Hlast); [lia | lia |].
  rewrite Nat.sub_0_r in Heq. cbn [app] in Heq.
  exists k. split; [lia |]. split; [exact Heq |].
  split; [intros i Hi; apply Hall; lia | exact Hlast].
Qed.

(** X13. [_make_api_request] always comes back with a response: the first
    one that is not a 429 among the first [max_retries + 1], or else the last
    of them.  It sends one request per attempt, and before the retry that
    follows attempt [i] it sleeps 60 + 30 * i seconds, so 60, 90, 120, ...,
    which adds up to 60 k + 15 k (k - 1) seconds for [k] retries. *)
Theorem make_api_request_retries (max_retries : nat) :
  exists k,
    (k <= max_retries)%nat /\
    _make_api_request server max_retries =
      (Some (server k), {| requests_sent := S k; slept := map backoff (seq 0 k) |}) /\
    (forall i, (i < k)%nat -> status_code (server i) = 429%Z) /\
    (status_code (server k) <> 429%Z \/ k = max_retries) /\
    total_delay (snd (_make_api_request server max_retries))
      = (60 * Z.of_nat k + 15 * Z.of_nat k * (Z.of_nat k - 1))%Z.
Proof.
  destruct (make_api_request_loop max_retries) as (k & Hk & Heq & Hall & Hlast).
  exists k. repeat (split; [assumption |]).
  rewrite Heq. unfold total_delay. cbn [snd slept]. apply sum_backoff.
Qed.

End ClientProperties.

(** ** Price history *)

Section GetPricesProperties.

Variable upper : string -> string.
Variable timestamp_ms : string -> option Z.
Variable strftime : Z -> string.
Variable cache_get_prices : string -> option (list Price).
Variable server : KlinesRequest -> nat -> Response Body.

Local Abbreviation get_prices :=
  (get_prices upper timestamp_ms strftime cache_get_prices server).
Local Abbreviation price_of_kline := (price_of_kline strftime).
Local Abbreviation prices_of_klines := (prices_of_klines strftime).
Local Abbreviation klines_params := (klines_params upper).

(** The loop gives rows exactly when it can read every kline, and then one
    row for each, in order. *)
Lemma prices_of_klines_rows klines_data prices :
  prices_of_klines klines_data = Some prices ->
  exists klines, klines_data = map Some klines /\ prices = map price_of_kline klines.
Proof.
  revert prices. induction klines_data as [| [kline |] ks IH]; intros prices;
    cbn [prices_of_klines].
  - intros [= <-]. now exists [].
  - destruct (prices_of_klines ks) as [rows |]; [| discriminate].
    intros [= <-]. destruct (IH rows eq_refl) as (klines & -> & ->).
    now exists (kline :: klines).
  - discriminate.
Qed.

(** X14. A call of [get_prices] sends at most four requests and sleeps at
    most 270 seconds.  Rows that are cached (and not empty) are returned
    without a request or a write.  Otherwise both dates are parsed first: when
    one is rejected the call raises without a request.  Rows it returns are
    the cached ones, or the rows read in order from the klines of a response
    with status 200, or none for a falsy body; they are written to the cache
    under the key unless there are none.  The error raised for a status other
    than 200 carries the symbol and the status and writes nothing, and the
    status 429 is raised only after four requests and 270 seconds.  Nothing is
    written unless rows were fetched. *)
Theorem get_prices_outcome (symbol start_date end_date interval : string) :
  let call := get_prices symbol start_date end_date interval in
  let key := prices_cache_key symbol start_date end_date interval in
  let miss := cache_get_prices key = None \/ cache_get_prices key = Some [] in
  (requests_sent (traffic call) <= 4)%nat /\
  (0 <= total_delay (traffic call) <= 270)%Z /\
  (forall rows, cache_get_prices key = Some rows -> rows <> [] ->
     fetched call = Returns rows /\
     requests_sent (traffic call) = 0%nat /\ cache_write call = None) /\
  (miss -> timestamp_ms start_date = None \/ timestamp_ms end_date = None ->
     fetched call = RaisesOther /\
     requests_sent (traffic call) = 0%nat /\ cache_write call = None) /\
  (forall rows, fetched call = Returns rows ->
     (cache_get_prices key = Some rows /\ rows <> [] /\
      requests_sent (traffic call) = 0%nat /\ cache_write call = None)
     \/
     (exists start_timestamp end_timestamp k,
        miss /\
        timestamp_ms start_date = Some start_timestamp /\
        timestamp_ms end_date = Some end_timestamp /\
        (k <= 3)%nat /\
        let response :=
          server (klines_params symbol interval start_timestamp end_timestamp) k in
        status_code response = 200%Z /\
        requests_sent (traffic call) = S k /\
        ((exists klines,
            json response = Klines (map Some klines) /\
            rows = map price_of_kline klines)
         \/ (json response = OtherJson false /\ rows = [])) /\
        cache_write call = match rows with [] => None | _ :: _ => Some (key, rows) end)) /\
  (forall sym status, fetched call = RaisesError sym status ->
     sym = symbol /\ status <> 200%Z /\ cache_write call = None /\
     (1 <= requests_sent (traffic call))%nat /\
     (status = 429%Z ->
        requests_sent (traffic call) = 4%nat /\ total_delay (traffic call) = 270%Z)) /\
  (forall entry, cache_write call = Some entry ->
     exists rows,
       entry = (key, rows) /\ rows <> [] /\ fetched call = Returns rows /\
       (1 <= requests_sent (traffic call))%nat).
Proof.
  intros call key miss. subst call miss. unfold get_prices. fold key.
  destruct (cache_get_prices key) as [[| p ps] |] eqn:Ec.
  2:{ cbn. split; [lia |]. split; [lia |].
      split; [intros rows [= <-] _; repeat split |].
      split; [intros [H | H]; discriminate |].
      split; [intros rows [= <-]; left; repeat split; discriminate |].
      split; intros ? ?; discriminate. }
  all: destruct (timestamp_ms start_date) as [start_timestamp |] eqn:Es;
    [destruct (timestamp_ms end_date) as [end_timestamp |] eqn:Ee |].
  all: try (cbn; split; [lia |]; split; [lia |];
            split; [intros rows; try discriminate; intros [= <-] H; now contradiction H |];
            split; [intros _ _; repeat split |];
            split; [intros rows; discriminate |];
            split; intros ? ?; discriminate).
  all: destruct (make_api_request_loop
                   (server (klines_params symbol interval start_timestamp end_timestamp)) 3)
         as (k & Hk & Heq & Hall & Hlast);
    pose proof (sum_backoff k) as Htotal;
    change (fold_right Z.add 0%Z (map backoff (seq 0 k)))
      with (total_delay {| requests_sent := S k; slept := map backoff (seq 0 k) |})
      in Htotal;
    assert (Hdelay : (0 <= 60 * Z.of_nat k + 15 * Z.of_nat k * (Z.of_nat k - 1) <= 270)%Z)
      by (assert (Hcases : k = 0%nat \/ k = 1%nat \/ k = 2%nat \/ k = 3%nat) by lia;
          destruct Hcases as [-> | [-> | [-> | ->]]]; cbn; lia);
    rewrite Heq;
    set (response :=
           server (klines_params symbol interval start_timestamp end_timestamp) k) in *;
    destruct (status_code response =? 200)%Z eqn:E200; cbn [negb];
    [apply Z.eqb_eq in E200;
     destruct (json response) as [| [| kline klines_data] | []] eqn:Ej;
     [ | | destruct (prices_of_klines (kline :: klines_data)) as [prices |] eqn:Ep | | ]
    | apply Z.eqb_neq in E200];
    cbn [fetched traffic cache_write requests_sent]; rewrite Htotal;
    (split; [lia |]); (split; [lia |]);
    (split; [intros rows; try discriminate; intros [= <-] H; now contradiction H |]);
    (split; [intros _ [H | H]; discriminate |]).
  all: split; [| split].
  all: try (intros ? ?; discriminate).
  all: try (intros ? ? ?; discriminate).
  all: try (intros rows [= <-]; right; exists start_timestamp, end_timestamp, k;
            fold response; rewrite Ej;
            (split; [first [now left | now right] |]);
            (split; [reflexivity |]); (split; [reflexivity |]); (split; [lia |]);
            (split; [exact E200 |]); (split; [reflexivity |])).
  all: try (split; [| reflexivity]; first [left; now exists [] | right; now split]).
  all: try (destruct (prices_of_klines_rows _ _ Ep) as (klines & Hk1 & Hk2);
            destruct klines as [| kl kls]; [discriminate |];
            split; [left; exists (kl :: kls); split; [now rewrite Hk1 | exact Hk2]
                   | rewrite Hk2; reflexivity]).
  all: try (intros entry [= <-]; exists prices;
            destruct (prices_of_klines_rows _ _ Ep) as (klines & Hk1 & Hk2);
            destruct klines as [| kl kls]; [discriminate |];
            rewrite Hk2; repeat split; [discriminate | lia]).
  all: intros sym status [= <- <-];
    (split; [reflexivity |]); (split; [exact E200 |]); (split; [reflexivity |]);
    (split; [lia |]);
    intros H429; destruct Hlast as [Hlast | ->]; [contradiction |]; split; reflexivity.
Qed.

Lemma int_of_float_bounds (x : Q) :
  (0 <= x -> inject_Z (int_of_float x) <= x < inject_Z (int_of_float x) + 1) /\
  (x <= 0 -> inject_Z (int_of_float x) - 1 < x <= inject_Z (int_of_float x)).
Proof.
  destruct x as [n d]. unfold int_of_float. cbn [Qnum Qden].
  pose proof (Z.quot_rem' n (Z.pos d)) as Hqr.
  split; intros H.
  - assert (Hn : (0 <= n)%Z).
    { unfold Qle in H. cbn in H. lia. }
    pose proof (Z.rem_bound_pos n (Z.pos d) Hn ltac:(lia)) as Hr.
    unfold Qle, Qlt. cbn. change (Z.pos (1 * 1)) with 1%Z.
    generalize dependent (Z.quot n (Z.pos d)). generalize dependent (Z.rem n (Z.pos d)).
    intros r Hr q Hqr. split; nia.
  - assert (Hn : (n <= 0)%Z).
    { unfold Qle in H. cbn in H. lia. }
    assert (Hr : (- Z.pos d < Z.rem n (Z.pos d) <= 0)%Z).
    { pose proof (Z.rem_bound_pos_neg n (Z.pos d) ltac:(lia) Hn). lia. }
    unfold Qle, Qlt. cbn. change (Z.pos (1 * 1)) with 1%Z.
    generalize dependent (Z.quot n (Z.pos d)). generalize dependent (Z.rem n (Z.pos d)).
    intros r Hr q Hqr. split; nia.
Qed.

(** X15. A row made from a kline keeps its open, high, low and close and
    takes the integer part of its volume, cut towards zero: a volume that is
    not negative loses less than one unit, and a volume below one becomes
    0. *)
Theorem price_of_kline_volume (kline : Kline) :
  0 <= kline_volume kline ->
  let price := price_of_kline kline in
  (open price, high price, low price, close price)
    = (kline_open kline, kline_high kline, kline_low kline, kline_close kline) /\
  (0 <= volume price)%Z /\
  inject_Z (volume price) <= kline_volume kline < inject_Z (volume price) + 1 /\
  (kline_volume kline < 1 -> volume price = 0%Z).
Proof.
  intros Hv price. subst price. cbn [open high low close volume price_of_kline].
  destruct (int_of_float_bounds (kline_volume kline)) as [Hpos _].
  specialize (Hpos Hv). split; [reflexivity |].
  assert (H0 : (0 <= int_of_float (kline_volume kline))%Z).
  { destruct (Z_lt_le_dec (int_of_float (kline_volume kline)) 0) as [Hneg | Hge]; [| lia].
    exfalso.
    assert (Hq : inject_Z (int_of_float (kline_volume kline)) <= inject_Z (-1)).
    { rewrite <- Zle_Qle. lia. }
    change (inject_Z (-1)) with (-1) in Hq. lra. }
  split; [exact H0 |]. split; [exact Hpos |].
  intros H1.
  destruct (Z_lt_le_dec (int_of_float (kline_volume kline)) 1) as [Hlt | Hge]; [lia |].
  exfalso.
  assert (Hq : inject_Z 1 <= inject_Z (int_of_float (kline_volume kline))).
  { rewrite <- Zle_Qle. lia. }
  change (inject_Z 1) with 1 in Hq. lra.
Qed.

End GetPricesProperties.

(** * The further properties at concrete inputs *)

Lemma example_prices_rows t : (2 <= length (example_prices t))%nat -> t = "BTCUSDT"%string.
Proof.
  unfold example_prices.
  destruct (String.eqb t "BTCUSDT") eqn:E; [intros _; now apply String.eqb_eq |].
  destruct (String.eqb t "ETHUSDT"); cbn; lia.
Qed.

Lemma combined_percentage_bounds_witness :
  exists a r,
    risk_management_agent sqrt_fixed rolling_fixed rank_none rank_none
      example_prices ["BTCUSDT"; "XRPUSDT"]
      example_portfolio !! "BTCUSDT" = Some a /\
    reasoning a = ReasoningLimit r /\
    0.0195 <= base_position_limit_pct r <= 0.15 /\
    0.70 <= correlation_multiplier r <= 1.10 /\
    combined_position_limit_pct r = base_position_limit_pct r * correlation_multiplier r /\
    0.01365 <= combined_position_limit_pct r <= 0.165 /\
    position_limit r = portfolio_value r * combined_position_limit_pct r.
Proof.
  apply (combined_percentage_bounds sqrt_fixed rolling_fixed rank_none rank_none
           example_prices ["BTCUSDT"; "XRPUSDT"]
           example_portfolio "BTCUSDT" 500).
  - left. reflexivity.
  - vm_compute. reflexivity.
  - reflexivity.
Defined.

Lemma base_percentage_from_own_series_witness :
  exists a r prices_df,
    risk_management_agent sqrt_fixed rolling_fixed rank_none rank_none
      example_prices ["BTCUSDT"; "XRPUSDT"]
      example_portfolio !! "BTCUSDT" = Some a /\
    reasoning a = ReasoningLimit r /\
    prices_to_df (example_prices "BTCUSDT") = Some prices_df /\
    (2 <= length (example_prices "BTCUSDT"))%nat /\
    current_price a = List.last (values (close_column prices_df)) 0 /\
    volatility_metrics a
      = Some (calculate_volatility_metrics sqrt_fixed rolling_fixed prices_df 60) /\
    base_position_limit_pct r
      = calculate_volatility_adjusted_limit
          (annualized_volatility
             (calculate_volatility_metrics sqrt_fixed rolling_fixed prices_df 60)).
Proof.
  apply (base_percentage_from_own_series sqrt_fixed rolling_fixed rank_none rank_none
           example_prices
           ["BTCUSDT"; "XRPUSDT"] example_portfolio "BTCUSDT" 500).
  - left. reflexivity.
  - vm_compute. reflexivity.
  - reflexivity.
Defined.

Lemma limit_without_positions_witness :
  exists a r,
    risk_management_agent sqrt_fixed rolling_fixed rank_none rank_none
      example_prices ["BTCUSDT"] cash_only_portfolio
      !! "BTCUSDT" = Some a /\
    reasoning a = ReasoningLimit r /\
    portfolio_value r = get_cash cash_only_portfolio /\
    current_position_value r == 0 /\
    remaining_position_limit a = remaining_limit r /\
    remaining_position_limit a
      == get_cash cash_only_portfolio * combined_position_limit_pct r /\
    remaining_position_limit a <= 0.165 * get_cash cash_only_portfolio.
Proof.
  apply (limit_without_positions sqrt_fixed rolling_fixed rank_none rank_none
           example_prices ["BTCUSDT"]
           cash_only_portfolio "BTCUSDT" 500).
  - reflexivity.
  - vm_compute. discriminate.
  - left. reflexivity.
  - vm_compute. reflexivity.
  - reflexivity.
Defined.

Lemma neutral_without_correlation_witness :
  exists a r,
    risk_management_agent sqrt_fixed rolling_fixed rank_none rank_none
      example_prices ["BTCUSDT"; "ETHUSDT"; "XRPUSDT"]
      example_portfolio !! "BTCUSDT" = Some a /\
    reasoning a = ReasoningLimit r /\
    correlation_multiplier r = 1.0 /\
    combined_position_limit_pct r == base_position_limit_pct r /\
    correlation_metrics a =
      Some {| avg_correlation_with_active := None;
              max_correlation_with_active := None;
              top_correlated_tickers := [] |}.
Proof.
  apply (neutral_without_correlation sqrt_fixed rolling_fixed rank_none rank_none
           example_prices
           ["BTCUSDT"; "ETHUSDT"; "XRPUSDT"] example_portfolio "BTCUSDT" 500).
  - intros t u _ _ Ht Hu.
    rewrite (example_prices_rows t Ht), (example_prices_rows u Hu). reflexivity.
  - left. reflexivity.
  - vm_compute. reflexivity.
  - reflexivity.
Defined.

(** BTCUSDT is held but not requested: it is valued (the portfolio value is
    the cash and two units at 500) and it is not assessed. *)
Example held_symbol_not_assessed :
  risk_management_agent sqrt_fixed rolling_fixed rank_none rank_none example_prices
    ["XRPUSDT"] example_portfolio !! "BTCUSDT" = None /\
  total_portfolio_value example_portfolio
    (current_prices (fetch_all sqrt_fixed rolling_fixed rank_none example_prices
                       ["XRPUSDT"] example_portfolio))
  == 11000.
Proof. split; vm_compute; reflexivity. Qed.

Lemma recorded_price_is_latest_close_witness :
  exists r,
    In r (example_prices "BTCUSDT") /\
    recorded_price (example_prices "BTCUSDT") = Some (close r) /\
    forall r', In r' (example_prices "BTCUSDT") -> String.leb (time r') (time r) = true.
Proof.
  apply (recorded_price_is_latest_close (example_prices "BTCUSDT")).
  cbn. lia.
Defined.

(** The rows of BTCUSDT come latest first; the close recorded is the one of
    the later day. *)
Example recorded_price_example :
  recorded_price (example_prices "BTCUSDT") = Some 500 /\
  map close <$> prices_to_df (example_prices "BTCUSDT") = Some [400; 500].
Proof. split; vm_compute; reflexivity. Qed.

Lemma price_of_kline_volume_witness :
  let price := price_of_kline example_strftime example_kline in
  (open price, high price, low price, close price)
    = (kline_open example_kline, kline_high example_kline,
       kline_low example_kline, kline_close example_kline) /\
  (0 <= volume price)%Z /\
  inject_Z (volume price) <= kline_volume example_kline < inject_Z (volume price) + 1 /\
  (kline_volume example_kline < 1 -> volume price = 0%Z).
Proof.
  apply (price_of_kline_volume example_strftime example_kline).
  vm_compute. discriminate.
Defined.

(** 12.75 units are recorded as 12. *)
Example price_of_kline_example :
  volume (price_of_kline example_strftime example_kline) = 12%Z.
Proof. reflexivity. Qed.

(** * Properties of the fundamentals analyst *)

(** The overall signal and confidence of four signals of which the third
    (the volatility signal) is not neutral. *)
Lemma overall_of_four (s0 s1 s2 s3 : Fundamentals.Signal) :
  s2 <> Fundamentals.neutral ->
  let result := Fundamentals.overall [s0; s1; s2; s3] in
  (snd result == 25 \/ snd result == 50 \/ snd result == 75 \/ snd result == 100) /\
  (snd result == 100 <->
     s0 = fst result /\ s1 = fst result /\ s2 = fst result /\ s3 = fst result) /\
  (fst result = Fundamentals.neutral -> snd result == 25 \/ snd result == 50) /\
  (s1 = Fundamentals.neutral -> snd result <= 75).
Proof.
  intros Hs2.
  destruct s0, s1, s2, s3; try (exfalso; apply Hs2; reflexivity); clear Hs2;
    vm_compute;
    (split; [first [ left; reflexivity
                   | right; left; reflexivity
                   | right; right; left; reflexivity
                   | right; right; right; reflexivity ] |]);
    (split; [split; [intros H; try discriminate H; repeat split
                    | intros (H0 & H1 & H2 & H3);
                      try discriminate H0; try discriminate H1;
                      try discriminate H2; try discriminate H3; reflexivity] |]);
    (split; [intros H; try discriminate H;
             first [left; reflexivity | right; reflexivity] |]);
    intros H; try discriminate H; discriminate.
Qed.

Section FundamentalsProperties.

Variable sqrt : Q -> Q.
Variable get_financial_metrics : string -> list Fundamentals.FinancialMetrics.
Variable get_prices : string -> list Price.

Local Abbreviation analyse := (Fundamentals.analyse sqrt).
Local Abbreviation analyse_ticker :=
  (Fundamentals.analyse_ticker sqrt get_financial_metrics get_prices).
Local Abbreviation fundamentals_analyst_agent :=
  (Fundamentals.fundamentals_analyst_agent sqrt get_financial_metrics get_prices).

(** The analysis stored for a ticker, if any. *)
Lemma analyse_ticker_lookup m x t :
  analyse_ticker m x !! t =
  if decide (x = t) then
    match get_financial_metrics t, get_prices t with
    | metrics :: _, p :: ps => Some (analyse metrics (sort_index (p :: ps)))
    | _, _ => m !! t
    end
  else m !! t.
Proof.
  unfold Fundamentals.analyse_ticker.
  destruct (decide (x = t)) as [-> | Hne].
  - destruct (get_financial_metrics t) as [| metrics ms]; [reflexivity |].
    destruct (get_prices t) as [| p ps]; [reflexivity |].
    apply lookup_insert_eq.
  - destruct (get_financial_metrics x) as [| metrics ms]; [reflexivity |].
    destruct (get_prices x) as [| p ps]; [reflexivity |].
    now apply lookup_insert_ne.
Qed.

Lemma fold_analyse_lookup l m t :
  fold_left analyse_ticker l m !! t =
  if decide (t ∈ l) then
    match get_financial_metrics t, get_prices t with
    | metrics :: _, p :: ps => Some (analyse metrics (sort_index (p :: ps)))
    | _, _ => m !! t
    end
  else m !! t.
Proof.
  revert m. induction l as [| x l IH]; intros m; cbn [fold_left].
  - rewrite decide_False; [reflexivity | apply not_elem_of_nil].
  - rewrite IH, analyse_ticker_lookup.
    destruct (decide (x = t)) as [-> | Hne].
    + rewrite (decide_True (P := t ∈ t :: l)) by apply list_elem_of_here.
      destruct (decide (t ∈ l)); [| reflexivity].
      destruct (get_financial_metrics t) as [| metrics ms]; [reflexivity |].
      now destruct (get_prices t).
    + destruct (decide (t ∈ l)) as [Hin | Hin].
      * rewrite decide_True; [reflexivity | now apply list_elem_of_further].
      * rewrite decide_False; [reflexivity |].
        intros H. apply elem_of_cons in H as [H | H]; [exact (Hne (eq_sym H)) | exact (Hin H)].
Qed.

Lemma fundamentals_lookup tickers t :
  fundamentals_analyst_agent tickers !! t =
  if decide (t ∈ tickers) then
    match get_financial_metrics t, get_prices t with
    | metrics :: _, p :: ps => Some (analyse metrics (sort_index (p :: ps)))
    | _, _ => None
    end
  else None.
Proof.
  unfold Fundamentals.fundamentals_analyst_agent. rewrite fold_analyse_lookup.
  rewrite lookup_empty.
  destruct (decide (t ∈ tickers)); [| reflexivity].
  destruct (get_financial_metrics t); [reflexivity |].
  now destruct (get_prices t).
Qed.

Lemma fundamentals_lookup_inv tickers t a :
  fundamentals_analyst_agent tickers !! t = Some a ->
  In t tickers /\
  exists metrics ms p ps,
    get_financial_metrics t = metrics :: ms /\ get_prices t = p :: ps /\
    a = analyse metrics (sort_index (p :: ps)).
Proof.
  rewrite fundamentals_lookup.
  destruct (decide (t ∈ tickers)) as [Hin | Hin]; [| discriminate].
  destruct (get_financial_metrics t) as [| metrics ms]; [discriminate |].
  destruct (get_prices t) as [| p ps]; [discriminate |].
  intros [= <-]. split; [now apply list_elem_of_In |].
  now exists metrics, ms, p, ps.
Qed.

(** The volatility signal of an analysis is bullish or bearish. *)
Lemma analyse_volatility_signal metrics prices_df :
  fst (Fundamentals.volatility_signal (Fundamentals.reasoning (analyse metrics prices_df)))
  <> Fundamentals.neutral.
Proof.
  unfold Fundamentals.analyse.
  cbv beta iota zeta delta [Fundamentals.reasoning Fundamentals.volatility_signal fst].
  match goal with
  | |- (if ?c then _ else _) <> _ => destruct c; discriminate
  end.
Qed.

Lemma analyse_overall metrics prices_df :
  let a := analyse metrics prices_df in
  let r := Fundamentals.reasoning a in
  (Fundamentals.signal a, Fundamentals.confidence a) =
  Fundamentals.overall
    [fst (Fundamentals.trading_activity_signal r); fst (Fundamentals.momentum_signal r);
     fst (Fundamentals.volatility_signal r); fst (Fundamentals.performance_signal r)].
Proof.
  cbv zeta. unfold Fundamentals.analyse.
  cbv beta iota zeta delta [Fundamentals.reasoning Fundamentals.signal
    Fundamentals.confidence Fundamentals.volatility_signal
    Fundamentals.trading_activity_signal Fundamentals.momentum_signal
    Fundamentals.performance_signal].
  cbn [fst snd].
  match goal with |- (fst ?o, snd ?o) = _ => now destruct o end.
Qed.

(** X16. The fundamentals analyst stores an analysis exactly for the
    requested tickers that have both metrics and price rows; a ticker without
    either is passed over and has no entry at all. *)
Theorem fundamentals_keys (tickers : list string) (t : string) :
  is_Some (fundamentals_analyst_agent tickers !! t) <->
  In t tickers /\ get_financial_metrics t <> [] /\ get_prices t <> [].
Proof.
  rewrite fundamentals_lookup. split.
  - destruct (decide (t ∈ tickers)) as [Hin | Hin]; [| intros [x Hx]; discriminate].
    destruct (get_financial_metrics t) as [| metrics ms]; [intros [x Hx]; discriminate |].
    destruct (get_prices t) as [| p ps]; [intros [x Hx]; discriminate |].
    intros _. split; [now apply list_elem_of_In |]. split; discriminate.
  - intros (Hin & Hm & Hp).
    rewrite decide_True by (now apply list_elem_of_In).
    destruct (get_financial_metrics t) as [| metrics ms]; [contradiction |].
    destruct (get_prices t) as [| p ps]; [contradiction |].
    eexists. reflexivity.
Qed.

(** X17. In every analysis the overall signal and the confidence are those
    of its four signals; the volatility signal is never neutral; so the
    confidence is 25, 50, 75 or 100, it is 100 exactly when the four signals
    agree with the overall signal, and a neutral overall signal has a
    confidence of 25 or 50. *)
Theorem fundamentals_confidence (tickers : list string) (t : string)
    (a : Fundamentals.Analysis) :
  fundamentals_analyst_agent tickers !! t = Some a ->
  let r := Fundamentals.reasoning a in
  let signals :=
    [fst (Fundamentals.trading_activity_signal r); fst (Fundamentals.momentum_signal r);
     fst (Fundamentals.volatility_signal r); fst (Fundamentals.performance_signal r)] in
  (Fundamentals.signal a, Fundamentals.confidence a) = Fundamentals.overall signals /\
  fst (Fundamentals.volatility_signal r) <> Fundamentals.neutral /\
  (Fundamentals.confidence a == 25 \/ Fundamentals.confidence a == 50 \/
   Fundamentals.confidence a == 75 \/ Fundamentals.confidence a == 100) /\
  (Fundamentals.confidence a == 100 <->
     Forall (fun s => s = Fundamentals.signal a) signals) /\
  (Fundamentals.signal a = Fundamentals.neutral ->
     Fundamentals.confidence a == 25 \/ Fundamentals.confidence a == 50).
Proof.
  intros Ha r signals. subst r signals.
  destruct (fundamentals_lookup_inv tickers t a Ha)
    as (_ & metrics & ms & p & ps & _ & _ & ->).
  pose proof (analyse_overall metrics (sort_index (p :: ps))) as Ho. cbv zeta in Ho.
  pose proof (analyse_volatility_signal metrics (sort_index (p :: ps))) as Hv.
  destruct (overall_of_four
              (fst (Fundamentals.trading_activity_signal
                      (Fundamentals.reasoning (analyse metrics (sort_index (p :: ps))))))
              (fst (Fundamentals.momentum_signal
                      (Fundamentals.reasoning (analyse metrics (sort_index (p :: ps))))))
              _
              (fst (Fundamentals.performance_signal
                      (Fundamentals.reasoning (analyse metrics (sort_index (p :: ps))))))
              Hv) as (Hset & H100 & Hneutral & _).
  rewrite <- Ho in Hset, H100, Hneutral. cbn [fst snd] in Hset, H100, Hneutral.
  split; [exact Ho |]. split; [exact Hv |]. split; [exact Hset |].
  split; [| exact Hneutral].
  rewrite H100. split.
  - intros (H0 & H1 & H2 & H3). repeat constructor; assumption.
  - intros HF. inversion HF as [| ? ? H0 HF1]; subst.
    inversion HF1 as [| ? ? H1 HF2]; subst.
    inversion HF2 as [| ? ? H2 HF3]; subst.
    inversion HF3 as [| ? ? H3 _]; subst. auto.
Qed.

(** X18. With fewer than 50 price rows the momentum signal is neutral, for
    want of data, and the confidence is at most 75. *)
Theorem fundamentals_short_history (tickers : list string) (t : string)
    (a : Fundamentals.Analysis) :
  (length (get_prices t) < 50)%nat ->
  fundamentals_analyst_agent tickers !! t = Some a ->
  Fundamentals.momentum_signal (Fundamentals.reasoning a)
    = (Fundamentals.neutral, None) /\
  Fundamentals.confidence a <= 75.
Proof.
  intros Hlen Ha.
  destruct (fundamentals_lookup_inv tickers t a Ha)
    as (_ & metrics & ms & p & ps & _ & Hp & ->).
  pose proof (analyse_overall metrics (sort_index (p :: ps))) as Ho. cbv zeta in Ho.
  pose proof (analyse_volatility_signal metrics (sort_index (p :: ps))) as Hv.
  assert (Hm : Fundamentals.momentum_signal
                 (Fundamentals.reasoning (analyse metrics (sort_index (p :: ps))))
               = (Fundamentals.neutral, None)).
  { unfold Fundamentals.analyse.
    cbv beta iota zeta delta [Fundamentals.reasoning Fundamentals.momentum_signal].
    rewrite length_sort_index, <- Hp.
    destruct (50 <=? length (get_prices t))%nat eqn:E; [| reflexivity].
    apply Nat.leb_le in E. lia. }
  split; [exact Hm |].
  destruct (overall_of_four
              (fst (Fundamentals.trading_activity_signal
                      (Fundamentals.reasoning (analyse metrics (sort_index (p :: ps))))))
              (fst (Fundamentals.momentum_signal
                      (Fundamentals.reasoning (analyse metrics (sort_index (p :: ps))))))
              _
              (fst (Fundamentals.performance_signal
                      (Fundamentals.reasoning (analyse metrics (sort_index (p :: ps))))))
              Hv) as (_ & _ & _ & Hle).
  rewrite <- Ho in Hle. cbn [snd] in Hle. apply Hle. now rewrite Hm.
Qed.

(** X19. A ticker with metrics and a single price row is always found
    bearish: its momentum signal is neutral, its volatility and performance
    signals are bearish whatever the row and the metrics, and the confidence
    is 50 or 75. *)
Theorem fundamentals_single_row (tickers : list string) (t : string) :
  In t tickers ->
  get_financial_metrics t <> [] ->
  length (get_prices t) = 1%nat ->
  exists a,
    fundamentals_analyst_agent tickers !! t = Some a /\
    Fundamentals.signal a = Fundamentals.bearish /\
    fst (Fundamentals.momentum_signal (Fundamentals.reasoning a)) = Fundamentals.neutral /\
    fst (Fundamentals.volatility_signal (Fundamentals.reasoning a)) = Fundamentals.bearish /\
    fst (Fundamentals.performance_signal (Fundamentals.reasoning a))
      = Fundamentals.bearish /\
    (Fundamentals.confidence a == 50 \/ Fundamentals.confidence a == 75).
Proof.
  intros Hin Hm Hlen.
  rewrite fundamentals_lookup, decide_True by (now apply list_elem_of_In).
  destruct (get_financial_metrics t) as [| metrics ms]; [contradiction |].
  destruct (get_prices t) as [| p [| p' ps]]; try discriminate.
  eexists. split; [reflexivity |].
  pose proof (analyse_overall metrics (sort_index [p])) as Ho. cbv zeta in Ho.
  assert (H1 : fst (Fundamentals.momentum_signal
                      (Fundamentals.reasoning (analyse metrics (sort_index [p]))))
               = Fundamentals.neutral) by reflexivity.
  assert (H2 : fst (Fundamentals.volatility_signal
                      (Fundamentals.reasoning (analyse metrics (sort_index [p]))))
               = Fundamentals.bearish) by reflexivity.
  assert (H3 : fst (Fundamentals.performance_signal
                      (Fundamentals.reasoning (analyse metrics (sort_index [p]))))
               = Fundamentals.bearish) by reflexivity.
  rewrite H1, H2, H3 in Ho.
  assert (Hs : Fundamentals.signal (analyse metrics (sort_index [p]))
               = Fundamentals.bearish /\
               (Fundamentals.confidence (analyse metrics (sort_index [p])) == 50 \/
                Fundamentals.confidence (analyse metrics (sort_index [p])) == 75)).
  { pose proof (f_equal fst Ho) as Hf. pose proof (f_equal snd Ho) as Hc.
    change (fst (?x, ?y)) with x in Hf. change (snd (?x, ?y)) with y in Hc.
    rewrite Hf, Hc.
    destruct (fst (Fundamentals.trading_activity_signal _)); vm_compute;
      (split; [reflexivity | first [left; reflexivity | right; reflexivity]]). }
  destruct Hs as [Hs Hc].
  split; [exact Hs |]. split; [exact H1 |]. split; [exact H2 |]. split; [exact H3 |].
  exact Hc.
Qed.

End FundamentalsProperties.

Lemma fundamentals_confidence_witness :
  let a := Fundamentals.analyse sqrt_fixed
             {| Fundamentals.market_cap := Some 2000000000;
                Fundamentals.return_on_equity := Some 0.03 |}
             (sort_index (example_prices "BTCUSDT")) in
  let r := Fundamentals.reasoning a in
  let signals :=
    [fst (Fundamentals.trading_activity_signal r); fst (Fundamentals.momentum_signal r);
     fst (Fundamentals.volatility_signal r); fst (Fundamentals.performance_signal r)] in
  (Fundamentals.signal a, Fundamentals.confidence a) = Fundamentals.overall signals /\
  fst (Fundamentals.volatility_signal r) <> Fundamentals.neutral /\
  (Fundamentals.confidence a == 25 \/ Fundamentals.confidence a == 50 \/
   Fundamentals.confidence a == 75 \/ Fundamentals.confidence a == 100) /\
  (Fundamentals.confidence a == 100 <->
     Forall (fun s => s = Fundamentals.signal a) signals) /\
  (Fundamentals.signal a = Fundamentals.neutral ->
     Fundamentals.confidence a == 25 \/ Fundamentals.confidence a == 50).
Proof.
  apply (fundamentals_confidence sqrt_fixed example_metrics example_prices
           ["BTCUSDT"; "XRPUSDT"] "BTCUSDT").
  vm_compute. reflexivity.
Defined.

(** The two rows of BTCUSDT with a 3% daily change and a large market value:
    trading activity bullish, momentum neutral, volatility bearish (a single
    return has no deviation), performance bearish. *)
Example fundamentals_example :
  match Fundamentals.fundamentals_analyst_agent sqrt_fixed example_metrics example_prices
          ["BTCUSDT"; "XRPUSDT"] !! "BTCUSDT" with
  | Some a =>
      map fst [Fundamentals.momentum_signal (Fundamentals.reasoning a)]
        = [Fundamentals.neutral] /\
      fst (Fundamentals.trading_activity_signal (Fundamentals.reasoning a))
        = Fundamentals.bullish /\
      fst (Fundamentals.volatility_signal (Fundamentals.reasoning a))
        = Fundamentals.bearish /\
      fst (Fundamentals.performance_signal (Fundamentals.reasoning a))
        = Fundamentals.bearish /\
      Fundamentals.signal a = Fundamentals.bearish /\
      Fundamentals.confidence a == 50
  | None => False
  end.
Proof. vm_compute. repeat split; reflexivity. Qed.

Lemma fundamentals_short_history_witness :
  let a := Fundamentals.analyse sqrt_fixed
             {| Fundamentals.market_cap := Some 2000000000;
                Fundamentals.return_on_equity := Some 0.03 |}
             (sort_index (example_prices "BTCUSDT")) in
  Fundamentals.momentum_signal (Fundamentals.reasoning a)
    = (Fundamentals.neutral, None) /\
  Fundamentals.confidence a <= 75.
Proof.
  apply (fundamentals_short_history sqrt_fixed example_metrics example_prices
           ["BTCUSDT"; "XRPUSDT"] "BTCUSDT").
  - cbn. lia.
  - vm_compute. reflexivity.
Defined.

Lemma fundamentals_single_row_witness :
  exists a,
    Fundamentals.fundamentals_analyst_agent sqrt_fixed example_metrics example_prices
      ["BTCUSDT"; "ETHUSDT"] !! "ETHUSDT" = Some a /\
    Fundamentals.signal a = Fundamentals.bearish /\
    fst (Fundamentals.momentum_signal (Fundamentals.reasoning a)) = Fundamentals.neutral /\
    fst (Fundamentals.volatility_signal (Fundamentals.reasoning a)) = Fundamentals.bearish /\
    fst (Fundamentals.performance_signal (Fundamentals.reasoning a))
      = Fundamentals.bearish /\
    (Fundamentals.confidence a == 50 \/ Fundamentals.confidence a == 75).
Proof.
  apply (fundamentals_single_row sqrt_fixed example_metrics example_prices
           ["BTCUSDT"; "ETHUSDT"] "ETHUSDT").
  - right. left. reflexivity.
  - discriminate.
  - reflexivity.
Defined.
